(** * renovar-backend: blog-post CRUD server, two variants

    Shallow embedding of [src/server.js] (file mode: posts kept in a JSON
    array file) and of the hosted-service variant (backend mode: posts kept
    in a table of an external database service), and the properties of the
    specification settled on it.

    Conventions of the model.
    - A JavaScript string is a [string] whose characters are read as code
      units U+0000..U+00FF (Latin-1).  [toLowerCase], the class [\s] and
      the class [[^a-z0-9 -]] are modelled on that range.
    - A JavaScript number holding an integer (an id, [Date.now()]) is a [Z].
    - A value that may be [undefined]/[null] is an [option]; the fields of
      a request body are strings or absent.  The create handlers are given
      a second time on bodies of arbitrary JSON values (module [JsonBody]).
    - A post of the file is a record with the fields the create handler
      writes; the file holds an array of such posts or text that does not
      parse.
    - Clock readings, I/O outcomes and the replies of third-party libraries
      are explicit inputs of the handlers. *)

From Stdlib Require Import String Ascii List ZArith Bool Lia.
From Stdlib Require Import DecimalString.
From Stdlib Require DecimalPos.
From Stdlib Require QArith.
Import ListNotations.

Local Open Scope string_scope.

(* ================================================================== *)
(** * Part I. Definitions *)
(* ================================================================== *)

(** ** Characters and character classes *)

Definition code (c : ascii) : nat := nat_of_ascii c.

Definition in_range (lo hi : nat) (c : ascii) : bool :=
  Nat.leb lo (code c) && Nat.leb (code c) hi.

(** [a-z], [0-9], the space and the hyphen. *)
Definition is_lower (c : ascii) : bool := in_range 97 122 c.
Definition is_digit (c : ascii) : bool := in_range 48 57 c.
Definition is_space (c : ascii) : bool := Nat.eqb (code c) 32.
Definition is_hyphen (c : ascii) : bool := Nat.eqb (code c) 45.

(** The class [[a-z0-9 -]]; the source uses its complement. *)
Definition slug_keep (c : ascii) : bool :=
  is_lower c || is_digit c || is_space c || is_hyphen c.

(** The class [[^a-z0-9 -]]. *)
Definition slug_drop (c : ascii) : bool := negb (slug_keep c).

(** The class [\s] on U+0000..U+00FF: TAB, LF, VT, FF, CR, SP, NBSP. *)
Definition is_ws (c : ascii) : bool :=
  in_range 9 13 c || Nat.eqb (code c) 32 || Nat.eqb (code c) 160.

(** ** [String.prototype.toLowerCase] on U+0000..U+00FF

    [A-Z] and U+00C0..U+00DE except the multiplication sign U+00D7 move up
    by 32; every other code unit of the range is its own lower case. *)
Definition lower_char (c : ascii) : ascii :=
  if in_range 65 90 c then ascii_of_nat (code c + 32)
  else if in_range 192 222 c && negb (Nat.eqb (code c) 215)
       then ascii_of_nat (code c + 32)
  else c.

Fixpoint toLowerCase (s : string) : string :=
  match s with
  | EmptyString => EmptyString
  | String c s' => String (lower_char c) (toLowerCase s')
  end.

(** ** The regular expressions of the source

    Only the constructs that occur in the source: a character class, a
    greedy [+] over a class, the anchors [^] and [$] (no [m] flag),
    sequence and alternation. *)
Inductive regex : Type :=
| Cls (p : ascii -> bool)
| Plus (p : ascii -> bool)
| Bol
| Eol
| Seq (r1 r2 : regex)
| Alt (r1 r2 : regex).

(** Greedy [p+] with backtracking: after one character of the class, first
    try to take more, then hand the rest to the continuation [k].  The
    result is the number of characters consumed, continuation included. *)
Fixpoint plus_k (p : ascii -> bool) (s : string)
         (k : string -> option nat) : option nat :=
  match s with
  | EmptyString => None
  | String c s' =>
      if p c then
        match plus_k p s' k with
        | Some n => Some (S n)
        | None => option_map S (k s')
        end
      else None
  end.

(** Backtracking matcher anchored at the current position.  [bol] says
    whether the position is the start of the input. *)
Fixpoint rmatch (r : regex) (bol : bool) (s : string)
         (k : bool -> string -> option nat) : option nat :=
  match r with
  | Cls p =>
      match s with
      | String c s' => if p c then option_map S (k false s') else None
      | EmptyString => None
      end
  | Plus p => plus_k p s (k false)
  | Bol => if bol then k bol s else None
  | Eol => match s with EmptyString => k bol s | String _ _ => None end
  | Seq r1 r2 => rmatch r1 bol s (fun b t => rmatch r2 b t k)
  | Alt r1 r2 =>
      match rmatch r1 bol s k with
      | Some n => Some n
      | None => rmatch r2 bol s k
      end
  end.

(** Length of the match of [r] at the current position, if any. *)
Definition match_len (r : regex) (bol : bool) (s : string) : option nat :=
  rmatch r bol s (fun _ _ => Some 0).

(** [String.prototype.replace] with a global regular expression and a
    replacement string without [$] patterns.  [skip] counts the characters
    of the last match that are still to be passed over (the distance to
    [lastIndex]); an empty match inserts the replacement and moves on by
    one character. *)
Fixpoint replace_from (r : regex) (repl : string) (bol : bool)
         (skip : nat) (s : string) : string :=
  match s with
  | EmptyString =>
      match skip with
      | O => match match_len r bol EmptyString with
             | Some _ => repl
             | None => EmptyString
             end
      | S _ => EmptyString
      end
  | String c s' =>
      match skip with
      | S k => replace_from r repl false k s'
      | O =>
          match match_len r bol s with
          | Some O => repl ++ String c (replace_from r repl false 0 s')
          | Some (S n) => repl ++ replace_from r repl false n s'
          | None => String c (replace_from r repl false 0 s')
          end
      end
  end.

Definition replace_all (r : regex) (repl : string) (s : string) : string :=
  replace_from r repl true 0 s.

(** [/[^a-z0-9 -]/g], [/\s+/g], [/-+/g], [/^-+|-+$/g]. *)
Definition re_drop : regex := Cls slug_drop.
Definition re_spaces : regex := Plus is_ws.
Definition re_hyphens : regex := Plus is_hyphen.
Definition re_edges : regex :=
  Alt (Seq Bol (Plus is_hyphen)) (Seq (Plus is_hyphen) Eol).

(** ** [generateSlug] (identical in both variants) *)
Definition generateSlug (title : string) : string :=
  replace_all re_edges ""
    (replace_all re_hyphens "-"
       (replace_all re_spaces "-"
          (replace_all re_drop "" (toLowerCase title)))).

(** ** The slug as the specification words it

    Lower-case; strip what is not a lower-case letter, digit, space or
    hyphen; replace each maximal run of whitespace by a hyphen; collapse
    each run of hyphens to one; remove leading and trailing hyphens. *)
Fixpoint strip (keep : ascii -> bool) (s : string) : string :=
  match s with
  | EmptyString => EmptyString
  | String c s' =>
      if keep c then String c (strip keep s') else strip keep s'
  end.

(** Each maximal run of characters of class [p] becomes the single
    character [r]; [in_run] records that the previous character was in
    the class. *)
Fixpoint squeeze (p : ascii -> bool) (r : ascii) (in_run : bool)
         (s : string) : string :=
  match s with
  | EmptyString => EmptyString
  | String c s' =>
      if p c then
        if in_run then squeeze p r true s'
        else String r (squeeze p r true s')
      else String c (squeeze p r false s')
  end.

Fixpoint trim_left (p : ascii -> bool) (s : string) : string :=
  match s with
  | EmptyString => EmptyString
  | String c s' => if p c then trim_left p s' else s
  end.

Fixpoint trim_right (p : ascii -> bool) (s : string) : string :=
  match s with
  | EmptyString => EmptyString
  | String c s' =>
      match trim_right p s' with
      | EmptyString => if p c then EmptyString else String c EmptyString
      | t => String c t
      end
  end.

Definition hyphen : ascii := "-"%char.

Definition spec_slug (title : string) : string :=
  trim_right is_hyphen
    (trim_left is_hyphen
       (squeeze is_hyphen hyphen false
          (squeeze is_ws hyphen false
             (strip slug_keep (toLowerCase title))))).

(** Length of the maximal run of class [p] at the head of a string, and
    whether a whole string is in the class. *)
Fixpoint run_len (p : ascii -> bool) (s : string) : nat :=
  match s with
  | EmptyString => 0
  | String c s' => if p c then S (run_len p s') else 0
  end.

Fixpoint all_in (p : ascii -> bool) (s : string) : bool :=
  match s with
  | EmptyString => true
  | String c s' => p c && all_in p s'
  end.

(** The continuation of [$]: succeed on the empty rest only. *)
Definition at_end (t : string) : option nat :=
  match t with EmptyString => Some 0 | String _ _ => None end.

(** The characters a slug is made of: [[a-z0-9-]]. *)
Definition slug_char (c : ascii) : bool :=
  is_lower c || is_digit c || is_hyphen c.

(** No two adjacent characters of class [p]; [prev] says that the
    character before the string is in the class. *)
Fixpoint no_adjacent (p : ascii -> bool) (prev : bool) (s : string) : bool :=
  match s with
  | EmptyString => true
  | String c s' =>
      if p c then negb prev && no_adjacent p true s'
      else no_adjacent p false s'
  end.

Definition starts_in (p : ascii -> bool) (s : string) : bool :=
  match s with
  | EmptyString => false
  | String c _ => p c
  end.

(** The shape of a finished slug: only [[a-z0-9-]], no doubled hyphen, no
    hyphen at either end. *)
Definition slug_shaped (s : string) : Prop :=
  all_in slug_char s = true /\
  no_adjacent is_hyphen false s = true /\
  trim_left is_hyphen s = s /\
  trim_right is_hyphen s = s.

(** ** JavaScript values and built-ins used by the handlers *)

(** Truthiness of a value that is [undefined] or a string: [!v] is
    [negb (truthy v)], so an absent field and an empty one are alike. *)
Definition truthy (v : option string) : bool :=
  match v with
  | Some (String _ _) => true
  | _ => false
  end.

(** [a || null] for such a value. *)
Definition or_null (v : option string) : option string :=
  if truthy v then v else None.

Definition chr_is (d c : ascii) : bool := Ascii.eqb c d.

Definition digit_val (c : ascii) : option Z :=
  if is_digit c then Some (Z.of_nat (code c - 48)) else None.

Definition hex_val (c : ascii) : option Z :=
  if is_digit c then Some (Z.of_nat (code c - 48))
  else if in_range 97 102 c then Some (Z.of_nat (code c - 87))
  else if in_range 65 70 c then Some (Z.of_nat (code c - 55))
  else None.

(** Value, in the given radix, of the longest prefix of digits; [acc] is
    the value read so far and [seen] tells whether a digit was read. *)
Fixpoint read_digits (val : ascii -> option Z) (radix : Z) (seen : bool)
         (acc : Z) (s : string) : option Z :=
  match s with
  | EmptyString => if seen then Some acc else None
  | String c s' =>
      match val c with
      | Some d => read_digits val radix true (acc * radix + d) s'
      | None => if seen then Some acc else None
      end
  end.

(** [parseInt(string)] without a radix: leading whitespace, a sign, an
    optional [0x]/[0X], then the longest prefix of digits; [None] is
    [NaN].  The result is exact, as JavaScript's is below 2^53. *)
Definition parseInt (s : string) : option Z :=
  let s1 := trim_left is_ws s in
  let '(neg, s2) :=
    match s1 with
    | String c r =>
        if chr_is "-" c then (true, r)
        else if chr_is "+" c then (false, r)
        else (false, s1)
    | EmptyString => (false, s1)
    end in
  let magnitude :=
    match s2 with
    | String z (String x r) =>
        if chr_is "0" z && (chr_is "x" x || chr_is "X" x)
        then read_digits hex_val 16 false 0 r
        else read_digits digit_val 10 false 0 s2
    | _ => read_digits digit_val 10 false 0 s2
    end in
  option_map (fun m => if neg then (- m)%Z else m) magnitude.

(** The string grammar of [Number(string)] (StringNumericLiteral). *)
Definition digits1 (p : ascii -> bool) (s : string) : bool :=
  match s with
  | EmptyString => false
  | String _ _ => all_in p s
  end.

Definition drop_sign (s : string) : string :=
  match s with
  | String c r => if chr_is "+" c || chr_is "-" c then r else s
  | EmptyString => s
  end.

(** An optional exponent part [e±digits] and nothing after it. *)
Definition exponent_opt (s : string) : bool :=
  match s with
  | EmptyString => true
  | String e r => (chr_is "e" e || chr_is "E" e) && digits1 is_digit (drop_sign r)
  end.

Definition unsigned_decimal (u : string) : bool :=
  if String.eqb u "Infinity" then true
  else
    let n1 := run_len is_digit u in
    match trim_left is_digit u with
    | String c r =>
        if chr_is "." c then
          let n2 := run_len is_digit r in
          negb (Nat.eqb n1 0 && Nat.eqb n2 0)
          && exponent_opt (trim_left is_digit r)
        else negb (Nat.eqb n1 0) && exponent_opt (String c r)
    | EmptyString => negb (Nat.eqb n1 0)
    end.

Definition non_decimal (t : string) : bool :=
  match t with
  | String z (String x r) =>
      chr_is "0" z &&
      (if chr_is "x" x || chr_is "X" x
       then digits1 (fun c => match hex_val c with Some _ => true | None => false end) r
       else if chr_is "o" x || chr_is "O" x then digits1 (in_range 48 55) r
       else if chr_is "b" x || chr_is "B" x then digits1 (in_range 48 49) r
       else false)
  | _ => false
  end.

Definition numeric_string (s : string) : bool :=
  let t := trim_right is_ws (trim_left is_ws s) in
  match t with
  | EmptyString => true
  | String _ _ => unsigned_decimal (drop_sign t) || non_decimal t
  end.

(** [isNaN(string)]: the string does not convert to a number. *)
Definition isNaN (s : string) : bool := negb (numeric_string s).

(** [p.id === parseInt(x)]: [NaN] equals nothing. *)
Definition num_eq (n : Z) (m : option Z) : bool :=
  match m with
  | Some k => Z.eqb n k
  | None => false
  end.

(** [String(n)] for an integer, as in [... + '-' + Date.now()]. *)
Definition string_of_Z (n : Z) : string :=
  NilEmpty.string_of_int (Z.to_int n).

(** [Array.prototype.find], [findIndex], the assignment
    [a[i] = g(a[i])] within bounds, and the array left by [splice(i, 1)]. *)
Fixpoint find_first {A : Type} (f : A -> bool) (l : list A) : option A :=
  match l with
  | [] => None
  | x :: l' => if f x then Some x else find_first f l'
  end.

Fixpoint findIndex {A : Type} (f : A -> bool) (l : list A) : option nat :=
  match l with
  | [] => None
  | x :: l' => if f x then Some 0 else option_map S (findIndex f l')
  end.

Fixpoint update_at {A : Type} (i : nat) (g : A -> A) (l : list A) : list A :=
  match l, i with
  | [], _ => []
  | x :: l', O => g x :: l'
  | x :: l', S j => x :: update_at j g l'
  end.

Fixpoint splice1 {A : Type} (i : nat) (l : list A) : list A :=
  match l, i with
  | [], _ => []
  | _ :: l', O => l'
  | x :: l', S j => x :: splice1 j l'
  end.

(** [s.split(sep)] for a one-character separator. *)
Fixpoint split (sep : ascii) (s : string) : list string :=
  match s with
  | EmptyString => [EmptyString]
  | String c s' =>
      if Ascii.eqb c sep then EmptyString :: split sep s'
      else match split sep s' with
           | w :: ws => String c w :: ws
           | [] => [String c EmptyString]
           end
  end.

(** ** HTTP responses *)

(** The JSON bodies the handlers send; [P] is the type of a post. *)
Inductive body (P : Type) : Type :=
| ErrorBody (error : string)                 (* { error } *)
| TokenBody (token : string)                 (* { token } *)
| PostBody (post : option P)                 (* the record itself *)
| CreatedBody (id : Z) (slug : string)       (* { success, id, slug } *)
| SuccessBody                                (* { success: true } *)
| SuccessPostBody (post : option P).         (* { success: true, post } *)

Arguments ErrorBody {P} error.
Arguments TokenBody {P} token.
Arguments PostBody {P} post.
Arguments CreatedBody {P} id slug.
Arguments SuccessBody {P}.
Arguments SuccessPostBody {P} post.

Record response (P : Type) : Type := Response {
  status : nat;
  json : body P
}.

Arguments Response {P} status json.
Arguments status {P} r.
Arguments json {P} r.

(** [res.status(n).json({ error })] and [res.json(b)]. *)
Definition fail {P : Type} (n : nat) (msg : string) : response P :=
  Response n (ErrorBody msg).

Definition ok {P : Type} (b : body P) : response P := Response 200 b.

(** ** Configuration and third-party libraries *)

(** [process.env]: a variable may be unset. *)
Record config : Type := Config {
  ADMIN_USERNAME : option string;
  ADMIN_PASSWORD : option string;
  JWT_SECRET : option string
}.

(** The password-hashing and token libraries, as the handlers call them.
    [None] stands for a thrown exception or a rejected promise; [false]
    from [jwt_verify] stands for any failure of [jwt.verify], which throws
    on a bad signature and on an expired token alike. *)
Record libs : Type := Libs {
  (* bcrypt.compare(data, hash) *)
  bcrypt_compare : string -> option string -> option bool;
  (* jwt.sign({ username }, secret, { expiresIn }) at a clock reading *)
  jwt_sign : string -> option string -> Z -> Z -> option string;
  (* jwt.verify(token, secret) at a clock reading *)
  jwt_verify : string -> option string -> Z -> bool
}.

(** ['1h'], in seconds. *)
Definition one_hour : Z := 3600.

(** ** The auth gate (identical in both variants) *)

Inductive gate (P : Type) : Type :=
| Rejected (r : response P)     (* a response was sent, [next] not called *)
| Proceed.                      (* [next()] *)

Arguments Rejected {P} r.
Arguments Proceed {P}.

Definition authMiddleware {P : Type} (l : libs) (cfg : config) (clock : Z)
           (authorization : option string) : gate P :=
  match authorization with
  | Some authHeader =>
      if String.prefix "Bearer " authHeader then
        match nth_error (split " " authHeader) 1 with
        | Some token =>
            if jwt_verify l token (JWT_SECRET cfg) clock then Proceed
            else Rejected (fail 403 "Invalid token")
        | None => Rejected (fail 403 "Invalid token")
        end
      else Rejected (fail 401 "No token provided")
  | None => Rejected (fail 401 "No token provided")
  end.

(** A route registered as [app.METHOD(path, authMiddleware, handler)]:
    the handler runs on the store only when the gate calls [next]. *)
Definition protected {P St : Type} (l : libs) (cfg : config) (clock : Z)
           (authorization : option string)
           (handler : St -> response P * St) (st : St) : response P * St :=
  match authMiddleware l cfg clock authorization with
  | Rejected r => (r, st)
  | Proceed => handler st
  end.

(** ** [POST /api/login] (identical in both variants) *)
Definition login {P : Type} (l : libs) (cfg : config) (clock : Z)
           (username password : option string) : response P :=
  match username, password with
  | Some u, Some pw =>
      if negb (truthy username) || negb (truthy password)
      then fail 400 "Username and password required"
      else if negb (match ADMIN_USERNAME cfg with
                    | Some a => String.eqb u a
                    | None => false
                    end)
      then fail 401 "Invalid credentials"
      else
        match bcrypt_compare l pw (ADMIN_PASSWORD cfg) with
        | None => fail 500 "Server error"
        | Some false => fail 401 "Invalid credentials"
        | Some true =>
            match jwt_sign l u (JWT_SECRET cfg) one_hour clock with
            | Some token => ok (TokenBody token)
            | None => fail 500 "Server error"
            end
        end
  | _, _ => fail 400 "Username and password required"
  end.

(* ------------------------------------------------------------------ *)
(** ** File mode ([src/server.js]) *)
(* ------------------------------------------------------------------ *)

Module FileMode.

(** A post as the create handler writes it; [updated] appears with the
    first update. *)
Record Post : Type := mkPost {
  id : Z;
  title : string;
  content : string;
  label : string;
  slug : string;
  date : string;
  createdAt : string;
  image : option string;
  updated : option string
}.

(** What [posts.json] holds: text that [JSON.parse] rejects, or an array
    of posts. *)
Inductive file : Type :=
| Unparsable (raw : string)
| Stored (posts : list Post).

(** What the outside world answers during one request: whether
    [fs.readFile] and [fs.writeFile] report an error, and the clock
    readings [Date.now()], [toLocaleDateString(...)], [toISOString()].
    A write that reports an error is taken to leave the file as it
    was. *)
Record world : Type := World {
  readErr : bool;
  writeErr : bool;
  Date_now : Z;
  localeDate : string;
  isoString : string
}.

(** The parts of a create request the handler reads: the three body
    fields, the stored name of the uploaded file if there is one,
    [req.protocol] and [req.get("host")]. *)
Record create_request : Type := CreateRequest {
  req_title : option string;
  req_content : option string;
  req_label : option string;
  req_file : option string;
  req_protocol : string;
  req_host : string
}.

(** [GET /api/post/:identifier] *)
Definition get_post (w : world) (identifier : string) (f : file)
  : response Post :=
  if readErr w then fail 500 "Cannot read posts"
  else
    match f with
    | Unparsable _ => fail 500 "Invalid posts data"
    | Stored posts =>
        let post :=
          if negb (isNaN identifier)
          then find_first (fun p => num_eq (id p) (parseInt identifier)) posts
          else None in
        let post :=
          match post with
          | Some _ => post
          | None => find_first (fun p => String.eqb (slug p) identifier) posts
          end in
        let post :=
          match post with
          | Some _ => post
          | None =>
              find_first
                (fun p => String.eqb (generateSlug (title p)) identifier)
                posts
          end in
        match post with
        | None => fail 404 "Post not found"
        | Some p => ok (PostBody (Some p))
        end
    end.

Definition newPost (w : world) (rq : create_request)
           (title content label : string) : Post :=
  {| id := Date_now w;
     title := title;
     content := content;
     label := label;
     slug := generateSlug title;
     date := localeDate w;
     createdAt := isoString w;
     image :=
       match req_file rq with
       | Some filename =>
           Some (req_protocol rq ++ "://" ++ req_host rq
                 ++ "/uploads/" ++ filename)
       | None => None
       end;
     updated := None |}.

(** [POST /api/posts], after the gate.  A failed read and unparsable
    contents both leave [posts = []]. *)
Definition create (w : world) (rq : create_request) (f : file)
  : response Post * file :=
  match req_title rq, req_content rq, req_label rq with
  | Some (String _ _ as title), Some (String _ _ as content),
    Some (String _ _ as label) =>
      let posts :=
        if readErr w then []
        else match f with
             | Stored ps => ps
             | Unparsable _ => []
             end in
      let np := newPost w rq title content label in
      let posts := (posts ++ [np])%list in
      if writeErr w then (fail 500 "Cannot save post", f)
      else (ok (CreatedBody (id np) (slug np)), Stored posts)
  | _, _, _ => (fail 400 "Title, content, and label required", f)
  end.

(** [{ ...old, title, content, label, slug, updated }] *)
Definition merge (w : world) (title content label : string) (old : Post)
  : Post :=
  {| id := id old;
     title := title;
     content := content;
     label := label;
     slug := generateSlug title;
     date := date old;
     createdAt := createdAt old;
     image := image old;
     updated := Some (isoString w) |}.

(** [PUT /api/posts/:id], after the gate. *)
Definition update (w : world) (id_param : string)
           (title content label : option string) (f : file)
  : response Post * file :=
  let postId := parseInt id_param in
  match title, content, label with
  | Some (String _ _ as title), Some (String _ _ as content),
    Some (String _ _ as label) =>
      if readErr w then (fail 500 "Cannot read posts", f)
      else
        match f with
        | Unparsable _ => (fail 500 "Invalid posts data", f)
        | Stored posts =>
            match findIndex (fun p => num_eq (id p) postId) posts with
            | None => (fail 404 "Post not found", f)
            | Some index =>
                let posts :=
                  update_at index (merge w title content label) posts in
                if writeErr w then (fail 500 "Cannot save post", f)
                else (ok SuccessBody, Stored posts)
            end
        end
  | _, _, _ => (fail 400 "Title, content, and label required", f)
  end.

(** [DELETE /api/posts/:id], after the gate. *)
Definition delete (w : world) (id_param : string) (f : file)
  : response Post * file :=
  let postId := parseInt id_param in
  if readErr w then (fail 500 "Cannot read posts", f)
  else
    match f with
    | Unparsable _ => (fail 500 "Invalid posts data", f)
    | Stored posts =>
        match findIndex (fun p => num_eq (id p) postId) posts with
        | None => (fail 404 "Post not found", f)
        | Some index =>
            let deletedPost := nth_error posts index in
            let posts := splice1 index posts in
            if writeErr w then (fail 500 "Cannot save posts", f)
            else (ok (SuccessPostBody deletedPost), Stored posts)
        end
    end.

End FileMode.

(* ------------------------------------------------------------------ *)
(** ** Backend mode (the hosted-service variant) *)
(* ------------------------------------------------------------------ *)

Module Backend.

(** A row of the [posts] table. *)
Record Row : Type := mkRow {
  id : Z;
  title : string;
  content : string;
  label : string;
  slug : string;
  image : option string;
  created_at : string;
  updated_at : option string
}.

(** The object handed to [insert]. *)
Record NewRow : Type := mkNewRow {
  new_title : string;
  new_content : string;
  new_label : string;
  new_slug : string;
  new_image : option string
}.

(** The object handed to [update]: a key is present or absent. *)
Record Patch : Type := mkPatch {
  set_title : option string;
  set_content : option string;
  set_label : option string;
  set_slug : option string;
  set_image : option string;
  set_updated_at : string
}.

Inductive column : Type := col_id | col_slug.

(** [{ data, error }] as a call of the client resolves: an error with
    its message, or the data. *)
Inductive reply (D : Type) : Type :=
| Failed (message : string)
| Data (data : D).

Arguments Failed {D} message.
Arguments Data {D} data.

(** The hosted service as the handlers use it, over a state [T] of the
    service:
    - [select_single c v]: [from('posts').select('*').eq(c, v).single()]
    - [insert r]: [from('posts').insert([r]).select()]
    - [update_eq_id p v]: [from('posts').update(p).eq('id', v).select()]
    - [delete_eq_id v]: [from('posts').delete().eq('id', v).select()]
    - [storage_upload name]: [storage.from('uploads').upload(name, ...)],
      answering the error if any
    - [getPublicUrl name]: [storage.from('uploads').getPublicUrl(name)] *)
Record Supabase (T : Type) : Type := mkSupabase {
  select_single : column -> string -> T -> reply (option Row);
  insert : NewRow -> T -> reply (list Row) * T;
  update_eq_id : Patch -> string -> T -> reply (list Row) * T;
  delete_eq_id : string -> T -> reply (list Row) * T;
  storage_upload : string -> T -> option string * T;
  getPublicUrl : string -> string
}.

Arguments select_single {T} s.
Arguments insert {T} s.
Arguments update_eq_id {T} s.
Arguments delete_eq_id {T} s.
Arguments storage_upload {T} s.
Arguments getPublicUrl {T} s.

Section Handlers.

Context {T : Type} (svc : Supabase T).

(** [GET /api/post/:identifier] *)
Definition get_post (identifier : string) (st : T) : response Row :=
  let query :=
    if negb (isNaN identifier)
    then select_single svc col_id identifier st
    else select_single svc col_slug identifier st in
  match query with
  | Failed _ => fail 404 "Post not found"
  | Data None => fail 404 "Post not found"
  | Data (Some row) => ok (PostBody (Some row))
  end.

(** The row the create handler inserts. *)
Definition new_row (now : Z) (title content label : string)
           (image : option string) : NewRow :=
  {| new_title := title;
     new_content := content;
     new_label := label;
     new_slug := generateSlug title ++ "-" ++ string_of_Z now;
     new_image := or_null image |}.

(** [POST /api/posts], after the gate; [now] is [Date.now()]. *)
Definition create (now : Z) (title content label image : option string)
           (st : T) : response Row * T :=
  match title, content, label with
  | Some (String _ _ as title), Some (String _ _ as content),
    Some (String _ _ as label) =>
      match insert svc (new_row now title content label image) st with
      | (Failed message, st') => (fail 500 message, st')
      | (Data data, st') => (ok (PostBody (hd_error data)), st')
      end
  | _, _, _ => (fail 400 "Missing fields", st)
  end.

(** [updateData] of the update handler.  The handler repeats the body of
    [generateSlug] in place; [slug] is [undefined] without a title. *)
Definition updateData (iso : string)
           (title content label image : option string) : Patch :=
  let slug :=
    match title with
    | Some (String _ _ as t) => Some (generateSlug t)
    | _ => None
    end in
  {| set_title := or_null title;
     set_content := or_null content;
     set_label := or_null label;
     set_slug := or_null slug;
     set_image := or_null image;
     set_updated_at := iso |}.

(** [PUT /api/posts/:id], after the gate; [file] is the original name of
    the uploaded file if there is one, [now] and [iso] are [Date.now()]
    and [new Date().toISOString()]. *)
Definition update (now : Z) (iso : string) (id_param : string)
           (title content label image : option string)
           (file : option string) (st : T) : response Row * T :=
  let uploaded :=
    match file with
    | Some originalname =>
        let filename := string_of_Z now ++ "-" ++ originalname in
        match storage_upload svc filename st with
        | (Some message, st') => inl (message, st')
        | (None, st') => inr (Some (getPublicUrl svc filename), st')
        end
    | None => inr (image, st)
    end in
  match uploaded with
  | inl (message, st') => (fail 500 message, st')
  | inr (image, st') =>
      match update_eq_id svc (updateData iso title content label image)
                         id_param st' with
      | (Failed message, st'') => (fail 500 message, st'')
      | (Data data, st'') => (ok (SuccessPostBody (hd_error data)), st'')
      end
  end.

(** [DELETE /api/posts/:id], after the gate. *)
Definition delete (id_param : string) (st : T) : response Row * T :=
  match delete_eq_id svc id_param st with
  | (Failed message, st') => (fail 500 message, st')
  | (Data data, st') => (ok (SuccessPostBody (hd_error data)), st')
  end.

End Handlers.

(** *** A reference model of the hosted service

    The service is third-party and outside the repository.  This model
    keeps what the handlers rely on: a table with integer ids given out
    by the service, a filter [eq] that reads its value in the column's
    type, [single()] failing unless exactly one row is selected,
    [update] and [delete] answering the rows they touched (none is not
    an error), and a bucket of named objects.  With [outage] set, every
    call fails with that message and changes nothing. *)
Record db : Type := mkDb {
  rows : list Row;
  next_id : Z;
  objects : list string;
  db_clock : string;
  outage : option string
}.

(** An integer filter value: an optional sign and decimal digits. *)
Definition pg_int (v : string) : option Z :=
  if digits1 is_digit (drop_sign v) then parseInt v else None.

Definition matches (c : column) (v : string) (r : Row) : option bool :=
  match c with
  | col_id => option_map (Z.eqb (id r)) (pg_int v)
  | col_slug => Some (String.eqb (slug r) v)
  end.

Definition selects (c : column) (v : string) (r : Row) : bool :=
  match matches c v r with
  | Some b => b
  | None => false
  end.

Definition bad_filter (c : column) (v : string) : bool :=
  match c with
  | col_id => match pg_int v with Some _ => false | None => true end
  | col_slug => false
  end.

Definition apply_patch (p : Patch) (r : Row) : Row :=
  let pick (new : option string) (old : string) :=
    match new with Some v => v | None => old end in
  {| id := id r;
     title := pick (set_title p) (title r);
     content := pick (set_content p) (content r);
     label := pick (set_label p) (label r);
     slug := pick (set_slug p) (slug r);
     image := match set_image p with Some v => Some v | None => image r end;
     created_at := created_at r;
     updated_at := Some (set_updated_at p) |}.

Definition store_row (d : db) (n : NewRow) : Row :=
  {| id := next_id d;
     title := new_title n;
     content := new_content n;
     label := new_label n;
     slug := new_slug n;
     image := new_image n;
     created_at := db_clock d;
     updated_at := None |}.

Definition invalid_input : string := "invalid input syntax for type bigint".
Definition not_single : string :=
  "JSON object requested, multiple (or no) rows returned".
Definition duplicate_object : string := "The resource already exists".

Definition ref_select_single (c : column) (v : string) (d : db)
  : reply (option Row) :=
  match outage d with
  | Some message => Failed message
  | None =>
      if bad_filter c v then Failed invalid_input
      else match filter (selects c v) (rows d) with
           | [r] => Data (Some r)
           | _ => Failed not_single
           end
  end.

Definition ref_insert (n : NewRow) (d : db) : reply (list Row) * db :=
  match outage d with
  | Some message => (Failed message, d)
  | None =>
      let r := store_row d n in
      (Data [r],
       {| rows := rows d ++ [r];
          next_id := next_id d + 1;
          objects := objects d;
          db_clock := db_clock d;
          outage := None |})
  end.

Definition ref_update (p : Patch) (v : string) (d : db)
  : reply (list Row) * db :=
  match outage d with
  | Some message => (Failed message, d)
  | None =>
      if bad_filter col_id v then (Failed invalid_input, d)
      else
        (Data (map (apply_patch p) (filter (selects col_id v) (rows d))),
         {| rows := map (fun r => if selects col_id v r
                                  then apply_patch p r else r) (rows d);
            next_id := next_id d;
            objects := objects d;
            db_clock := db_clock d;
            outage := None |})
  end.

Definition ref_delete (v : string) (d : db) : reply (list Row) * db :=
  match outage d with
  | Some message => (Failed message, d)
  | None =>
      if bad_filter col_id v then (Failed invalid_input, d)
      else
        (Data (filter (selects col_id v) (rows d)),
         {| rows := filter (fun r => negb (selects col_id v r)) (rows d);
            next_id := next_id d;
            objects := objects d;
            db_clock := db_clock d;
            outage := None |})
  end.

Definition ref_upload (name : string) (d : db) : option string * db :=
  match outage d with
  | Some message => (Some message, d)
  | None =>
      if existsb (String.eqb name) (objects d)
      then (Some duplicate_object, d)
      else (None,
            {| rows := rows d;
               next_id := next_id d;
               objects := name :: objects d;
               db_clock := db_clock d;
               outage := None |})
  end.

Definition ref_public_url (name : string) : string :=
  "/storage/v1/object/public/uploads/" ++ name.

Definition reference : Supabase db :=
  {| select_single := ref_select_single;
     insert := ref_insert;
     update_eq_id := ref_update;
     delete_eq_id := ref_delete;
     storage_upload := ref_upload;
     getPublicUrl := ref_public_url |}.

End Backend.

(** ** Vocabulary of the statements *)

(** The status a gate answered with, if it answered. *)
Definition rejected_status {P : Type} (g : gate P) : option nat :=
  match g with
  | Rejected r => Some (status r)
  | Proceed => None
  end.

(** The posts the file-mode create handler starts from: those of the file
    when it was read and parsed, none otherwise. *)
Definition readable_posts (w : FileMode.world) (f : FileMode.file)
  : list FileMode.Post :=
  if FileMode.readErr w then []
  else match f with
       | FileMode.Stored ps => ps
       | FileMode.Unparsable _ => []
       end.


(** ** A toy instance of the libraries, to run the handlers on

    Hashes are the password behind a tag, tokens are the secret, the
    user and the expiry instant in clear.  It has the shape of the real
    libraries and none of their security. *)
Definition toy_libs : libs :=
  {| bcrypt_compare :=
       fun data hash =>
         match hash with
         | Some h => Some (String.eqb ("hash:" ++ data) h)
         | None => None
         end;
     jwt_sign :=
       fun username secret expiresIn clock =>
         match secret with
         | Some (String _ _ as k) =>
             Some (k ++ "." ++ username ++ "."
                     ++ string_of_Z (clock / 1000 + expiresIn))
         | _ => None
         end;
     jwt_verify :=
       fun token secret clock =>
         match secret, split "." token with
         | Some (String _ _ as k), [k'; _; e] =>
             String.eqb k k' &&
             match parseInt e with
             | Some exp => Z.ltb (clock / 1000) exp
             | None => false
             end
         | _, _ => false
         end |}.

Definition toy_config : config :=
  {| ADMIN_USERNAME := Some "admin";
     ADMIN_PASSWORD := Some "hash:s3cret";
     JWT_SECRET := Some "k" |}.

(** ** Vocabulary of the statements, continued *)

(** The three matches of the file-mode lookup, each on its own. *)
Definition id_match (x : string) (posts : list FileMode.Post)
  : option FileMode.Post :=
  if isNaN x then None
  else find_first (fun p => num_eq (FileMode.id p) (parseInt x)) posts.

Definition slug_match (x : string) (posts : list FileMode.Post)
  : option FileMode.Post :=
  find_first (fun p => String.eqb (FileMode.slug p) x) posts.

Definition derived_match (x : string) (posts : list FileMode.Post)
  : option FileMode.Post :=
  find_first (fun p => String.eqb (generateSlug (FileMode.title p)) x) posts.

(** The value a field has after an update that may supply it. *)
Definition supplied (v : option string) (old : string) : string :=
  match v with
  | Some (String _ _ as s) => s
  | _ => old
  end.

(** The image reference the backend-mode update handler works with: the
    public URL of the uploaded file when there is one, else the [image]
    field of the body. *)
Definition image_in_effect (now : Z) (image file : option string)
  : option string :=
  match file with
  | Some originalname =>
      Some (Backend.ref_public_url (string_of_Z now ++ "-" ++ originalname))
  | None => image
  end.

(** ** Sample data for the closed statements *)

Definition quiet_world : FileMode.world :=
  FileMode.World false false 1700000500000 "Nov 14" "2023-11-14T22:21:40.000Z".

(** A post created at the instant 1700000000000, and a later post whose
    title is that number. *)
Definition sofa_post : FileMode.Post :=
  FileMode.mkPost 1700000000000 "Sofa" "text" "sala" "sofa" "Nov 14"
                  "2023-11-14T22:13:20.000Z" None None.

Definition number_post : FileMode.Post :=
  FileMode.mkPost 1700000400000 "1700000000000" "text" "sala" "1700000000000"
                  "Nov 14" "2023-11-14T22:20:00.000Z" None None.

Definition sofa_row : Backend.Row :=
  Backend.mkRow 1 "Sofa" "text" "sala" "sofa-1700000000000"
                (Some "/storage/v1/object/public/uploads/1700000000000-sofa.png")
                "2023-11-14T22:13:20Z" None.

Definition sofa_db : Backend.db :=
  Backend.mkDb [sofa_row] 2 ["1700000000000-sofa.png"]
               "2023-11-14T22:21:40Z" None.

(** A row whose title, and so whose slug after an update, is a year. *)
Definition year_row : Backend.Row :=
  Backend.mkRow 1 "2024" "text" "sala" "2024" None
                "2023-11-14T22:13:20Z" (Some "2023-11-15T08:00:00Z").

Definition year_db : Backend.db :=
  Backend.mkDb [year_row] 2 [] "2023-11-15T08:00:00Z" None.

(* ------------------------------------------------------------------ *)
(** ** File mode: the routes as registered, listing, upload *)
(* ------------------------------------------------------------------ *)

Module FileRoutes.

(** [filename] of the disk storage: [Date.now() + '-' + file.originalname]. *)
Definition filename (now : Z) (originalname : string) : string :=
  string_of_Z now ++ "-" ++ originalname.

(** What the server keeps on disk: [posts.json] and the names of the
    files in [uploads/]. *)
Record disk : Type := Disk {
  posts_file : FileMode.file;
  uploads : list string
}.

(** [upload.single('image')] with the disk storage: a file in the request
    is stored under its [filename] before the next handler runs, and
    [req.file.filename] is that name.  [now] is the clock read by
    [filename]. *)
Definition upload_single (now : Z) (image : option string) (d : disk)
  : option string * disk :=
  match image with
  | Some originalname =>
      (Some (filename now originalname),
       {| posts_file := posts_file d;
          uploads := filename now originalname :: uploads d |})
  | None => (None, d)
  end.

(** The bodies of the two routes that send neither a post nor a token. *)
Inductive reply : Type :=
| error_reply (error : string)               (* { error } *)
| url_reply (url : string)                   (* { url } *)
| posts_reply (posts : list FileMode.Post).  (* the array *)

(** [GET /api/posts] *)
Definition list_posts (w : FileMode.world) (f : FileMode.file)
  : nat * reply :=
  if FileMode.readErr w then (500, error_reply "Cannot read posts")
  else
    match f with
    | FileMode.Unparsable _ => (500, error_reply "Invalid posts data")
    | FileMode.Stored posts => (200, posts_reply posts)
    end.

(** The handler of [POST /api/upload]. *)
Definition upload_handler (file : option string) : nat * reply :=
  match file with
  | None => (400, error_reply "No file uploaded")
  | Some filename => (200, url_reply ("/uploads/" ++ filename))
  end.

(** [POST /api/upload]: the gate, the upload middleware, the handler.
    The answer is the gate's when it rejects, the handler's otherwise. *)
Definition post_upload (l : libs) (cfg : config) (clock : Z)
           (authorization : option string)
           (now : Z) (image : option string) (d : disk)
  : (response FileMode.Post + nat * reply) * disk :=
  match authMiddleware (P := FileMode.Post) l cfg clock authorization with
  | Rejected r => (inl r, d)
  | Proceed =>
      let '(file, d') := upload_single now image d in
      (inr (upload_handler file), d')
  end.

(** The handler of a route working on [posts.json], lifted to the disk. *)
Definition on_posts_file
           (handler : FileMode.file -> response FileMode.Post * FileMode.file)
           (d : disk) : response FileMode.Post * disk :=
  let '(r, f) := handler (posts_file d) in
  (r, {| posts_file := f; uploads := uploads d |}).

(** [POST /api/posts]: the gate, the upload middleware, the handler.
    [now] is the clock read by [filename], [w] the world of the
    handler. *)
Definition post_posts (l : libs) (cfg : config) (clock : Z)
           (authorization : option string)
           (now : Z) (image : option string)
           (w : FileMode.world)
           (title content label : option string) (protocol host : string)
           (d : disk) : response FileMode.Post * disk :=
  protected l cfg clock authorization
    (fun d0 =>
       let '(file, d1) := upload_single now image d0 in
       on_posts_file
         (FileMode.create w
            (FileMode.CreateRequest title content label file protocol host))
         d1)
    d.

(** [PUT /api/posts/:id]: the gate, the handler. *)
Definition put_posts (l : libs) (cfg : config) (clock : Z)
           (authorization : option string)
           (w : FileMode.world) (id_param : string)
           (title content label : option string)
           (d : disk) : response FileMode.Post * disk :=
  protected l cfg clock authorization
    (on_posts_file (FileMode.update w id_param title content label)) d.

(** [DELETE /api/posts/:id]: the gate, the handler. *)
Definition delete_posts (l : libs) (cfg : config) (clock : Z)
           (authorization : option string)
           (w : FileMode.world) (id_param : string)
           (d : disk) : response FileMode.Post * disk :=
  protected l cfg clock authorization
    (on_posts_file (FileMode.delete w id_param)) d.

End FileRoutes.

(* ------------------------------------------------------------------ *)
(** ** Backend mode: the client factory, the routes around it, upload *)
(* ------------------------------------------------------------------ *)

Module BackendRoutes.

(** The two variables of [process.env] the client needs. *)
Record service_env : Type := ServiceEnv {
  SUPABASE_URL : option string;
  SUPABASE_SERVICE_ROLE : option string
}.

Definition not_set : string := "SUPABASE_URL or SUPABASE_SERVICE_ROLE not set".

(** [supabaseClient()]: the client, or [None] for the thrown error. *)
Definition supabaseClient {T : Type} (env : service_env)
           (svc : Backend.Supabase T) : option (Backend.Supabase T) :=
  if negb (truthy (SUPABASE_URL env))
     || negb (truthy (SUPABASE_SERVICE_ROLE env))
  then None
  else Some svc.

(** How a handler ends: it sends a response, or an error leaves it
    uncaught. *)
Inductive outcome (B T : Type) : Type :=
| Escaped (message : string)
| Answered (status : nat) (json : B) (st : T).

Arguments Escaped {B T} message.
Arguments Answered {B T} status json st.

Definition answered {T : Type} (r : response Backend.Row * T)
  : outcome (body Backend.Row) T :=
  Answered (status (fst r)) (json (fst r)) (snd r).

(** What [GET /api/posts] sends: [{ error }] or the array of rows. *)
Inductive listing : Type :=
| listing_error (error : string)
| listing_rows (rows : list Backend.Row).

Section Routes.

Context {T : Type} (env : service_env) (svc : Backend.Supabase T).

(** The handler of [GET /api/posts], the client first.  [select_all] is
    the query of the listing,
    [from('posts').select('*').order('created_at', { ascending: false })],
    as it resolves on the state of the service. *)
Definition list_posts (select_all : T -> Backend.reply (list Backend.Row))
           (st : T) : outcome listing T :=
  match supabaseClient env svc with
  | None => Escaped not_set
  | Some supabase =>
      match select_all st with
      | Backend.Failed message => Answered 500 (listing_error message) st
      | Backend.Data data => Answered 200 (listing_rows data) st
      end
  end.

(** The handler of [GET /api/post/:identifier], the client first. *)
Definition get_post (identifier : string) (st : T)
  : outcome (body Backend.Row) T :=
  match supabaseClient env svc with
  | None => Escaped not_set
  | Some supabase =>
      answered (Backend.get_post supabase identifier st, st)
  end.

(** The handler of [POST /api/posts]: the fields are checked before the
    client is made. *)
Definition create (now : Z) (title content label image : option string)
           (st : T) : outcome (body Backend.Row) T :=
  match title, content, label with
  | Some (String _ _ as title), Some (String _ _ as content),
    Some (String _ _ as label) =>
      match supabaseClient env svc with
      | None => Escaped not_set
      | Some supabase =>
          match Backend.insert supabase
                  (Backend.new_row now title content label image) st with
          | (Backend.Failed message, st') =>
              Answered 500 (ErrorBody message) st'
          | (Backend.Data data, st') =>
              Answered 200 (PostBody (hd_error data)) st'
          end
      end
  | _, _, _ => Answered 400 (ErrorBody "Missing fields") st
  end.

(** The handler of [PUT /api/posts/:id]: everything is inside [try], and
    [catch] answers 500. *)
Definition update (now : Z) (iso : string) (id_param : string)
           (title content label image : option string)
           (file : option string) (st : T)
  : outcome (body Backend.Row) T :=
  match supabaseClient env svc with
  | None => Answered 500 (ErrorBody "Server error") st
  | Some supabase =>
      answered (Backend.update supabase now iso id_param
                               title content label image file st)
  end.

(** The handler of [DELETE /api/posts/:id], the client first. *)
Definition delete (id_param : string) (st : T)
  : outcome (body Backend.Row) T :=
  match supabaseClient env svc with
  | None => Escaped not_set
  | Some supabase => answered (Backend.delete supabase id_param st)
  end.

(** The handler of [POST /api/upload]; the file is held in memory, [file]
    is its original name, and its absence is checked before the client
    is made. *)
Definition upload (now : Z) (file : option string) (st : T)
  : outcome FileRoutes.reply T :=
  match file with
  | None => Answered 400 (FileRoutes.error_reply "No file uploaded") st
  | Some originalname =>
      match supabaseClient env svc with
      | None => Escaped not_set
      | Some supabase =>
          let filename := string_of_Z now ++ "-" ++ originalname in
          match Backend.storage_upload supabase filename st with
          | (Some message, st') =>
              Answered 500 (FileRoutes.error_reply message) st'
          | (None, st') =>
              Answered 200
                (FileRoutes.url_reply (Backend.getPublicUrl supabase filename))
                st'
          end
      end
  end.

End Routes.

End BackendRoutes.

(* ------------------------------------------------------------------ *)
(** ** The create handlers on bodies of JSON values *)
(* ------------------------------------------------------------------ *)

(** [express.json()] and [express.urlencoded({ extended: true })] put
    into [req.body] whatever the request carries: a field may be a
    number, a boolean, an array or an object as well as a string.  The
    two create handlers are given here on such fields, statement by
    statement as in the source, with the exceptions they can throw. *)
Module JsonBody.

(** A JSON value, or [undefined] for a key the body does not have.  A
    number is the rational it denotes. *)
#[warnings="-register-all"]
Inductive value : Type :=
| Undefined
| Null
| Bool (b : bool)
| Number (q : QArith_base.Q)
| Text (s : string)
| Array (items : list value)
| Object (fields : list (string * value)).

(** [!!v] *)
Definition truthy (v : value) : bool :=
  match v with
  | Undefined => false
  | Null => false
  | Bool b => b
  | Number q => negb (QArith_base.Qeq_bool q (QArith_base.inject_Z 0))
  | Text EmptyString => false
  | Text (String _ _) => true
  | Array _ => true
  | Object _ => true
  end.

(** [a || null] *)
Definition or_null (v : value) : value := if truthy v then v else Null.

(** [o[k]] for an object [o] *)
Fixpoint lookup (k : string) (fields : list (string * value)) : value :=
  match fields with
  | [] => Undefined
  | (k', v) :: rest => if String.eqb k' k then v else lookup k rest
  end.

Definition field (k : string) (o : value) : value :=
  match o with
  | Object fields => lookup k fields
  | _ => Undefined
  end.

(** How a handler ends: an exception leaves it at the named call and
    nothing is sent, or it sends a response. *)
Inductive result : Type :=
| Threw (call : string)
| Sent (r : response value).

(** What [posts.json] holds: text that [JSON.parse] rejects, or the value
    it parses to. *)
Inductive file : Type :=
| Unparsable (raw : string)
| Parsed (v : value).

(** [posts] when the callback of [fs.readFile] builds the new post:
    [[]], replaced by [JSON.parse(data)] when the read reported no error
    and the text parsed. *)
Definition read_posts (w : FileMode.world) (f : file) : value :=
  if FileMode.readErr w then Array []
  else match f with
       | Parsed v => v
       | Unparsable _ => Array []
       end.

(** [newPost] of the file-mode handler, for a title that is a string. *)
Definition newPost (w : FileMode.world) (title : string)
           (content label : value) (req_file : option string)
           (protocol host : string) : value :=
  Object
    [ ("id", Number (QArith_base.inject_Z (FileMode.Date_now w)));
      ("title", Text title);
      ("content", content);
      ("label", label);
      ("slug", Text (generateSlug title));
      ("date", Text (FileMode.localeDate w));
      ("createdAt", Text (FileMode.isoString w));
      ("image",
       match req_file with
       | Some filename =>
           Text (protocol ++ "://" ++ host ++ "/uploads/" ++ filename)
       | None => Null
       end) ].

(** [POST /api/posts] of file mode, after the gate and the upload
    middleware.  [generateSlug(title)] calls [title.toLowerCase()], which
    only a string has; [posts.push] is outside the [try] around
    [JSON.parse], and only an array has it.  Either call, failing, throws
    inside the callback of [fs.readFile]: no response is sent and the
    file is not written.  As in [FileMode], a write that reports an error
    is taken to leave the file as it was. *)
Definition file_create (w : FileMode.world) (title content label : value)
           (req_file : option string) (protocol host : string) (f : file)
  : result * file :=
  if negb (truthy title) || negb (truthy content) || negb (truthy label)
  then (Sent (fail 400 "Title, content, and label required"), f)
  else
    let posts := read_posts w f in
    match title with
    | Text t =>
        let np := newPost w t content label req_file protocol host in
        match posts with
        | Array items =>
            if FileMode.writeErr w then (Sent (fail 500 "Cannot save post"), f)
            else (Sent (ok (CreatedBody (FileMode.Date_now w) (generateSlug t))),
                  Parsed (Array (items ++ [np])%list))
        | _ => (Threw "posts.push", f)
        end
    | _ => (Threw "title.toLowerCase", f)
    end.

(** The object handed to [insert] by the backend handler, for a title
    that is a string. *)
Definition new_row (now : Z) (title : string) (content label image : value)
  : value :=
  Object
    [ ("title", Text title);
      ("content", content);
      ("label", label);
      ("slug", Text (generateSlug title ++ "-" ++ string_of_Z now));
      ("image", or_null image) ].

Section Backend.

(** [from('posts').insert([row]).select()] as it resolves on a state [T]
    of the service. *)
Context {T : Type}
        (insert : value -> T -> Backend.reply (list value) * T).

(** [POST /api/posts] of backend mode, after the gate, with the service
    configured.  The slug is computed before the client is made and
    before the insert, and nothing catches what it throws. *)
Definition backend_create (now : Z) (title content label image : value)
           (st : T) : result * T :=
  if negb (truthy title) || negb (truthy content) || negb (truthy label)
  then (Sent (fail 400 "Missing fields"), st)
  else
    match title with
    | Text t =>
        match insert (new_row now t content label image) st with
        | (Backend.Failed message, st') => (Sent (fail 500 message), st')
        | (Backend.Data data, st') =>
            (Sent (ok (PostBody (hd_error data))), st')
        end
    | _ => (Threw "title.toLowerCase", st)
    end.

End Backend.

(** *** The typed bodies of the other sections, as JSON values *)

Definition of_field (v : option string) : value :=
  match v with
  | Some s => Text s
  | None => Undefined
  end.

Definition of_nullable (v : option string) : value :=
  match v with
  | Some s => Text s
  | None => Null
  end.

Definition of_post (p : FileMode.Post) : value :=
  Object
    ([ ("id", Number (QArith_base.inject_Z (FileMode.id p)));
       ("title", Text (FileMode.title p));
       ("content", Text (FileMode.content p));
       ("label", Text (FileMode.label p));
       ("slug", Text (FileMode.slug p));
       ("date", Text (FileMode.date p));
       ("createdAt", Text (FileMode.createdAt p));
       ("image", of_nullable (FileMode.image p)) ]
     ++ match FileMode.updated p with
        | Some u => [("updated", Text u)]
        | None => []
        end)%list.

Definition of_file (f : FileMode.file) : file :=
  match f with
  | FileMode.Unparsable raw => Unparsable raw
  | FileMode.Stored posts => Parsed (Array (map of_post posts))
  end.

(** The object the typed backend handler hands to [insert]. *)
Definition of_new_row (n : Backend.NewRow) : value :=
  Object
    [ ("title", Text (Backend.new_title n));
      ("content", Text (Backend.new_content n));
      ("label", Text (Backend.new_label n));
      ("slug", Text (Backend.new_slug n));
      ("image", of_nullable (Backend.new_image n)) ].

(** A response of a typed handler, read as one of this module, given
    how a post is written as a value. *)
Definition of_response {P : Type} (of_record : P -> value) (r : response P)
  : response value :=
  Response (status r)
    match json r with
    | ErrorBody error => ErrorBody error
    | TokenBody token => TokenBody token
    | PostBody post => PostBody (option_map of_record post)
    | CreatedBody id slug => CreatedBody id slug
    | SuccessBody => SuccessBody
    | SuccessPostBody post => SuccessPostBody (option_map of_record post)
    end.

End JsonBody.

(** ** Vocabulary of the further statements *)

(** Every stored slug is the slug of its title. *)
Definition slugs_derived (posts : list FileMode.Post) : Prop :=
  forall p, In p posts -> FileMode.slug p = generateSlug (FileMode.title p).

(** A letter or a digit of ASCII. *)
Definition is_alnum (c : ascii) : bool :=
  is_lower c || in_range 65 90 c || is_digit c.

(** Some character of the string is in the class. *)
Fixpoint some_in (p : ascii -> bool) (s : string) : bool :=
  match s with
  | EmptyString => false
  | String c s' => p c || some_in p s'
  end.

(** The text of a header value up to its first space. *)
Fixpoint first_field (s : string) : string :=
  match s with
  | EmptyString => EmptyString
  | String c s' => if Ascii.eqb c " " then EmptyString else String c (first_field s')
  end.

(** The invariant on the file: its posts, when it holds posts, have
    derived slugs. *)
Definition file_slugs_derived (f : FileMode.file) : Prop :=
  match f with
  | FileMode.Stored posts => slugs_derived posts
  | FileMode.Unparsable _ => True
  end.

(** A text that [parseInt] stops at after decimal digits: empty, or
    starting with a character that is neither a digit nor the [x] of a
    hexadecimal prefix. *)
Definition ends_number (rest : string) : bool :=
  match rest with
  | EmptyString => true
  | String c _ => negb (is_digit c) && negb (chr_is "x" c) && negb (chr_is "X" c)
  end.

(** The answer of a handler whose [fs.writeFile] reported an error:
    [{ error: 'Cannot save post' }] from create and update,
    [{ error: 'Cannot save posts' }] from delete. *)
Definition save_failed {P : Type} (r : response P) : bool :=
  match json r with
  | ErrorBody error =>
      String.eqb error "Cannot save post" || String.eqb error "Cannot save posts"
  | _ => false
  end.

(* ================================================================== *)
(** * Part II. Properties *)
(* ================================================================== *)

(** ** The model on concrete inputs *)

Example slug_of_a_title :
  generateSlug "  Hello,  World -- 2024! " = "hello-world-2024".
Proof. reflexivity. Qed.

Example slug_of_punctuation : generateSlug "?!" = "".
Proof. reflexivity. Qed.

Example replace_drop :
  replace_all re_drop "" "a_b c-d!" = "ab c-d".
Proof. reflexivity. Qed.

Example replace_spaces :
  replace_all re_spaces "-" " a   b " = "-a-b-".
Proof. reflexivity. Qed.

Example replace_hyphens :
  replace_all re_hyphens "-" "--a---b-" = "-a-b-".
Proof. reflexivity. Qed.

Example replace_edges :
  replace_all re_edges "" "--a--b--" = "a--b".
Proof. reflexivity. Qed.

Example replace_edges_all_hyphens :
  replace_all re_edges "" "---" = "".
Proof. reflexivity. Qed.

Example parseInt_prefix :
  parseInt "12abc" = Some 12%Z /\ parseInt "  -0x1F" = Some (-31)%Z /\
  parseInt "1e3" = Some 1%Z /\ parseInt "abc" = None /\ parseInt "" = None.
Proof. repeat split. Qed.

Example isNaN_of_strings :
  isNaN "12" = false /\ isNaN " 12.5 " = false /\ isNaN "1e3" = false /\
  isNaN "" = false /\ isNaN "-Infinity" = false /\ isNaN "0x1f" = false /\
  isNaN "-0x1f" = true /\ isNaN "12abc" = true /\
  isNaN "hello-world" = true /\ isNaN "-1700000000000" = false.
Proof. repeat split. Qed.

Example split_header :
  split " " "Bearer abc.def" = ["Bearer"; "abc.def"] /\
  split " " "Bearer " = ["Bearer"; ""].
Proof. repeat split. Qed.

Example timestamp_in_decimal : string_of_Z 1700000000000 = "1700000000000".
Proof. reflexivity. Qed.

(** ** Slug generation: each [replace] pass in closed form *)

Section ReplacePasses.

Variable p : ascii -> bool.

Lemma plus_k_greedy (s : string) :
  plus_k p s (fun _ => Some 0) =
  match run_len p s with O => None | S n => Some (S n) end.
Proof.
  induction s as [|c s IH]; simpl; [reflexivity|].
  destruct (p c); [|reflexivity].
  rewrite IH. destruct (run_len p s); reflexivity.
Qed.

Lemma plus_k_to_end (s : string) :
  plus_k p s at_end =
  match s with
  | EmptyString => None
  | String _ _ => if all_in p s then Some (String.length s) else None
  end.
Proof.
  induction s as [|c s IH]; [reflexivity|].
  cbn [plus_k all_in String.length]. destruct (p c); [|reflexivity].
  rewrite IH. destruct s as [|d s]; [reflexivity|].
  cbn [andb]. destruct (all_in p (String d s)); reflexivity.
Qed.

Lemma match_len_cls (b : bool) (s : string) :
  match_len (Cls p) b s =
  match s with
  | EmptyString => None
  | String c _ => if p c then Some 1 else None
  end.
Proof.
  destruct s as [|c s]; [reflexivity|].
  unfold match_len; simpl. destruct (p c); reflexivity.
Qed.

Lemma match_len_plus (b : bool) (s : string) :
  match_len (Plus p) b s =
  match run_len p s with O => None | S n => Some (S n) end.
Proof. unfold match_len; simpl. apply plus_k_greedy. Qed.

Lemma match_len_edges (b : bool) (s : string) :
  match_len (Alt (Seq Bol (Plus p)) (Seq (Plus p) Eol)) b s =
  match s with
  | EmptyString => None
  | String c _ =>
      if b then match run_len p s with O => None | S n => Some (S n) end
      else if all_in p s then Some (String.length s) else None
  end.
Proof.
  unfold match_len. cbn [rmatch].
  assert (E : plus_k p s
                (fun t => match t with
                          | EmptyString => Some 0
                          | String _ _ => None
                          end) = plus_k p s at_end) by reflexivity.
  destruct b.
  - rewrite plus_k_greedy. destruct s as [|c s]; [reflexivity|].
    cbn [run_len]. destruct (p c) eqn:Hc; [reflexivity|].
    rewrite E, plus_k_to_end. cbn [all_in]. rewrite Hc. reflexivity.
  - rewrite E, plus_k_to_end. destruct s; reflexivity.
Qed.

(** Pass 1: removing every character of a class is a filter. *)
Lemma replace_cls_strip (b : bool) (s : string) :
  replace_from (Cls p) "" b 0 s = strip (fun c => negb (p c)) s.
Proof.
  revert b; induction s as [|c s IH]; intro b; [reflexivity|].
  cbn [replace_from strip]. rewrite match_len_cls.
  destruct (p c); cbn [negb append]; rewrite IH; reflexivity.
Qed.

(** Passes 2 and 3: replacing [p+] by one character squeezes runs.  The
    second equation is the invariant of the scan inside a match. *)
Lemma replace_plus_squeeze (r : ascii) (s : string) :
  (forall b, replace_from (Plus p) (String r "") b 0 s
             = squeeze p r false s) /\
  (forall b, replace_from (Plus p) (String r "") b (run_len p s) s
             = squeeze p r true s).
Proof.
  induction s as [|c s [IH0 IH1]]; [split; reflexivity|].
  assert (H0 : forall b, replace_from (Plus p) (String r "") b 0 (String c s)
                         = squeeze p r false (String c s)).
  { intro b. cbn [replace_from squeeze]. rewrite match_len_plus.
    cbn [run_len]. destruct (p c).
    - cbn [append]. rewrite IH1. reflexivity.
    - rewrite IH0. reflexivity. }
  split; [exact H0|].
  intro b. cbn [run_len]. destruct (p c) eqn:Hc.
  - cbn [replace_from squeeze]. rewrite Hc. apply IH1.
  - rewrite H0. cbn [squeeze]. rewrite Hc. reflexivity.
Qed.

Lemma replace_skip_all (r : regex) (repl : string) (s : string) :
  match_len r false "" = None ->
  replace_from r repl false (String.length s) s = "".
Proof.
  intro H. induction s as [|c s IH]; cbn [String.length replace_from].
  - rewrite H. reflexivity.
  - exact IH.
Qed.

Lemma trim_right_empty (s : string) :
  trim_right p s = "" <-> all_in p s = true.
Proof.
  induction s as [|c s IH]; cbn [trim_right all_in]; [tauto|].
  destruct (trim_right p s) eqn:Ht.
  - destruct (p c); cbn [andb].
    + split; [intros _; apply IH; reflexivity | reflexivity].
    + split; discriminate.
  - split; [discriminate|]. intro H.
    apply andb_true_iff in H. destruct H as [_ H].
    apply IH in H. discriminate.
Qed.

(** Pass 4, away from the start: only a run reaching the end goes. *)
Lemma replace_edges_inner (s : string) :
  replace_from (Alt (Seq Bol (Plus p)) (Seq (Plus p) Eol)) "" false 0 s
  = trim_right p s.
Proof.
  induction s as [|c s IH]; [reflexivity|].
  cbn [replace_from]. rewrite match_len_edges.
  destruct (all_in p (String c s)) eqn:Ha.
  - cbn [String.length append]. rewrite replace_skip_all by reflexivity.
    symmetry. apply trim_right_empty. exact Ha.
  - rewrite IH. cbn [trim_right].
    destruct (trim_right p s) eqn:Ht; [|reflexivity].
    destruct (p c) eqn:Hc; [|reflexivity].
    exfalso. cbn [all_in] in Ha. rewrite Hc in Ha. cbn [andb] in Ha.
    assert (all_in p s = true) by (apply trim_right_empty; exact Ht).
    congruence.
Qed.

Lemma replace_edges_skip (s : string) :
  replace_from (Alt (Seq Bol (Plus p)) (Seq (Plus p) Eol)) "" false
               (run_len p s) s
  = trim_right p (trim_left p s).
Proof.
  induction s as [|c s IH]; [reflexivity|].
  cbn [run_len trim_left]. destruct (p c) eqn:Hc.
  - cbn [replace_from]. exact IH.
  - apply replace_edges_inner.
Qed.

(** Pass 4: the leading run and the trailing run go. *)
Lemma replace_edges_trim (s : string) :
  replace_all (Alt (Seq Bol (Plus p)) (Seq (Plus p) Eol)) "" s
  = trim_right p (trim_left p s).
Proof.
  unfold replace_all. destruct s as [|c s]; [reflexivity|].
  cbn [replace_from]. rewrite match_len_edges.
  cbn [run_len trim_left]. destruct (p c) eqn:Hc.
  - cbn [append]. apply replace_edges_skip.
  - pose proof (replace_edges_inner (String c s)) as H.
    cbn [replace_from] in H. rewrite match_len_edges in H.
    cbn [all_in] in H. rewrite Hc in H. cbn [andb] in H.
    exact H.
Qed.

End ReplacePasses.

Lemma strip_ext (f g : ascii -> bool) (s : string) :
  (forall c, f c = g c) -> strip f s = strip g s.
Proof.
  intro H. induction s as [|c s IH]; [reflexivity|].
  cbn [strip]. rewrite H, IH. reflexivity.
Qed.

(** The code's pipeline of four [replace] calls is the pipeline of the
    specification. *)
Lemma generateSlug_spec_slug (title : string) :
  generateSlug title = spec_slug title.
Proof.
  unfold generateSlug, spec_slug, re_edges, re_hyphens, re_spaces, re_drop.
  rewrite replace_edges_trim.
  unfold replace_all.
  change "-" with (String hyphen "").
  rewrite (proj1 (replace_plus_squeeze is_hyphen hyphen _) true).
  rewrite (proj1 (replace_plus_squeeze is_ws hyphen _) true).
  rewrite replace_cls_strip.
  rewrite (strip_ext _ slug_keep); [reflexivity|].
  intro c. unfold slug_drop. apply negb_involutive.
Qed.

(** ** Facts about single characters, by enumeration of the 256 codes *)

Ltac by_ascii_cases c :=
  destruct c as [[] [] [] [] [] [] [] []]; vm_compute; try reflexivity;
  try discriminate; try (intros; discriminate); auto.

Lemma is_hyphen_eq (c : ascii) : is_hyphen c = true -> c = hyphen.
Proof. by_ascii_cases c. Qed.

Lemma slug_char_lower (c : ascii) : slug_char c = true -> lower_char c = c.
Proof. by_ascii_cases c. Qed.

Lemma slug_char_keep (c : ascii) : slug_char c = true -> slug_keep c = true.
Proof. by_ascii_cases c. Qed.

Lemma slug_char_not_ws (c : ascii) : slug_char c = true -> is_ws c = false.
Proof. by_ascii_cases c. Qed.

Lemma keep_not_ws_slug_char (c : ascii) :
  slug_keep c = true -> is_ws c = false -> slug_char c = true.
Proof. by_ascii_cases c. Qed.

(** ** The output of the pipeline is slug-shaped *)

Section Shape.

Variables p q : ascii -> bool.

Lemma all_in_strip (s : string) : all_in p (strip p s) = true.
Proof.
  induction s as [|c s IH]; [reflexivity|].
  cbn [strip]. destruct (p c) eqn:Hc; [|exact IH].
  cbn [all_in]. rewrite Hc, IH. reflexivity.
Qed.

Lemma all_in_squeeze (r : ascii) (b : bool) (s : string) :
  q r = true -> all_in q s = true -> all_in q (squeeze p r b s) = true.
Proof.
  intros Hr. revert b. induction s as [|c s IH]; intros b H; [reflexivity|].
  cbn [all_in] in H. apply andb_true_iff in H. destruct H as [Hc Hs].
  cbn [squeeze]. destruct (p c).
  - destruct b; [apply IH; exact Hs|].
    cbn [all_in]. rewrite Hr, IH by exact Hs. reflexivity.
  - cbn [all_in]. rewrite Hc, IH by exact Hs. reflexivity.
Qed.

Lemma all_in_trim_left (s : string) :
  all_in q s = true -> all_in q (trim_left p s) = true.
Proof.
  induction s as [|c s IH]; intro H; [reflexivity|].
  cbn [trim_left]. destruct (p c); [|exact H].
  cbn [all_in] in H. apply andb_true_iff in H. apply IH, H.
Qed.

Lemma all_in_trim_right (s : string) :
  all_in q s = true -> all_in q (trim_right p s) = true.
Proof.
  induction s as [|c s IH]; intro H; [reflexivity|].
  cbn [all_in] in H. apply andb_true_iff in H. destruct H as [Hc Hs].
  specialize (IH Hs). cbn [trim_right].
  destruct (trim_right p s) as [|d t].
  - destruct (p c); [reflexivity|]. cbn [all_in]. rewrite Hc. reflexivity.
  - cbn [all_in] in *. rewrite Hc, IH. reflexivity.
Qed.

Lemma no_adjacent_squeeze (r : ascii) (b : bool) (s : string) :
  p r = true -> no_adjacent p b (squeeze p r b s) = true.
Proof.
  intro Hr. revert b. induction s as [|c s IH]; intro b; [reflexivity|].
  cbn [squeeze]. destruct (p c) eqn:Hc.
  - destruct b; [apply IH|].
    cbn [no_adjacent]. rewrite Hr. cbn [negb andb]. apply IH.
  - cbn [no_adjacent]. rewrite Hc. apply IH.
Qed.

Lemma no_adjacent_trim_left (b : bool) (s : string) :
  no_adjacent p b s = true -> no_adjacent p false (trim_left p s) = true.
Proof.
  revert b. induction s as [|c s IH]; intros b H; [reflexivity|].
  cbn [trim_left]. cbn [no_adjacent] in H. destruct (p c) eqn:Hc.
  - apply andb_true_iff in H. apply (IH true), H.
  - cbn [no_adjacent]. rewrite Hc. exact H.
Qed.

Lemma no_adjacent_trim_right (b : bool) (s : string) :
  no_adjacent p b s = true -> no_adjacent p b (trim_right p s) = true.
Proof.
  revert b. induction s as [|c s IH]; intros b H; [reflexivity|].
  cbn [no_adjacent] in H. cbn [trim_right].
  destruct (p c) eqn:Hc.
  - apply andb_true_iff in H. destruct H as [Hb Hs].
    specialize (IH true Hs).
    destruct (trim_right p s) as [|d t]; [reflexivity|].
    cbn [no_adjacent] in *. rewrite Hc, Hb. exact IH.
  - specialize (IH false H).
    destruct (trim_right p s) as [|d t].
    + cbn [no_adjacent]. rewrite Hc. reflexivity.
    + cbn [no_adjacent] in *. rewrite Hc. exact IH.
Qed.

Lemma starts_in_trim_left (s : string) : starts_in p (trim_left p s) = false.
Proof.
  induction s as [|c s IH]; [reflexivity|].
  cbn [trim_left]. destruct (p c) eqn:Hc; [exact IH | exact Hc].
Qed.

Lemma starts_in_trim_right (s : string) :
  starts_in p s = false -> starts_in p (trim_right p s) = false.
Proof.
  destruct s as [|c s]; [reflexivity|]. cbn [starts_in trim_right].
  intro Hc. destruct (trim_right p s); [rewrite Hc|]; exact Hc.
Qed.

Lemma trim_left_fixed (s : string) :
  starts_in p s = false -> trim_left p s = s.
Proof.
  destruct s as [|c s]; [reflexivity|]. cbn [starts_in trim_left].
  intro Hc. rewrite Hc. reflexivity.
Qed.

Lemma trim_right_idem (s : string) :
  trim_right p (trim_right p s) = trim_right p s.
Proof.
  induction s as [|c s IH]; [reflexivity|].
  cbn [trim_right]. destruct (trim_right p s) as [|d t] eqn:Ht.
  - destruct (p c) eqn:Hc; [reflexivity|].
    cbn [trim_right]. rewrite Hc. reflexivity.
  - cbn [trim_right]. cbn [trim_right] in IH. rewrite IH. reflexivity.
Qed.

End Shape.

Lemma all_in_squeeze_ws (b : bool) (s : string) :
  all_in slug_keep s = true ->
  all_in slug_char (squeeze is_ws hyphen b s) = true.
Proof.
  revert b. induction s as [|c s IH]; intros b H; [reflexivity|].
  cbn [all_in] in H. apply andb_true_iff in H. destruct H as [Hc Hs].
  cbn [squeeze]. destruct (is_ws c) eqn:Hw.
  - destruct b; [apply IH; exact Hs|].
    cbn [all_in]. rewrite IH by exact Hs. reflexivity.
  - cbn [all_in]. rewrite (keep_not_ws_slug_char c Hc Hw), IH by exact Hs.
    reflexivity.
Qed.

Lemma spec_slug_shaped (title : string) : slug_shaped (spec_slug title).
Proof.
  unfold spec_slug.
  set (a := strip slug_keep (toLowerCase title)).
  set (b := squeeze is_ws hyphen false a).
  set (c := squeeze is_hyphen hyphen false b).
  assert (Hb : all_in slug_char b = true)
    by (apply all_in_squeeze_ws, all_in_strip).
  assert (Hc : all_in slug_char c = true)
    by (apply all_in_squeeze; [reflexivity | exact Hb]).
  assert (Hn : no_adjacent is_hyphen false c = true)
    by (apply no_adjacent_squeeze; reflexivity).
  repeat split.
  - apply all_in_trim_right, all_in_trim_left, Hc.
  - apply no_adjacent_trim_right, (no_adjacent_trim_left _ false), Hn.
  - apply trim_left_fixed, starts_in_trim_right, starts_in_trim_left.
  - apply trim_right_idem.
Qed.

Lemma toLowerCase_fixed (s : string) :
  all_in slug_char s = true -> toLowerCase s = s.
Proof.
  induction s as [|c s IH]; intro H; [reflexivity|].
  cbn [all_in] in H. apply andb_true_iff in H. destruct H as [Hc Hs].
  cbn [toLowerCase]. rewrite (slug_char_lower c Hc), IH by exact Hs.
  reflexivity.
Qed.

Lemma strip_fixed (s : string) :
  all_in slug_char s = true -> strip slug_keep s = s.
Proof.
  induction s as [|c s IH]; intro H; [reflexivity|].
  cbn [all_in] in H. apply andb_true_iff in H. destruct H as [Hc Hs].
  cbn [strip]. rewrite (slug_char_keep c Hc), IH by exact Hs. reflexivity.
Qed.

Lemma squeeze_ws_fixed (b : bool) (s : string) :
  all_in slug_char s = true -> squeeze is_ws hyphen b s = s.
Proof.
  revert b. induction s as [|c s IH]; intros b H; [reflexivity|].
  cbn [all_in] in H. apply andb_true_iff in H. destruct H as [Hc Hs].
  cbn [squeeze]. rewrite (slug_char_not_ws c Hc), IH by exact Hs.
  reflexivity.
Qed.

Lemma squeeze_hyphen_fixed (b : bool) (s : string) :
  no_adjacent is_hyphen b s = true ->
  squeeze is_hyphen hyphen b s = s.
Proof.
  revert b. induction s as [|c s IH]; intros b H; [reflexivity|].
  cbn [no_adjacent] in H. cbn [squeeze].
  destruct (is_hyphen c) eqn:Hc.
  - apply andb_true_iff in H. destruct H as [Hb Hs].
    destruct b; [discriminate|].
    rewrite (is_hyphen_eq c Hc), (IH true Hs). reflexivity.
  - rewrite (IH false H). reflexivity.
Qed.

(** A slug-shaped string is its own slug. *)
Lemma spec_slug_fixed (s : string) : slug_shaped s -> spec_slug s = s.
Proof.
  intros (Hc & Hn & Hl & Hr). unfold spec_slug.
  rewrite (toLowerCase_fixed s Hc), (strip_fixed s Hc),
          (squeeze_ws_fixed false s Hc), (squeeze_hyphen_fixed false s Hn),
          Hl, Hr.
  reflexivity.
Qed.

Lemma generateSlug_idem (t : string) :
  generateSlug (generateSlug t) = generateSlug t.
Proof.
  rewrite !generateSlug_spec_slug.
  apply spec_slug_fixed, spec_slug_shaped.
Qed.

(** ** Arrays: [findIndex], indexed assignment, [splice] *)

Section Arrays.

Local Open Scope list_scope.

Context {A : Type} (f : A -> bool).

Lemma findIndex_split (l : list A) (i : nat) :
  findIndex f l = Some i ->
  exists before x after,
    l = before ++ x :: after /\ List.length before = i /\ f x = true /\
    forallb (fun y => negb (f y)) before = true.
Proof.
  revert i. induction l as [|a l IH]; intros i H; [discriminate|].
  cbn [findIndex] in H. destruct (f a) eqn:Ha.
  - inversion H; subst. exists [], a, l. repeat split; assumption.
  - destruct (findIndex f l) as [j|]; [|discriminate].
    inversion H; subst.
    destruct (IH j eq_refl) as (b & x & t & -> & Hlen & Hx & Hb).
    exists (a :: b), x, t. cbn [List.length forallb app].
    rewrite Ha, Hb, Hlen. repeat split; assumption.
Qed.

Lemma findIndex_none (l : list A) :
  findIndex f l = None <-> forallb (fun y => negb (f y)) l = true.
Proof.
  induction l as [|a l IH]; cbn [findIndex forallb]; [tauto|].
  destruct (f a); cbn [negb andb].
  - split; discriminate.
  - rewrite <- IH. destruct (findIndex f l); cbn [option_map];
      split; congruence.
Qed.

Lemma findIndex_middle (before : list A) (x : A) (after : list A) :
  f x = true -> (forall y, In y before -> f y = false) ->
  findIndex f (before ++ x :: after) = Some (List.length before).
Proof.
  intros Hx. induction before as [|b l IH]; intro Hb;
    cbn [app findIndex List.length].
  - rewrite Hx. reflexivity.
  - rewrite (Hb b) by (left; reflexivity).
    rewrite IH; [reflexivity|]. intros y Hy. apply Hb. right. exact Hy.
Qed.

Lemma update_at_middle (g : A -> A) (before : list A) (x : A) (after : list A) :
  update_at (List.length before) g (before ++ x :: after)
  = before ++ g x :: after.
Proof. induction before as [|b l IH]; cbn; [|rewrite IH]; reflexivity. Qed.

Lemma splice1_middle (before : list A) (x : A) (after : list A) :
  splice1 (List.length before) (before ++ x :: after) = before ++ after.
Proof. induction before as [|b l IH]; cbn; [|rewrite IH]; reflexivity. Qed.

Lemma nth_error_middle (before : list A) (x : A) (after : list A) :
  nth_error (before ++ x :: after) (List.length before) = Some x.
Proof. induction before as [|b l IH]; cbn; [reflexivity | exact IH]. Qed.

Lemma find_first_none (l : list A) :
  find_first f l = None <-> forall x, In x l -> f x = false.
Proof.
  induction l as [|a l IH]; cbn [find_first In].
  - split; [intros _ x [] | reflexivity].
  - destruct (f a) eqn:Ha.
    + split; [discriminate|]. intro H.
      rewrite (H a) in Ha by (left; reflexivity). discriminate.
    + rewrite IH. split.
      * intros H x [<-|Hx]; [exact Ha | apply H, Hx].
      * intros H x Hx. apply H. right. exact Hx.
Qed.

Lemma find_first_head (before : list A) (x : A) (after : list A) :
  f x = true -> (forall y, In y before -> f y = false) ->
  find_first f (before ++ x :: after) = Some x.
Proof.
  intros Hx. induction before as [|b l IH]; intro Hb; cbn [app find_first].
  - rewrite Hx. reflexivity.
  - rewrite (Hb b) by (left; reflexivity).
    apply IH. intros y Hy. apply Hb. right. exact Hy.
Qed.

End Arrays.

(** ** File mode: the create handler *)

Lemma file_create_missing (w : FileMode.world) (rq : FileMode.create_request)
      (f : FileMode.file) :
  truthy (FileMode.req_title rq) && truthy (FileMode.req_content rq)
  && truthy (FileMode.req_label rq) = false ->
  FileMode.create w rq f = (fail 400 "Title, content, and label required", f).
Proof.
  unfold FileMode.create.
  destruct (FileMode.req_title rq) as [[|? ?]|];
    destruct (FileMode.req_content rq) as [[|? ?]|];
    destruct (FileMode.req_label rq) as [[|? ?]|];
    cbn; intro H; try reflexivity; discriminate.
Qed.

Lemma file_create_present (w : FileMode.world) (rq : FileMode.create_request)
      (f : FileMode.file) (t c l : string) :
  FileMode.req_title rq = Some t ->
  FileMode.req_content rq = Some c ->
  FileMode.req_label rq = Some l ->
  truthy (Some t) = true -> truthy (Some c) = true -> truthy (Some l) = true ->
  FileMode.create w rq f =
  if FileMode.writeErr w then (fail 500 "Cannot save post", f)
  else (ok (CreatedBody (FileMode.Date_now w) (generateSlug t)),
        FileMode.Stored
          (readable_posts w f ++ [FileMode.newPost w rq t c l])%list).
Proof.
  intros Ht Hc Hl Tt Tc Tl. unfold FileMode.create.
  rewrite Ht, Hc, Hl.
  destruct t as [|? ?]; [discriminate|].
  destruct c as [|? ?]; [discriminate|].
  destruct l as [|? ?]; [discriminate|].
  reflexivity.
Qed.

(** ** Backend mode: the create handler *)

Lemma backend_create_missing {T : Type} (svc : Backend.Supabase T) (now : Z)
      (title content label image : option string) (st : T) :
  truthy title && truthy content && truthy label = false ->
  Backend.create svc now title content label image st
  = (fail 400 "Missing fields", st).
Proof.
  unfold Backend.create.
  destruct title as [[|? ?]|]; destruct content as [[|? ?]|];
    destruct label as [[|? ?]|];
    cbn; intro H; try reflexivity; discriminate.
Qed.

Lemma backend_create_present {T : Type} (svc : Backend.Supabase T) (now : Z)
      (t c l : string) (image : option string) (st : T) :
  truthy (Some t) = true -> truthy (Some c) = true -> truthy (Some l) = true ->
  Backend.create svc now (Some t) (Some c) (Some l) image st =
  match Backend.insert svc (Backend.new_row now t c l image) st with
  | (Backend.Failed message, st') => (fail 500 message, st')
  | (Backend.Data data, st') => (ok (PostBody (hd_error data)), st')
  end.
Proof.
  intros Tt Tc Tl. unfold Backend.create.
  destruct t as [|? ?]; [discriminate|].
  destruct c as [|? ?]; [discriminate|].
  destruct l as [|? ?]; [discriminate|].
  reflexivity.
Qed.

(** ** The create handlers on bodies of JSON values *)

Lemma json_guard (a b c : JsonBody.value) :
  negb (JsonBody.truthy a) || negb (JsonBody.truthy b)
  || negb (JsonBody.truthy c)
  = negb (JsonBody.truthy a && JsonBody.truthy b && JsonBody.truthy c).
Proof.
  destruct (JsonBody.truthy a), (JsonBody.truthy b), (JsonBody.truthy c);
    reflexivity.
Qed.

Lemma json_file_create_missing (w : FileMode.world)
      (title content label : JsonBody.value) (req_file : option string)
      (protocol host : string) (f : JsonBody.file) :
  JsonBody.truthy title && JsonBody.truthy content && JsonBody.truthy label
  = false ->
  JsonBody.file_create w title content label req_file protocol host f
  = (JsonBody.Sent (fail 400 "Title, content, and label required"), f).
Proof.
  intro H. unfold JsonBody.file_create. rewrite json_guard, H. reflexivity.
Qed.

Lemma json_file_create_present (w : FileMode.world) (t : string)
      (content label : JsonBody.value) (req_file : option string)
      (protocol host : string) (f : JsonBody.file) :
  JsonBody.truthy (JsonBody.Text t) = true ->
  JsonBody.truthy content = true -> JsonBody.truthy label = true ->
  JsonBody.file_create w (JsonBody.Text t) content label req_file protocol host f
  = match JsonBody.read_posts w f with
    | JsonBody.Array items =>
        if FileMode.writeErr w
        then (JsonBody.Sent (fail 500 "Cannot save post"), f)
        else (JsonBody.Sent
                (ok (CreatedBody (FileMode.Date_now w) (generateSlug t))),
              JsonBody.Parsed
                (JsonBody.Array
                   (items ++ [JsonBody.newPost w t content label
                                               req_file protocol host])%list))
    | _ => (JsonBody.Threw "posts.push", f)
    end.
Proof.
  intros Ht Hc Hl. unfold JsonBody.file_create.
  rewrite json_guard, Ht, Hc, Hl. reflexivity.
Qed.

Lemma json_file_create_throws (w : FileMode.world)
      (title content label : JsonBody.value) (req_file : option string)
      (protocol host : string) (f : JsonBody.file) :
  JsonBody.truthy title = true ->
  JsonBody.truthy content = true -> JsonBody.truthy label = true ->
  (forall t, title <> JsonBody.Text t) ->
  JsonBody.file_create w title content label req_file protocol host f
  = (JsonBody.Threw "title.toLowerCase", f).
Proof.
  intros Ht Hc Hl Hn. unfold JsonBody.file_create.
  rewrite json_guard, Ht, Hc, Hl.
  destruct title; try reflexivity. elim (Hn s). reflexivity.
Qed.

Lemma json_backend_create_missing {T : Type}
      (insert : JsonBody.value -> T
                -> Backend.reply (list JsonBody.value) * T)
      (now : Z) (title content label image : JsonBody.value) (st : T) :
  JsonBody.truthy title && JsonBody.truthy content && JsonBody.truthy label
  = false ->
  JsonBody.backend_create insert now title content label image st
  = (JsonBody.Sent (fail 400 "Missing fields"), st).
Proof.
  intro H. unfold JsonBody.backend_create. rewrite json_guard, H.
  reflexivity.
Qed.

Lemma json_backend_create_present {T : Type}
      (insert : JsonBody.value -> T
                -> Backend.reply (list JsonBody.value) * T)
      (now : Z) (t : string) (content label image : JsonBody.value) (st : T) :
  JsonBody.truthy (JsonBody.Text t) = true ->
  JsonBody.truthy content = true -> JsonBody.truthy label = true ->
  JsonBody.backend_create insert now (JsonBody.Text t) content label image st
  = match insert (JsonBody.new_row now t content label image) st with
    | (Backend.Failed message, st') =>
        (JsonBody.Sent (fail 500 message), st')
    | (Backend.Data data, st') =>
        (JsonBody.Sent (ok (PostBody (hd_error data))), st')
    end.
Proof.
  intros Ht Hc Hl. unfold JsonBody.backend_create.
  rewrite json_guard, Ht, Hc, Hl. reflexivity.
Qed.

Lemma json_backend_create_throws {T : Type}
      (insert : JsonBody.value -> T
                -> Backend.reply (list JsonBody.value) * T)
      (now : Z) (title content label image : JsonBody.value) (st : T) :
  JsonBody.truthy title = true ->
  JsonBody.truthy content = true -> JsonBody.truthy label = true ->
  (forall t, title <> JsonBody.Text t) ->
  JsonBody.backend_create insert now title content label image st
  = (JsonBody.Threw "title.toLowerCase", st).
Proof.
  intros Ht Hc Hl Hn. unfold JsonBody.backend_create.
  rewrite json_guard, Ht, Hc, Hl.
  destruct title; try reflexivity. elim (Hn s). reflexivity.
Qed.

(** C1.  The guard of both create handlers is
    [!title || !content || !label]: it tests that each field is there
    and truthy, not that it is a string.

    A request lacking a title, a content or a label (absent, empty, or
    any other falsy value) is answered 400 and the store is left as it
    was, in both variants and, in backend mode, whatever the service.

    With the three fields present and the title a string, and the store
    accepting the write (file: [posts.json] holds an array or cannot be
    read, and [fs.writeFile] reports no error; backend: no outage of the
    service), a record is added after the posts already there: in file
    mode with id [Date.now()], slug [generateSlug(title)], the two date
    stamps and the URL of the uploaded file or [null], and the response
    carries the id and the slug; in backend mode the row handed to the
    service has the suffixed slug and the image reference or [null], and
    the response carries the row the service gives back (on the
    reference service: the row appended, with the id and creation stamp
    the service gives out).

    With the three fields present and the title not a string (a number,
    [true], an array, an object) the claim fails: [generateSlug(title)]
    throws, in both variants, no response is sent and nothing is
    inserted. *)
Theorem create_checks_presence_only :
  (forall w rq f,
      truthy (FileMode.req_title rq) && truthy (FileMode.req_content rq)
      && truthy (FileMode.req_label rq) = false ->
      status (fst (FileMode.create w rq f)) = 400 /\
      snd (FileMode.create w rq f) = f)
  /\
  (forall (T : Type) (svc : Backend.Supabase T) now title content label image st,
      truthy title && truthy content && truthy label = false ->
      status (fst (Backend.create svc now title content label image st)) = 400 /\
      snd (Backend.create svc now title content label image st) = st)
  /\
  (forall w rq f t c l,
      FileMode.req_title rq = Some t ->
      FileMode.req_content rq = Some c ->
      FileMode.req_label rq = Some l ->
      truthy (Some t) = true -> truthy (Some c) = true -> truthy (Some l) = true ->
      FileMode.writeErr w = false ->
      exists np,
        FileMode.create w rq f =
        (ok (CreatedBody (FileMode.id np) (FileMode.slug np)),
         FileMode.Stored (readable_posts w f ++ [np])%list) /\
        FileMode.id np = FileMode.Date_now w /\
        FileMode.title np = t /\ FileMode.content np = c /\
        FileMode.label np = l /\
        FileMode.slug np = generateSlug t /\
        FileMode.date np = FileMode.localeDate w /\
        FileMode.createdAt np = FileMode.isoString w /\
        FileMode.image np =
        option_map (fun filename =>
                      FileMode.req_protocol rq ++ "://" ++ FileMode.req_host rq
                      ++ "/uploads/" ++ filename)
                   (FileMode.req_file rq))
  /\
  (forall now t c l image d,
      truthy (Some t) = true -> truthy (Some c) = true -> truthy (Some l) = true ->
      Backend.outage d = None ->
      exists r d',
        Backend.create Backend.reference now (Some t) (Some c) (Some l) image d
        = (ok (PostBody (Some r)), d') /\
        Backend.rows d' = (Backend.rows d ++ [r])%list /\
        Backend.id r = Backend.next_id d /\
        Backend.title r = t /\ Backend.content r = c /\ Backend.label r = l /\
        Backend.slug r = generateSlug t ++ "-" ++ string_of_Z now /\
        Backend.image r = or_null image /\
        Backend.created_at r = Backend.db_clock d)
  /\
  (forall w title content label req_file protocol host f,
      JsonBody.truthy title && JsonBody.truthy content
      && JsonBody.truthy label = false ->
      JsonBody.file_create w title content label req_file protocol host f
      = (JsonBody.Sent (fail 400 "Title, content, and label required"), f))
  /\
  (forall (T : Type)
          (insert : JsonBody.value -> T
                    -> Backend.reply (list JsonBody.value) * T)
          now title content label image st,
      JsonBody.truthy title && JsonBody.truthy content
      && JsonBody.truthy label = false ->
      JsonBody.backend_create insert now title content label image st
      = (JsonBody.Sent (fail 400 "Missing fields"), st))
  /\
  (forall w t content label req_file protocol host f items,
      JsonBody.truthy (JsonBody.Text t) = true ->
      JsonBody.truthy content = true -> JsonBody.truthy label = true ->
      JsonBody.read_posts w f = JsonBody.Array items ->
      FileMode.writeErr w = false ->
      exists np,
        JsonBody.file_create w (JsonBody.Text t) content label
                             req_file protocol host f
        = (JsonBody.Sent
             (ok (CreatedBody (FileMode.Date_now w) (generateSlug t))),
           JsonBody.Parsed (JsonBody.Array (items ++ [np])%list)) /\
        JsonBody.field "id" np
        = JsonBody.Number (QArith_base.inject_Z (FileMode.Date_now w)) /\
        JsonBody.field "title" np = JsonBody.Text t /\
        JsonBody.field "content" np = content /\
        JsonBody.field "label" np = label /\
        JsonBody.field "slug" np = JsonBody.Text (generateSlug t) /\
        JsonBody.field "date" np = JsonBody.Text (FileMode.localeDate w) /\
        JsonBody.field "createdAt" np = JsonBody.Text (FileMode.isoString w) /\
        JsonBody.field "image" np
        = match req_file with
          | Some filename =>
              JsonBody.Text (protocol ++ "://" ++ host ++ "/uploads/" ++ filename)
          | None => JsonBody.Null
          end)
  /\
  (forall (T : Type)
          (insert : JsonBody.value -> T
                    -> Backend.reply (list JsonBody.value) * T)
          now t content label image st,
      JsonBody.truthy (JsonBody.Text t) = true ->
      JsonBody.truthy content = true -> JsonBody.truthy label = true ->
      exists row,
        JsonBody.backend_create insert now (JsonBody.Text t)
                                content label image st
        = match insert row st with
          | (Backend.Failed message, st') =>
              (JsonBody.Sent (fail 500 message), st')
          | (Backend.Data data, st') =>
              (JsonBody.Sent (ok (PostBody (hd_error data))), st')
          end /\
        JsonBody.field "title" row = JsonBody.Text t /\
        JsonBody.field "content" row = content /\
        JsonBody.field "label" row = label /\
        JsonBody.field "slug" row
        = JsonBody.Text (generateSlug t ++ "-" ++ string_of_Z now) /\
        JsonBody.field "image" row = JsonBody.or_null image)
  /\
  (forall w title content label req_file protocol host f,
      JsonBody.truthy title = true ->
      JsonBody.truthy content = true -> JsonBody.truthy label = true ->
      (forall t, title <> JsonBody.Text t) ->
      JsonBody.file_create w title content label req_file protocol host f
      = (JsonBody.Threw "title.toLowerCase", f))
  /\
  (forall (T : Type)
          (insert : JsonBody.value -> T
                    -> Backend.reply (list JsonBody.value) * T)
          now title content label image st,
      JsonBody.truthy title = true ->
      JsonBody.truthy content = true -> JsonBody.truthy label = true ->
      (forall t, title <> JsonBody.Text t) ->
      JsonBody.backend_create insert now title content label image st
      = (JsonBody.Threw "title.toLowerCase", st)).
Proof.
  refine (conj _ (conj _ (conj _ (conj _ (conj _ (conj _ (conj _
         (conj _ (conj _ _))))))))).
  - intros w rq f H. rewrite (file_create_missing w rq f H). split; reflexivity.
  - intros T svc now title content label image st H.
    rewrite (backend_create_missing svc now title content label image st H).
    split; reflexivity.
  - intros w rq f t c l Ht Hc Hl Tt Tc Tl Hw.
    exists (FileMode.newPost w rq t c l).
    rewrite (file_create_present w rq f t c l Ht Hc Hl Tt Tc Tl), Hw.
    repeat split.
  - intros now t c l image d Tt Tc Tl Hd.
    rewrite (backend_create_present _ now t c l image d Tt Tc Tl).
    cbn [Backend.insert Backend.reference]. unfold Backend.ref_insert.
    rewrite Hd. eexists. eexists. split; [reflexivity|].
    repeat split.
  - intros. apply json_file_create_missing. assumption.
  - intros. apply json_backend_create_missing. assumption.
  - intros w t content label req_file protocol host f items Ht Hc Hl Hp Hw.
    exists (JsonBody.newPost w t content label req_file protocol host).
    rewrite (json_file_create_present w t content label req_file protocol
                                      host f Ht Hc Hl), Hp, Hw.
    repeat split.
  - intros T insert now t content label image st Ht Hc Hl.
    exists (JsonBody.new_row now t content label image).
    rewrite (json_backend_create_present insert now t content label image st
                                         Ht Hc Hl).
    repeat split.
  - intros. apply json_file_create_throws; assumption.
  - intros. apply json_backend_create_throws; assumption.
Qed.

Lemma create_checks_presence_only_witness :
  (status (fst (FileMode.create
                  (FileMode.World false false 1700000000000 "Nov 14" "2023-11-14T22:13:20.000Z")
                  (FileMode.CreateRequest (Some "Hello") None (Some "news") None "http" "localhost:3000")
                  (FileMode.Stored []))) = 400)
  /\
  (exists np,
      FileMode.create
        (FileMode.World false false 1700000000000 "Nov 14" "2023-11-14T22:13:20.000Z")
        (FileMode.CreateRequest (Some "Hello World") (Some "text") (Some "news")
                                (Some "1699999999999-a.png") "http" "localhost:3000")
        (FileMode.Stored [])
      = (ok (CreatedBody (FileMode.id np) (FileMode.slug np)),
         FileMode.Stored [np]) /\
      FileMode.slug np = "hello-world")
  /\
  (exists r d',
      Backend.create Backend.reference 1700000000000
                     (Some "Hello World") (Some "text") (Some "news") None
                     (Backend.mkDb [] 1 [] "2023-11-14T22:13:20Z" None)
      = (ok (PostBody (Some r)), d') /\
      Backend.slug r = "hello-world-1700000000000")
  /\
  JsonBody.file_create
    (FileMode.World false false 1700000000000 "Nov 14" "2023-11-14T22:13:20.000Z")
    (JsonBody.Number (QArith_base.inject_Z 123))
    (JsonBody.Text "text") (JsonBody.Text "news")
    None "http" "localhost:3000"
    (JsonBody.Parsed (JsonBody.Array []))
  = (JsonBody.Threw "title.toLowerCase", JsonBody.Parsed (JsonBody.Array []))
  /\
  JsonBody.backend_create
    (fun row table => (Backend.Data [row], (table ++ [row])%list))
    1700000000000
    (JsonBody.Number (QArith_base.inject_Z 123))
    (JsonBody.Text "text") (JsonBody.Text "news") JsonBody.Undefined
    []
  = (JsonBody.Threw "title.toLowerCase", [])
  /\
  JsonBody.file_create
    (FileMode.World false false 1700000000000 "Nov 14" "2023-11-14T22:13:20.000Z")
    (JsonBody.Text "Hello") (JsonBody.Number (QArith_base.inject_Z 0))
    (JsonBody.Text "news")
    None "http" "localhost:3000"
    (JsonBody.Parsed (JsonBody.Array []))
  = (JsonBody.Sent (fail 400 "Title, content, and label required"),
     JsonBody.Parsed (JsonBody.Array [])).
Proof.
  destruct create_checks_presence_only
    as (H1 & H2 & H3 & H4 & H5 & H6 & H7 & H8 & H9 & H10).
  refine (conj _ (conj _ (conj _ (conj _ (conj _ _))))).
  - apply (H1 (FileMode.World false false 1700000000000 "Nov 14" "2023-11-14T22:13:20.000Z")
              (FileMode.CreateRequest (Some "Hello") None (Some "news") None "http" "localhost:3000")
              (FileMode.Stored [])).
    reflexivity.
  - destruct (H3 (FileMode.World false false 1700000000000 "Nov 14" "2023-11-14T22:13:20.000Z")
                 (FileMode.CreateRequest (Some "Hello World") (Some "text") (Some "news")
                                         (Some "1699999999999-a.png") "http" "localhost:3000")
                 (FileMode.Stored []) "Hello World" "text" "news"
                 eq_refl eq_refl eq_refl eq_refl eq_refl eq_refl eq_refl)
      as (np & E & _ & _ & _ & _ & Hs & _).
    exists np. split; [exact E | rewrite Hs; reflexivity].
  - destruct (H4 1700000000000%Z "Hello World" "text" "news" None
                 (Backend.mkDb [] 1 [] "2023-11-14T22:13:20Z" None)
                 eq_refl eq_refl eq_refl eq_refl)
      as (r & d' & E & _ & _ & _ & _ & _ & Hs & _).
    exists r, d'. split; [exact E | rewrite Hs; reflexivity].
  - apply H9; try reflexivity. intros t E. discriminate E.
  - apply H10; try reflexivity. intros t E. discriminate E.
  - apply H5. reflexivity.
Defined.

Lemma truthy_all3 (a b c : option string) :
  truthy a && truthy b && truthy c = true ->
  exists x y z, a = Some x /\ b = Some y /\ c = Some z /\
                truthy (Some x) = true /\ truthy (Some y) = true /\
                truthy (Some z) = true.
Proof.
  intro H. apply andb_true_iff in H. destruct H as [H Hc].
  apply andb_true_iff in H. destruct H as [Ha Hb].
  destruct a as [x|]; [|discriminate]. destruct b as [y|]; [|discriminate].
  destruct c as [z|]; [|discriminate].
  exists x, y, z. repeat split; assumption.
Qed.

(** On a body whose fields are strings or absent the handlers on JSON
    values are the typed handlers of the other sections. *)
Lemma json_truthy_of_field (v : option string) :
  JsonBody.truthy (JsonBody.of_field v) = truthy v.
Proof. destruct v as [[|? ?]|]; reflexivity. Qed.

Lemma of_post_newPost (w : FileMode.world) (rq : FileMode.create_request)
      (t c l : string) :
  JsonBody.of_post (FileMode.newPost w rq t c l)
  = JsonBody.newPost w t (JsonBody.Text c) (JsonBody.Text l)
                     (FileMode.req_file rq) (FileMode.req_protocol rq)
                     (FileMode.req_host rq).
Proof.
  unfold JsonBody.of_post, JsonBody.newPost, FileMode.newPost.
  cbn [FileMode.id FileMode.title FileMode.content FileMode.label
       FileMode.slug FileMode.date FileMode.createdAt FileMode.image
       FileMode.updated].
  destruct (FileMode.req_file rq); reflexivity.
Qed.

Lemma json_file_create_typed (w : FileMode.world)
      (rq : FileMode.create_request) (f : FileMode.file) :
  JsonBody.file_create w
    (JsonBody.of_field (FileMode.req_title rq))
    (JsonBody.of_field (FileMode.req_content rq))
    (JsonBody.of_field (FileMode.req_label rq))
    (FileMode.req_file rq) (FileMode.req_protocol rq) (FileMode.req_host rq)
    (JsonBody.of_file f)
  = (JsonBody.Sent
       (JsonBody.of_response JsonBody.of_post (fst (FileMode.create w rq f))),
     JsonBody.of_file (snd (FileMode.create w rq f))).
Proof.
  destruct (truthy (FileMode.req_title rq) && truthy (FileMode.req_content rq)
            && truthy (FileMode.req_label rq)) eqn:E.
  - apply andb_true_iff in E. destruct E as [E Tl].
    apply andb_true_iff in E. destruct E as [Tt Tc].
    destruct (FileMode.req_title rq) as [t|] eqn:Et; [|discriminate].
    destruct (FileMode.req_content rq) as [c|] eqn:Ec; [|discriminate].
    destruct (FileMode.req_label rq) as [l|] eqn:El; [|discriminate].
    rewrite (file_create_present w rq f t c l Et Ec El Tt Tc Tl).
    cbn [JsonBody.of_field].
    rewrite json_file_create_present
      by (rewrite <- json_truthy_of_field in *; assumption).
    unfold JsonBody.read_posts, readable_posts.
    destruct (FileMode.writeErr w), (FileMode.readErr w), f as [raw|posts];
      cbn [JsonBody.of_file fst snd]; try reflexivity;
      rewrite map_app; cbn [map]; rewrite of_post_newPost; reflexivity.
  - rewrite (file_create_missing w rq f E).
    rewrite json_file_create_missing
      by (rewrite !json_truthy_of_field; exact E).
    reflexivity.
Qed.

Lemma json_backend_create_typed {T : Type} (svc : Backend.Supabase T)
      (insert : JsonBody.value -> T
                -> Backend.reply (list JsonBody.value) * T)
      (of_row : Backend.Row -> JsonBody.value) :
  (forall n st,
      insert (JsonBody.of_new_row n) st
      = (match fst (Backend.insert svc n st) with
         | Backend.Failed message => Backend.Failed message
         | Backend.Data data => Backend.Data (map of_row data)
         end,
         snd (Backend.insert svc n st))) ->
  forall now title content label image st,
    JsonBody.backend_create insert now
      (JsonBody.of_field title) (JsonBody.of_field content)
      (JsonBody.of_field label) (JsonBody.of_field image) st
    = (JsonBody.Sent
         (JsonBody.of_response of_row
            (fst (Backend.create svc now title content label image st))),
       snd (Backend.create svc now title content label image st)).
Proof.
  intros Hi now title content label image st.
  destruct (truthy title && truthy content && truthy label) eqn:E.
  - destruct (truthy_all3 title content label E)
      as (t & c & l & -> & -> & -> & Tt & Tc & Tl).
    rewrite (backend_create_present svc now t c l image st Tt Tc Tl).
    cbn [JsonBody.of_field].
    rewrite json_backend_create_present
      by (rewrite <- json_truthy_of_field in *; assumption).
    assert (R : JsonBody.new_row now t (JsonBody.Text c) (JsonBody.Text l)
                                 (JsonBody.of_field image)
                = JsonBody.of_new_row (Backend.new_row now t c l image)).
    { destruct image as [[|? ?]|]; reflexivity. }
    rewrite R, Hi.
    destruct (Backend.insert svc _ st) as [[m|data] st'];
      cbn [fst snd]; [reflexivity|].
    destruct data; reflexivity.
  - rewrite (backend_create_missing svc now title content label image st E).
    rewrite json_backend_create_missing
      by (rewrite !json_truthy_of_field; exact E).
    reflexivity.
Qed.

(** C9.  File mode: a create request with the three fields present, met
    by a failed read of the posts file or by contents that do not parse,
    is still answered 200 once the write goes through, and the file then
    holds an array with the new post alone: whatever was stored before is
    gone. *)
Theorem create_overwrites_unreadable_store :
  forall w rq f t c l,
    FileMode.req_title rq = Some t ->
    FileMode.req_content rq = Some c ->
    FileMode.req_label rq = Some l ->
    truthy (Some t) = true -> truthy (Some c) = true -> truthy (Some l) = true ->
    FileMode.readErr w = true \/ (exists raw, f = FileMode.Unparsable raw) ->
    FileMode.writeErr w = false ->
    status (fst (FileMode.create w rq f)) = 200 /\
    snd (FileMode.create w rq f)
    = FileMode.Stored [FileMode.newPost w rq t c l].
Proof.
  intros w rq f t c l Ht Hc Hl Tt Tc Tl Hbad Hw.
  rewrite (file_create_present w rq f t c l Ht Hc Hl Tt Tc Tl), Hw.
  assert (E : readable_posts w f = []).
  { unfold readable_posts. destruct Hbad as [-> | [raw ->]]; [reflexivity|].
    destruct (FileMode.readErr w); reflexivity. }
  rewrite E. split; reflexivity.
Qed.

Lemma create_overwrites_unreadable_store_witness :
  status (fst (FileMode.create
                 (FileMode.World true false 1700000000000 "Nov 14" "2023-11-14T22:13:20.000Z")
                 (FileMode.CreateRequest (Some "New") (Some "text") (Some "news") None "http" "localhost")
                 (FileMode.Stored
                    [FileMode.mkPost 1 "Old" "kept so far" "news" "old" "Nov 1"
                                     "2023-11-01T00:00:00.000Z" None None]))) = 200 /\
  snd (FileMode.create
         (FileMode.World true false 1700000000000 "Nov 14" "2023-11-14T22:13:20.000Z")
         (FileMode.CreateRequest (Some "New") (Some "text") (Some "news") None "http" "localhost")
         (FileMode.Stored
            [FileMode.mkPost 1 "Old" "kept so far" "news" "old" "Nov 1"
                             "2023-11-01T00:00:00.000Z" None None]))
  = FileMode.Stored
      [FileMode.mkPost 1700000000000 "New" "text" "news" "new" "Nov 14"
                       "2023-11-14T22:13:20.000Z" None None].
Proof.
  apply (create_overwrites_unreadable_store
           (FileMode.World true false 1700000000000 "Nov 14" "2023-11-14T22:13:20.000Z")
           (FileMode.CreateRequest (Some "New") (Some "text") (Some "news") None "http" "localhost")
           (FileMode.Stored
              [FileMode.mkPost 1 "Old" "kept so far" "news" "old" "Nov 1"
                               "2023-11-01T00:00:00.000Z" None None])
           "New" "text" "news"); try reflexivity.
  left. reflexivity.
Defined.

(** C5.  For every title the slug the code computes with its four
    [replace] calls is the one the specification words: lower-case, keep
    only lower-case letters, digits, spaces and hyphens, turn each maximal
    run of whitespace into a hyphen, collapse each run of hyphens, drop
    the hyphens at both ends.  On a successful create the file-mode
    variant stores and returns exactly that slug, and the backend-mode
    variant stores it followed by a hyphen and [Date.now()] in decimal. *)
Theorem slug_pipeline_and_creation_suffix :
  (forall title, generateSlug title = spec_slug title)
  /\
  (forall w rq f,
      status (fst (FileMode.create w rq f)) = 200 ->
      exists t np,
        FileMode.req_title rq = Some t /\
        snd (FileMode.create w rq f)
        = FileMode.Stored (readable_posts w f ++ [np])%list /\
        FileMode.slug np = generateSlug t /\
        json (fst (FileMode.create w rq f))
        = CreatedBody (FileMode.id np) (generateSlug t))
  /\
  (forall now title content label image d,
      status (fst (Backend.create Backend.reference now title content label image d)) = 200 ->
      exists t r,
        title = Some t /\
        Backend.rows (snd (Backend.create Backend.reference now title content label image d))
        = (Backend.rows d ++ [r])%list /\
        Backend.slug r = generateSlug t ++ "-" ++ string_of_Z now).
Proof.
  split; [exact generateSlug_spec_slug | split].
  - intros w rq f H.
    destruct (truthy (FileMode.req_title rq) && truthy (FileMode.req_content rq)
              && truthy (FileMode.req_label rq)) eqn:E.
    + destruct (truthy_all3 _ _ _ E) as (t & c & l & Ht & Hc & Hl & Tt & Tc & Tl).
      rewrite (file_create_present w rq f t c l Ht Hc Hl Tt Tc Tl) in *.
      destruct (FileMode.writeErr w); [discriminate|].
      exists t, (FileMode.newPost w rq t c l). repeat split. exact Ht.
    + rewrite (file_create_missing w rq f E) in H. discriminate.
  - intros now title content label image d H.
    destruct (truthy title && truthy content && truthy label) eqn:E.
    + destruct (truthy_all3 _ _ _ E) as (t & c & l & -> & -> & -> & Tt & Tc & Tl).
      rewrite (backend_create_present _ now t c l image d Tt Tc Tl) in *.
      cbn [Backend.insert Backend.reference] in *.
      unfold Backend.ref_insert in *.
      destruct (Backend.outage d); [discriminate|].
      exists t. eexists. repeat split.
    + rewrite (backend_create_missing _ now title content label image d E) in H.
      discriminate.
Qed.

Lemma slug_pipeline_and_creation_suffix_witness :
  (exists t np,
      Some "Sala  de Estar -- 2024!" = Some t /\
      snd (FileMode.create
             (FileMode.World false false 1700000000000 "Nov 14" "2023-11-14T22:13:20.000Z")
             (FileMode.CreateRequest (Some "Sala  de Estar -- 2024!") (Some "text")
                                     (Some "news") None "http" "localhost")
             (FileMode.Stored []))
      = FileMode.Stored [np] /\
      FileMode.slug np = generateSlug t)
  /\
  (exists t r,
      Some "Sala  de Estar -- 2024!" = Some t /\
      Backend.rows
        (snd (Backend.create Backend.reference 1700000000000
                (Some "Sala  de Estar -- 2024!") (Some "text") (Some "news") None
                (Backend.mkDb [] 1 [] "2023-11-14T22:13:20Z" None)))
      = [r] /\
      Backend.slug r = generateSlug t ++ "-" ++ "1700000000000").
Proof.
  destruct slug_pipeline_and_creation_suffix as (_ & H2 & H3).
  split.
  - destruct (H2 (FileMode.World false false 1700000000000 "Nov 14" "2023-11-14T22:13:20.000Z")
                 (FileMode.CreateRequest (Some "Sala  de Estar -- 2024!") (Some "text")
                                         (Some "news") None "http" "localhost")
                 (FileMode.Stored []) eq_refl)
      as (t & np & Ht & E & Hs & _).
    exists t, np. repeat split; assumption.
  - destruct (H3 1700000000000%Z (Some "Sala  de Estar -- 2024!") (Some "text")
                 (Some "news") None
                 (Backend.mkDb [] 1 [] "2023-11-14T22:13:20Z" None) eq_refl)
      as (t & r & Ht & E & Hs).
    exists t, r. repeat split; assumption.
Defined.

(** C6.  [generateSlug] is a function of its argument alone, so equal
    titles have equal slugs, and it is idempotent: the slug of a slug is
    that slug. *)
Theorem generateSlug_deterministic_idempotent :
  (forall t1 t2, t1 = t2 -> generateSlug t1 = generateSlug t2) /\
  (forall t, generateSlug (generateSlug t) = generateSlug t).
Proof.
  split.
  - intros t1 t2 ->. reflexivity.
  - exact generateSlug_idem.
Qed.

Lemma generateSlug_deterministic_idempotent_witness :
  generateSlug "  Quarto & Sala  -- Ideias " = generateSlug "  Quarto & Sala  -- Ideias " /\
  generateSlug (generateSlug "  Quarto & Sala  -- Ideias ")
  = generateSlug "  Quarto & Sala  -- Ideias ".
Proof.
  split.
  - apply (proj1 generateSlug_deterministic_idempotent). reflexivity.
  - apply (proj2 generateSlug_deterministic_idempotent).
Defined.

(** ** File mode: update and delete *)

Lemma num_eq_true (n : Z) (m : option Z) :
  num_eq n m = true <-> m = Some n.
Proof.
  destruct m as [k|]; cbn [num_eq].
  - rewrite Z.eqb_eq. split; [intros ->; reflexivity | congruence].
  - split; discriminate.
Qed.

Lemma before_other_ids (n : option Z) (before : list FileMode.Post) :
  forallb (fun y => negb (num_eq (FileMode.id y) n)) before = true ->
  forall q, In q before -> n <> Some (FileMode.id q).
Proof.
  intros H q Hq. rewrite forallb_forall in H. specialize (H q Hq).
  intro E. apply (proj2 (num_eq_true (FileMode.id q) n)) in E.
  rewrite E in H. discriminate.
Qed.

(** What a 200 from the update handler means. *)
Lemma file_update_ok (w : FileMode.world) (id_param : string)
      (title content label : option string) (f : FileMode.file) :
  status (fst (FileMode.update w id_param title content label f)) = 200 ->
  exists t c l before p after,
    title = Some t /\ content = Some c /\ label = Some l /\
    f = FileMode.Stored (before ++ p :: after)%list /\
    parseInt id_param = Some (FileMode.id p) /\
    (forall q, In q before -> parseInt id_param <> Some (FileMode.id q)) /\
    FileMode.update w id_param title content label f
    = (ok SuccessBody,
       FileMode.Stored (before ++ FileMode.merge w t c l p :: after)%list).
Proof.
  unfold FileMode.update.
  destruct title as [[|a1 t]|]; try (cbn; discriminate).
  destruct content as [[|a2 c]|]; try (cbn; discriminate).
  destruct label as [[|a3 l]|]; try (cbn; discriminate).
  destruct (FileMode.readErr w); [cbn; discriminate|].
  destruct f as [raw|posts]; [cbn; discriminate|].
  destruct (findIndex _ posts) as [i|] eqn:Hi; [|cbn; discriminate].
  destruct (findIndex_split _ posts i Hi) as (before & p & after & -> & <- & Hp & Hb).
  destruct (FileMode.writeErr w); [cbn; discriminate|].
  intros _. exists (String a1 t), (String a2 c), (String a3 l), before, p, after.
  repeat split.
  - apply num_eq_true, Hp.
  - apply before_other_ids, Hb.
  - rewrite update_at_middle. reflexivity.
Qed.

(** What a 200 from the delete handler means. *)
Lemma file_delete_ok (w : FileMode.world) (id_param : string) (f : FileMode.file) :
  status (fst (FileMode.delete w id_param f)) = 200 ->
  exists before p after,
    f = FileMode.Stored (before ++ p :: after)%list /\
    parseInt id_param = Some (FileMode.id p) /\
    (forall q, In q before -> parseInt id_param <> Some (FileMode.id q)) /\
    FileMode.delete w id_param f
    = (ok (SuccessPostBody (Some p)), FileMode.Stored (before ++ after)%list).
Proof.
  unfold FileMode.delete.
  destruct (FileMode.readErr w); [cbn; discriminate|].
  destruct f as [raw|posts]; [cbn; discriminate|].
  destruct (findIndex _ posts) as [i|] eqn:Hi; [|cbn; discriminate].
  destruct (findIndex_split _ posts i Hi) as (before & p & after & -> & <- & Hp & Hb).
  destruct (FileMode.writeErr w); [cbn; discriminate|].
  intros _. exists before, p, after.
  repeat split.
  - apply num_eq_true, Hp.
  - apply before_other_ids, Hb.
  - rewrite splice1_middle, nth_error_middle. reflexivity.
Qed.

(** A delete for an id no stored post has. *)
Lemma file_delete_absent (w : FileMode.world) (id_param : string)
      (posts : list FileMode.Post) :
  FileMode.readErr w = false ->
  (forall q, In q posts -> parseInt id_param <> Some (FileMode.id q)) ->
  FileMode.delete w id_param (FileMode.Stored posts)
  = (fail 404 "Post not found", FileMode.Stored posts).
Proof.
  intros Hr Hno. unfold FileMode.delete. rewrite Hr.
  assert (E : findIndex (fun p => num_eq (FileMode.id p) (parseInt id_param)) posts = None).
  { apply findIndex_none, forallb_forall. intros q Hq.
    destruct (num_eq (FileMode.id q) (parseInt id_param)) eqn:E; [|reflexivity].
    apply num_eq_true in E. elim (Hno q Hq E). }
  rewrite E. reflexivity.
Qed.

(** A delete for an id some stored post has, the write going through. *)
Lemma file_delete_present (w : FileMode.world) (id_param : string)
      (before : list FileMode.Post) (p : FileMode.Post)
      (after : list FileMode.Post) :
  FileMode.readErr w = false -> FileMode.writeErr w = false ->
  parseInt id_param = Some (FileMode.id p) ->
  (forall q, In q before -> parseInt id_param <> Some (FileMode.id q)) ->
  FileMode.delete w id_param (FileMode.Stored (before ++ p :: after)%list)
  = (ok (SuccessPostBody (Some p)), FileMode.Stored (before ++ after)%list).
Proof.
  intros Hr Hw Hp Hb. unfold FileMode.delete. rewrite Hr, Hw.
  rewrite findIndex_middle, splice1_middle, nth_error_middle; [reflexivity | |].
  - apply num_eq_true, Hp.
  - intros q Hq. destruct (num_eq (FileMode.id q) (parseInt id_param)) eqn:E;
      [|reflexivity].
    apply num_eq_true in E. elim (Hb q Hq E).
Qed.

Lemma filter_other_ids (n : Z) (before : list FileMode.Post)
      (mid : list FileMode.Post) (after : list FileMode.Post) :
  (forall q, In q mid -> FileMode.id q = n) ->
  filter (fun q => negb (Z.eqb (FileMode.id q) n)) (before ++ mid ++ after)%list
  = filter (fun q => negb (Z.eqb (FileMode.id q) n)) (before ++ after)%list.
Proof.
  intro H. rewrite !filter_app. f_equal.
  replace (filter (fun q => negb (Z.eqb (FileMode.id q) n)) mid) with (@nil FileMode.Post);
    [reflexivity|].
  symmetry. induction mid as [|m l IH]; [reflexivity|].
  cbn [filter]. rewrite (H m) by (left; reflexivity). rewrite Z.eqb_refl.
  cbn [negb]. apply IH. intros q Hq. apply H. right. exact Hq.
Qed.

(** C10.  File mode.  A successful update rewrites one post, the first
    whose id is the requested one: its title, content, label, slug and
    [updated] stamp are set, and its id, [createdAt], [date] and image are
    what they were.  After a successful update or delete the posts before
    and after that one are the same posts in the same order; in
    particular the posts with a different id, read in order, are those of
    the file before. *)
Theorem update_and_delete_frame :
  (forall w id_param title content label f,
      status (fst (FileMode.update w id_param title content label f)) = 200 ->
      exists t c l before p p' after,
        title = Some t /\ content = Some c /\ label = Some l /\
        f = FileMode.Stored (before ++ p :: after)%list /\
        snd (FileMode.update w id_param title content label f)
        = FileMode.Stored (before ++ p' :: after)%list /\
        parseInt id_param = Some (FileMode.id p) /\
        (forall q, In q before -> FileMode.id q <> FileMode.id p) /\
        (FileMode.title p' = t /\ FileMode.content p' = c /\
         FileMode.label p' = l /\ FileMode.slug p' = generateSlug t /\
         FileMode.updated p' = Some (FileMode.isoString w)) /\
        (FileMode.id p' = FileMode.id p /\
         FileMode.createdAt p' = FileMode.createdAt p /\
         FileMode.date p' = FileMode.date p /\
         FileMode.image p' = FileMode.image p) /\
        filter (fun q => negb (Z.eqb (FileMode.id q) (FileMode.id p)))
               (before ++ p' :: after)%list
        = filter (fun q => negb (Z.eqb (FileMode.id q) (FileMode.id p)))
                 (before ++ p :: after)%list)
  /\
  (forall w id_param f,
      status (fst (FileMode.delete w id_param f)) = 200 ->
      exists before p after,
        f = FileMode.Stored (before ++ p :: after)%list /\
        snd (FileMode.delete w id_param f)
        = FileMode.Stored (before ++ after)%list /\
        parseInt id_param = Some (FileMode.id p) /\
        (forall q, In q before -> FileMode.id q <> FileMode.id p) /\
        filter (fun q => negb (Z.eqb (FileMode.id q) (FileMode.id p)))
               (before ++ after)%list
        = filter (fun q => negb (Z.eqb (FileMode.id q) (FileMode.id p)))
                 (before ++ p :: after)%list).
Proof.
  split.
  - intros w id_param title content label f H.
    destruct (file_update_ok w id_param title content label f H)
      as (t & c & l & before & p & after & Ht & Hc & Hl & Hf & Hp & Hb & E).
    exists t, c, l, before, p, (FileMode.merge w t c l p), after.
    rewrite E. repeat split; try assumption.
    + intros q Hq Eq. apply (Hb q Hq). rewrite Hp, Eq. reflexivity.
    + rewrite (filter_other_ids _ before [FileMode.merge w t c l p] after),
              (filter_other_ids _ before [p] after); [reflexivity| |];
        intros q [<-|[]]; reflexivity.
  - intros w id_param f H.
    destruct (file_delete_ok w id_param f H)
      as (before & p & after & Hf & Hp & Hb & E).
    exists before, p, after. rewrite E. repeat split; try assumption.
    + intros q Hq Eq. apply (Hb q Hq). rewrite Hp, Eq. reflexivity.
    + rewrite (filter_other_ids _ before [p] after); [reflexivity|].
      intros q [<-|[]]; reflexivity.
Qed.

Lemma update_and_delete_frame_witness :
  (exists before p p' after,
      FileMode.Stored
        [FileMode.mkPost 1 "One" "a" "x" "one" "Nov 1" "2023-11-01T00:00:00.000Z" None None;
         FileMode.mkPost 2 "Two" "b" "y" "two" "Nov 2" "2023-11-02T00:00:00.000Z"
                         (Some "http://localhost/uploads/2-b.png") None;
         FileMode.mkPost 3 "Three" "c" "z" "three" "Nov 3" "2023-11-03T00:00:00.000Z" None None]
      = FileMode.Stored (before ++ p :: after)%list /\
      snd (FileMode.update
             (FileMode.World false false 1700000000000 "Nov 14" "2023-11-14T22:13:20.000Z")
             "2" (Some "Second Post") (Some "text") (Some "news")
             (FileMode.Stored
                [FileMode.mkPost 1 "One" "a" "x" "one" "Nov 1" "2023-11-01T00:00:00.000Z" None None;
                 FileMode.mkPost 2 "Two" "b" "y" "two" "Nov 2" "2023-11-02T00:00:00.000Z"
                                 (Some "http://localhost/uploads/2-b.png") None;
                 FileMode.mkPost 3 "Three" "c" "z" "three" "Nov 3" "2023-11-03T00:00:00.000Z" None None]))
      = FileMode.Stored (before ++ p' :: after)%list /\
      FileMode.slug p' = generateSlug "Second Post" /\
      FileMode.image p' = FileMode.image p)
  /\
  (exists before p after,
      FileMode.Stored
        [FileMode.mkPost 1 "One" "a" "x" "one" "Nov 1" "2023-11-01T00:00:00.000Z" None None;
         FileMode.mkPost 2 "Two" "b" "y" "two" "Nov 2" "2023-11-02T00:00:00.000Z"
                         (Some "http://localhost/uploads/2-b.png") None;
         FileMode.mkPost 3 "Three" "c" "z" "three" "Nov 3" "2023-11-03T00:00:00.000Z" None None]
      = FileMode.Stored (before ++ p :: after)%list /\
      snd (FileMode.delete
             (FileMode.World false false 1700000000000 "Nov 14" "2023-11-14T22:13:20.000Z")
             "2"
             (FileMode.Stored
                [FileMode.mkPost 1 "One" "a" "x" "one" "Nov 1" "2023-11-01T00:00:00.000Z" None None;
                 FileMode.mkPost 2 "Two" "b" "y" "two" "Nov 2" "2023-11-02T00:00:00.000Z"
                                 (Some "http://localhost/uploads/2-b.png") None;
                 FileMode.mkPost 3 "Three" "c" "z" "three" "Nov 3" "2023-11-03T00:00:00.000Z" None None]))
      = FileMode.Stored (before ++ after)%list).
Proof.
  destruct update_and_delete_frame as [HU HD].
  split.
  - destruct (HU (FileMode.World false false 1700000000000 "Nov 14" "2023-11-14T22:13:20.000Z")
                 "2" (Some "Second Post") (Some "text") (Some "news")
                 (FileMode.Stored
                    [FileMode.mkPost 1 "One" "a" "x" "one" "Nov 1" "2023-11-01T00:00:00.000Z" None None;
                     FileMode.mkPost 2 "Two" "b" "y" "two" "Nov 2" "2023-11-02T00:00:00.000Z"
                                     (Some "http://localhost/uploads/2-b.png") None;
                     FileMode.mkPost 3 "Three" "c" "z" "three" "Nov 3" "2023-11-03T00:00:00.000Z" None None])
                 eq_refl)
      as (t & c & l & before & p & p' & after & Ht & _ & _ & Hf & Hs & _ & _ & (_ & _ & _ & Hslug & _) & (_ & _ & _ & Himg) & _).
    exists before, p, p', after. inversion Ht; subst t.
    repeat split; assumption.
  - destruct (HD (FileMode.World false false 1700000000000 "Nov 14" "2023-11-14T22:13:20.000Z")
                 "2"
                 (FileMode.Stored
                    [FileMode.mkPost 1 "One" "a" "x" "one" "Nov 1" "2023-11-01T00:00:00.000Z" None None;
                     FileMode.mkPost 2 "Two" "b" "y" "two" "Nov 2" "2023-11-02T00:00:00.000Z"
                                     (Some "http://localhost/uploads/2-b.png") None;
                     FileMode.mkPost 3 "Three" "c" "z" "three" "Nov 3" "2023-11-03T00:00:00.000Z" None None])
                 eq_refl)
      as (before & p & after & Hf & Hs & _).
    exists before, p, after. split; assumption.
Defined.

(** ** Backend mode: delete *)

(** Whatever the service, when it answers a delete with no error and no
    row, the handler answers 200 with [success: true] and no post. *)
Lemma backend_delete_no_row {T : Type} (svc : Backend.Supabase T)
      (id_param : string) (st st' : T) :
  Backend.delete_eq_id svc id_param st = (Backend.Data [], st') ->
  Backend.delete svc id_param st = (ok (SuccessPostBody None), st').
Proof. intro H. unfold Backend.delete. rewrite H. reflexivity. Qed.

Lemma filter_none {A : Type} (g : A -> bool) (l : list A) :
  (forall x, In x l -> g x = false) -> filter g l = [].
Proof.
  induction l as [|a l IH]; intro H; [reflexivity|].
  cbn [filter]. rewrite (H a) by (left; reflexivity).
  apply IH. intros x Hx. apply H. right. exact Hx.
Qed.

Lemma filter_all {A : Type} (g : A -> bool) (l : list A) :
  (forall x, In x l -> g x = true) -> filter g l = l.
Proof.
  induction l as [|a l IH]; intro H; [reflexivity|].
  cbn [filter]. rewrite (H a) by (left; reflexivity).
  rewrite IH; [reflexivity|]. intros x Hx. apply H. right. exact Hx.
Qed.

(** On the reference service: no row with the requested id, nothing is
    removed, and the answer is still 200. *)
Lemma backend_delete_absent (d : Backend.db) (id_param : string) (n : Z) :
  Backend.outage d = None ->
  Backend.pg_int id_param = Some n ->
  (forall r, In r (Backend.rows d) -> Backend.id r <> n) ->
  status (fst (Backend.delete Backend.reference id_param d)) = 200 /\
  json (fst (Backend.delete Backend.reference id_param d)) = SuccessPostBody None /\
  Backend.rows (snd (Backend.delete Backend.reference id_param d)) = Backend.rows d.
Proof.
  intros Ho Hn Hno.
  assert (Hsel : forall r, In r (Backend.rows d) ->
                           Backend.selects Backend.col_id id_param r = false).
  { intros r Hr. unfold Backend.selects, Backend.matches. rewrite Hn.
    cbn [option_map]. apply Z.eqb_neq, Hno, Hr. }
  unfold Backend.delete. cbn [Backend.delete_eq_id Backend.reference].
  unfold Backend.ref_delete, Backend.bad_filter. rewrite Ho, Hn.
  rewrite (filter_none _ _ Hsel). cbn [fst snd status json ok hd_error Backend.rows].
  repeat split. apply filter_all. intros r Hr. rewrite (Hsel r Hr). reflexivity.
Qed.

(** C2.  The two delete handlers part ways on an id that no stored post
    has.  Backend mode, on the reference service: the request is answered
    200 with [success: true] and no post, and the table keeps its rows;
    it is not answered 404.  File mode, the file read and parsed: it is
    answered 404 and the file is left as it was; and when a post has the
    id and the write goes through, the first such post is removed, the
    others stay in order, and the body carries the removed post. *)
Theorem delete_of_absent_id :
  (forall d id_param n,
      Backend.outage d = None ->
      Backend.pg_int id_param = Some n ->
      (forall r, In r (Backend.rows d) -> Backend.id r <> n) ->
      fst (Backend.delete Backend.reference id_param d)
      = Response 200 (SuccessPostBody None) /\
      Backend.rows (snd (Backend.delete Backend.reference id_param d))
      = Backend.rows d)
  /\
  (forall w id_param posts,
      FileMode.readErr w = false ->
      (forall q, In q posts -> parseInt id_param <> Some (FileMode.id q)) ->
      FileMode.delete w id_param (FileMode.Stored posts)
      = (fail 404 "Post not found", FileMode.Stored posts))
  /\
  (forall w id_param before p after,
      FileMode.readErr w = false -> FileMode.writeErr w = false ->
      parseInt id_param = Some (FileMode.id p) ->
      (forall q, In q before -> parseInt id_param <> Some (FileMode.id q)) ->
      FileMode.delete w id_param (FileMode.Stored (before ++ p :: after)%list)
      = (ok (SuccessPostBody (Some p)),
         FileMode.Stored (before ++ after)%list)).
Proof.
  split; [|split].
  - intros d id_param n Ho Hn Hno.
    destruct (backend_delete_absent d id_param n Ho Hn Hno) as (Hs & Hj & Hr).
    split; [|exact Hr].
    destruct (fst (Backend.delete Backend.reference id_param d)) as [st js].
    cbn [status json] in Hs, Hj. subst. reflexivity.
  - exact file_delete_absent.
  - exact file_delete_present.
Qed.

Lemma delete_of_absent_id_witness :
  Backend.delete Backend.reference "42"
                 (Backend.mkDb [] 1 [] "2023-11-14T22:13:20Z" None)
  = (Response 200 (SuccessPostBody None),
     Backend.mkDb [] 1 [] "2023-11-14T22:13:20Z" None)
  /\
  fst (Backend.delete Backend.reference "42" sofa_db)
  = Response 200 (SuccessPostBody None)
  /\
  FileMode.delete quiet_world "42" (FileMode.Stored [sofa_post])
  = (fail 404 "Post not found", FileMode.Stored [sofa_post]).
Proof.
  destruct delete_of_absent_id as (HB & HF & _).
  split; [reflexivity | split].
  - apply (HB sofa_db "42" 42%Z eq_refl eq_refl).
    intros r [<-|[]]. discriminate.
  - apply (HF quiet_world "42" [sofa_post] eq_refl).
    intros q [<-|[]]. discriminate.
Defined.

(** ** The auth gate *)

Lemma split_not_nil (sep : ascii) (s : string) : split sep s <> [].
Proof.
  destruct s as [|c s]; cbn [split]; [discriminate|].
  destruct (Ascii.eqb c sep); [discriminate|].
  destruct (split sep s); discriminate.
Qed.

Lemma prefix_bearer (h : string) :
  String.prefix "Bearer " h = true -> exists rest, h = "Bearer " ++ rest.
Proof.
  intro H.
  do 7 (destruct h as [|? h]; [discriminate|];
        cbn [String.prefix] in H;
        match type of H with
        | (if ?d then _ else _) = _ => destruct d as [<-|]; [|discriminate]
        end).
  exists h. reflexivity.
Qed.

(** A header that starts with ["Bearer "] always presents a token, the
    second of its space-separated fields. *)
Lemma bearer_token (h : string) :
  String.prefix "Bearer " h = true ->
  exists token, nth_error (split " " h) 1 = Some token.
Proof.
  intro H. destruct (prefix_bearer h H) as [rest ->].
  assert (E : split " " ("Bearer " ++ rest) = "Bearer" :: split " " rest)
    by reflexivity.
  rewrite E. cbn [nth_error].
  destruct (split " " rest) as [|token ws] eqn:Hs.
  - elim (split_not_nil _ _ Hs).
  - exists token. reflexivity.
Qed.

Ltac gate_iff :=
  let E := fresh "E" in
  split; intro E;
  [ try discriminate E;
    try (left; reflexivity);
    try (right; eexists; split; [reflexivity | eassumption]);
    try (do 2 eexists; repeat split; eassumption)
  | try reflexivity;
    repeat match goal with
           | H : _ \/ _ |- _ => destruct H
           | H : exists _, _ |- _ => destruct H
           | H : _ /\ _ |- _ => destruct H
           | H : Some _ = Some _ |- _ => inversion H; clear H; subst
           | H : Some _ = None |- _ => discriminate H
           end;
    try congruence ].

(** C7.  The gate answers 401 exactly when there is no [Authorization]
    header or it does not start with ["Bearer "]; it answers 403 exactly
    when the header does and [jwt.verify] rejects the token presented (bad
    signature or expired); it calls [next] exactly when the header does
    and the token verifies.  When it calls [next] the response is the
    handler's; when it answers itself the response and the store are the
    same whatever the handler is, the store being the one before the
    request: the handler has not run. *)
Theorem auth_gate_statuses :
  forall (P : Type) (l : libs) (cfg : config) (clock : Z) (auth : option string),
    (rejected_status (authMiddleware (P := P) l cfg clock auth) = Some 401 <->
     (auth = None \/
      exists h, auth = Some h /\ String.prefix "Bearer " h = false))
    /\
    (rejected_status (authMiddleware (P := P) l cfg clock auth) = Some 403 <->
     exists h token,
       auth = Some h /\ String.prefix "Bearer " h = true /\
       nth_error (split " " h) 1 = Some token /\
       jwt_verify l token (JWT_SECRET cfg) clock = false)
    /\
    (authMiddleware (P := P) l cfg clock auth = Proceed <->
     exists h token,
       auth = Some h /\ String.prefix "Bearer " h = true /\
       nth_error (split " " h) 1 = Some token /\
       jwt_verify l token (JWT_SECRET cfg) clock = true)
    /\
    (forall (St : Type) (handler handler' : St -> response P * St) (st : St),
        (authMiddleware (P := P) l cfg clock auth = Proceed ->
         protected l cfg clock auth handler st = handler st)
        /\
        (authMiddleware (P := P) l cfg clock auth <> Proceed ->
         protected l cfg clock auth handler st
         = protected l cfg clock auth handler' st /\
         snd (protected l cfg clock auth handler st) = st)).
Proof.
  intros P l cfg clock auth.
  assert (Hlast : forall (St : Type) (handler handler' : St -> response P * St) (st : St),
             (authMiddleware (P := P) l cfg clock auth = Proceed ->
              protected l cfg clock auth handler st = handler st)
             /\
             (authMiddleware (P := P) l cfg clock auth <> Proceed ->
              protected l cfg clock auth handler st
              = protected l cfg clock auth handler' st /\
              snd (protected l cfg clock auth handler st) = st)).
  { intros St handler handler' st. unfold protected.
    destruct (authMiddleware l cfg clock auth) as [r|].
    - split; [discriminate | intros _; split; reflexivity].
    - split; [reflexivity | intro H; elim H; reflexivity]. }
  refine (conj _ (conj _ (conj _ Hlast))); clear Hlast;
    unfold authMiddleware;
    (destruct auth as [h|];
     [ destruct (String.prefix "Bearer " h) eqn:Hp;
       [ destruct (bearer_token h Hp) as [token Ht]; rewrite Ht;
         destruct (jwt_verify l token (JWT_SECRET cfg) clock) eqn:Hv | ]
     | ]);
    cbn [rejected_status status fail]; gate_iff.
Qed.

Lemma auth_gate_statuses_witness :
  rejected_status
    (authMiddleware (P := FileMode.Post) toy_libs toy_config 1700000000000 None)
  = Some 401 /\
  rejected_status
    (authMiddleware (P := FileMode.Post) toy_libs toy_config 1700000000000
                    (Some "Bearer k.admin.1699999999"))
  = Some 403 /\
  authMiddleware (P := FileMode.Post) toy_libs toy_config 1700000000000
                 (Some "Bearer k.admin.1700003600")
  = Proceed.
Proof.
  split; [|split].
  - apply (proj1 (auth_gate_statuses FileMode.Post toy_libs toy_config
                                     1700000000000 None)).
    left. reflexivity.
  - apply (proj1 (proj2 (auth_gate_statuses FileMode.Post toy_libs toy_config
                                            1700000000000
                                            (Some "Bearer k.admin.1699999999")))).
    exists "Bearer k.admin.1699999999", "k.admin.1699999999".
    repeat split.
  - apply (proj1 (proj2 (proj2 (auth_gate_statuses FileMode.Post toy_libs toy_config
                                                   1700000000000
                                                   (Some "Bearer k.admin.1700003600"))))).
    exists "Bearer k.admin.1700003600", "k.admin.1700003600".
    repeat split.
Defined.

(** ** Login *)

(** C8.  A login request carrying a user name and a password (both
    non-empty) is answered 401 when the user name is not the configured
    one, and 401 when the hash comparison of the password against the
    configured hash fails; it is answered 200 only when the user name is
    the configured one and the comparison succeeds, and then the body
    carries the token that [jwt.sign] issues for the payload
    [{ username }] of the request, under the configured secret, with
    [expiresIn] one hour. *)
Theorem login_checks_credentials :
  forall (P : Type) (l : libs) (cfg : config) (clock : Z) (u pw : string),
    truthy (Some u) = true -> truthy (Some pw) = true ->
    (ADMIN_USERNAME cfg <> Some u ->
     status (login (P := P) l cfg clock (Some u) (Some pw)) = 401)
    /\
    (bcrypt_compare l pw (ADMIN_PASSWORD cfg) = Some false ->
     status (login (P := P) l cfg clock (Some u) (Some pw)) = 401)
    /\
    (status (login (P := P) l cfg clock (Some u) (Some pw)) = 200 ->
     ADMIN_USERNAME cfg = Some u /\
     bcrypt_compare l pw (ADMIN_PASSWORD cfg) = Some true)
    /\
    (ADMIN_USERNAME cfg = Some u ->
     bcrypt_compare l pw (ADMIN_PASSWORD cfg) = Some true ->
     forall token,
       jwt_sign l u (JWT_SECRET cfg) one_hour clock = Some token ->
       login (P := P) l cfg clock (Some u) (Some pw) = ok (TokenBody token))
    /\
    one_hour = (60 * 60)%Z.
Proof.
  intros P l cfg clock u pw Tu Tp.
  assert (E : login (P := P) l cfg clock (Some u) (Some pw) =
              match ADMIN_USERNAME cfg with
              | Some a =>
                  if String.eqb u a then
                    match bcrypt_compare l pw (ADMIN_PASSWORD cfg) with
                    | None => fail 500 "Server error"
                    | Some false => fail 401 "Invalid credentials"
                    | Some true =>
                        match jwt_sign l u (JWT_SECRET cfg) one_hour clock with
                        | Some token => ok (TokenBody token)
                        | None => fail 500 "Server error"
                        end
                    end
                  else fail 401 "Invalid credentials"
              | None => fail 401 "Invalid credentials"
              end).
  { unfold login. rewrite Tu, Tp. cbn [negb orb].
    destruct (ADMIN_USERNAME cfg) as [a|]; [|reflexivity].
    destruct (String.eqb u a); reflexivity. }
  rewrite E. clear E.
  split; [|split; [|split; [|split; [|reflexivity]]]].
  - intro Hu. destruct (ADMIN_USERNAME cfg) as [a|]; [|reflexivity].
    destruct (String.eqb u a) eqn:E; [|reflexivity].
    apply String.eqb_eq in E. subst a. elim Hu. reflexivity.
  - intro Hc. rewrite Hc.
    destruct (ADMIN_USERNAME cfg) as [a|]; [|reflexivity].
    destruct (String.eqb u a); reflexivity.
  - destruct (ADMIN_USERNAME cfg) as [a|]; [|discriminate].
    destruct (String.eqb u a) eqn:E; [|discriminate].
    apply String.eqb_eq in E. subst a.
    destruct (bcrypt_compare l pw (ADMIN_PASSWORD cfg)) as [[|]|];
      try discriminate.
    intros _. split; reflexivity.
  - intros Hu Hc token Ht. rewrite Hu, String.eqb_refl, Hc, Ht. reflexivity.
Qed.

Lemma login_checks_credentials_witness :
  status (login (P := FileMode.Post) toy_libs toy_config 1700000000000
                (Some "root") (Some "s3cret")) = 401 /\
  status (login (P := FileMode.Post) toy_libs toy_config 1700000000000
                (Some "admin") (Some "guess")) = 401 /\
  login (P := FileMode.Post) toy_libs toy_config 1700000000000
        (Some "admin") (Some "s3cret")
  = ok (TokenBody "k.admin.1700003600").
Proof.
  split; [|split].
  - apply (proj1 (login_checks_credentials FileMode.Post toy_libs toy_config
                    1700000000000 "root" "s3cret" eq_refl eq_refl)).
    discriminate.
  - apply (proj1 (proj2 (login_checks_credentials FileMode.Post toy_libs toy_config
                           1700000000000 "admin" "guess" eq_refl eq_refl))).
    reflexivity.
  - apply (proj1 (proj2 (proj2 (proj2
             (login_checks_credentials FileMode.Post toy_libs toy_config
                1700000000000 "admin" "s3cret" eq_refl eq_refl)))));
      reflexivity.
Defined.

(** ** Lookup of a single post *)

Lemma file_get_post_chain (w : FileMode.world) (x : string)
      (posts : list FileMode.Post) :
  FileMode.readErr w = false ->
  FileMode.get_post w x (FileMode.Stored posts) =
  match id_match x posts with
  | Some p => ok (PostBody (Some p))
  | None =>
      match slug_match x posts with
      | Some p => ok (PostBody (Some p))
      | None =>
          match derived_match x posts with
          | Some p => ok (PostBody (Some p))
          | None => fail 404 "Post not found"
          end
      end
  end.
Proof.
  intro Hr. unfold FileMode.get_post, id_match, slug_match, derived_match.
  rewrite Hr. destruct (isNaN x); cbn [negb].
  - destruct (find_first _ posts); [reflexivity|].
    destruct (find_first _ posts); reflexivity.
  - destruct (find_first _ posts); [reflexivity|].
    destruct (find_first _ posts); [reflexivity|].
    destruct (find_first _ posts); reflexivity.
Qed.

Lemma id_match_none (x : string) (posts : list FileMode.Post) :
  id_match x posts = None <->
  forall p, In p posts -> isNaN x = true \/ parseInt x <> Some (FileMode.id p).
Proof.
  unfold id_match. destruct (isNaN x).
  - split; [intros _ p _; left; reflexivity | reflexivity].
  - rewrite find_first_none. split.
    + intros H p Hp. right. intro E. apply num_eq_true in E.
      rewrite (H p Hp) in E. discriminate.
    + intros H p Hp. destruct (H p Hp) as [E|E]; [discriminate|].
      destruct (num_eq (FileMode.id p) (parseInt x)) eqn:En; [|reflexivity].
      apply num_eq_true in En. elim (E En).
Qed.

Lemma eqb_match_none {A : Type} (key : A -> string) (x : string) (l : list A) :
  find_first (fun p => String.eqb (key p) x) l = None <->
  forall p, In p l -> key p <> x.
Proof.
  rewrite find_first_none. split; intros H p Hp.
  - apply String.eqb_neq, H, Hp.
  - apply String.eqb_neq, H, Hp.
Qed.

(** C4, as the code has it.  File mode, the file read and parsed: the
    identifier is matched against the ids when it reads as a number, then
    against the stored slugs, then against the slugs derived from the
    titles, and the first match found is returned.  So the first post
    whose id the identifier reads as is returned; the first post with
    that slug is returned when no post has that id; the first post with
    that derived slug is returned when no post has that id or that slug;
    and the answer is 404 exactly when the three matches fail, that is
    when no post has that id, that slug or that derived slug.  Backend
    mode, whatever the service: one query is made, on the id column when
    the identifier reads as a number and on the slug column otherwise;
    the row it selects is returned, and anything else is answered 404. *)
Theorem lookup_by_id_then_slug :
  (forall w x posts,
      FileMode.readErr w = false ->
      (forall before p after,
          posts = (before ++ p :: after)%list ->
          isNaN x = false -> parseInt x = Some (FileMode.id p) ->
          (forall q, In q before -> parseInt x <> Some (FileMode.id q)) ->
          FileMode.get_post w x (FileMode.Stored posts)
          = ok (PostBody (Some p)))
      /\
      (forall before p after,
          posts = (before ++ p :: after)%list ->
          (forall q, In q posts ->
                     isNaN x = true \/ parseInt x <> Some (FileMode.id q)) ->
          FileMode.slug p = x ->
          (forall q, In q before -> FileMode.slug q <> x) ->
          FileMode.get_post w x (FileMode.Stored posts)
          = ok (PostBody (Some p)))
      /\
      (forall before p after,
          posts = (before ++ p :: after)%list ->
          (forall q, In q posts ->
                     isNaN x = true \/ parseInt x <> Some (FileMode.id q)) ->
          (forall q, In q posts -> FileMode.slug q <> x) ->
          generateSlug (FileMode.title p) = x ->
          (forall q, In q before -> generateSlug (FileMode.title q) <> x) ->
          FileMode.get_post w x (FileMode.Stored posts)
          = ok (PostBody (Some p)))
      /\
      (status (FileMode.get_post w x (FileMode.Stored posts)) = 404 <->
       id_match x posts = None /\ slug_match x posts = None /\
       derived_match x posts = None)
      /\
      (status (FileMode.get_post w x (FileMode.Stored posts)) = 404 <->
       forall p, In p posts ->
                 (isNaN x = true \/ parseInt x <> Some (FileMode.id p)) /\
                 FileMode.slug p <> x /\
                 generateSlug (FileMode.title p) <> x))
  /\
  (forall (T : Type) (svc : Backend.Supabase T) x st,
      (forall row,
          Backend.select_single svc
            (if isNaN x then Backend.col_slug else Backend.col_id) x st
          = Backend.Data (Some row) ->
          Backend.get_post svc x st = ok (PostBody (Some row)))
      /\
      ((forall row,
           Backend.select_single svc
             (if isNaN x then Backend.col_slug else Backend.col_id) x st
           <> Backend.Data (Some row)) ->
       Backend.get_post svc x st = fail 404 "Post not found")).
Proof.
  split.
  - intros w x posts Hr.
    assert (H404 : status (FileMode.get_post w x (FileMode.Stored posts)) = 404 <->
                   id_match x posts = None /\ slug_match x posts = None /\
                   derived_match x posts = None).
    { rewrite (file_get_post_chain w x posts Hr).
      destruct (id_match x posts); [split; [discriminate | intros (E & _); discriminate]|].
      destruct (slug_match x posts); [split; [discriminate | intros (_ & E & _); discriminate]|].
      destruct (derived_match x posts); [split; [discriminate | intros (_ & _ & E); discriminate]|].
      split; [intros _; repeat split | reflexivity]. }
    split; [|split; [|split; [|split]]].
    + intros before p after -> Hn Hp Hb.
      rewrite (file_get_post_chain w x _ Hr). unfold id_match. rewrite Hn.
      rewrite find_first_head; [reflexivity | apply num_eq_true, Hp |].
      intros q Hq. destruct (num_eq (FileMode.id q) (parseInt x)) eqn:E;
        [|reflexivity].
      apply num_eq_true in E. elim (Hb q Hq E).
    + intros before p after -> Hid Hp Hb.
      rewrite (file_get_post_chain w x _ Hr).
      rewrite (proj2 (id_match_none x _) Hid). unfold slug_match.
      rewrite find_first_head; [reflexivity | apply String.eqb_eq, Hp |].
      intros q Hq. apply String.eqb_neq, Hb, Hq.
    + intros before p after -> Hid Hslug Hp Hb.
      rewrite (file_get_post_chain w x _ Hr).
      rewrite (proj2 (id_match_none x _) Hid). unfold slug_match.
      rewrite (proj2 (eqb_match_none FileMode.slug x _) Hslug).
      unfold derived_match.
      rewrite find_first_head; [reflexivity | apply String.eqb_eq, Hp |].
      intros q Hq. apply String.eqb_neq, Hb, Hq.
    + exact H404.
    + rewrite H404, id_match_none. unfold slug_match, derived_match.
      rewrite (eqb_match_none FileMode.slug),
              (eqb_match_none (fun p => generateSlug (FileMode.title p))).
      split.
      * intros (H1 & H2 & H3) p Hp. auto.
      * intro H. repeat split; intros p Hp; apply (H p Hp).
  - intros T svc x st. unfold Backend.get_post.
    destruct (isNaN x); cbn [negb]; split.
    + intros row ->. reflexivity.
    + intro H. destruct (Backend.select_single svc Backend.col_slug x st) as [m|[row|]];
        try reflexivity. elim (H row). reflexivity.
    + intros row ->. reflexivity.
    + intro H. destruct (Backend.select_single svc Backend.col_id x st) as [m|[row|]];
        try reflexivity. elim (H row). reflexivity.
Qed.

Lemma lookup_by_id_then_slug_witness :
  FileMode.get_post quiet_world "1700000400000"
                    (FileMode.Stored [sofa_post; number_post])
  = ok (PostBody (Some number_post)) /\
  FileMode.get_post quiet_world "sofa"
                    (FileMode.Stored [sofa_post; number_post])
  = ok (PostBody (Some sofa_post)) /\
  status (FileMode.get_post quiet_world "mesa"
                            (FileMode.Stored [sofa_post; number_post])) = 404 /\
  Backend.get_post Backend.reference "sofa-1700000000000"
                   (Backend.mkDb
                      [Backend.mkRow 1 "Sofa" "text" "sala" "sofa-1700000000000"
                                     None "2023-11-14T22:13:20Z" None]
                      2 [] "2023-11-14T22:21:40Z" None)
  = ok (PostBody
          (Some (Backend.mkRow 1 "Sofa" "text" "sala" "sofa-1700000000000"
                               None "2023-11-14T22:13:20Z" None))).
Proof.
  destruct lookup_by_id_then_slug as [HF HB].
  destruct (HF quiet_world "1700000400000" [sofa_post; number_post] eq_refl)
    as (H1 & _).
  destruct (HF quiet_world "sofa" [sofa_post; number_post] eq_refl)
    as (_ & H2 & _).
  destruct (HF quiet_world "mesa" [sofa_post; number_post] eq_refl)
    as (_ & _ & _ & H4 & _).
  split; [|split; [|split]].
  - apply (H1 [sofa_post] number_post []); try reflexivity.
    intros q [<-|[]]. discriminate.
  - apply (H2 [] sofa_post [number_post]); try reflexivity.
    + intros q _. left. reflexivity.
    + intros q [].
  - apply H4. repeat split.
  - apply (proj1 (HB Backend.db Backend.reference "sofa-1700000000000"
                     (Backend.mkDb
                        [Backend.mkRow 1 "Sofa" "text" "sala" "sofa-1700000000000"
                                       None "2023-11-14T22:13:20Z" None]
                        2 [] "2023-11-14T22:21:40Z" None))).
    reflexivity.
Defined.

(** C4 as stated fails, in each variant.  File mode: [number_post] is
    the post that the identifier ["1700000400000"], its id, resolves to,
    and it is the only post whose slug, stored or derived from its title,
    is ["1700000000000"]; yet the lookup of that slug answers
    [sofa_post], whose id the slug reads as, so the identifiers of one
    post do not resolve to the same post.  Backend mode: the table holds
    a row of slug ["2024"] and no row of id 2024; the lookup of ["2024"]
    is answered 404, the slug never being tried after the id. *)
Lemma lookup_identifiers_diverge :
  (FileMode.get_post quiet_world "1700000400000"
                     (FileMode.Stored [sofa_post; number_post])
   = ok (PostBody (Some number_post)) /\
   FileMode.slug number_post = "1700000000000" /\
   generateSlug (FileMode.title number_post) = "1700000000000" /\
   FileMode.slug sofa_post <> "1700000000000" /\
   generateSlug (FileMode.title sofa_post) <> "1700000000000" /\
   FileMode.get_post quiet_world "1700000000000"
                     (FileMode.Stored [sofa_post; number_post])
   = ok (PostBody (Some sofa_post)) /\
   sofa_post <> number_post)
  /\
  (Backend.slug year_row = "2024" /\
   Backend.rows year_db = [year_row] /\
   Backend.get_post Backend.reference "2024" year_db
   = fail 404 "Post not found").
Proof. repeat split; try reflexivity; discriminate. Qed.

(** The two stores above arise from requests: the second post from a
    create request whose title is a number, the row from an update
    request that sets a numeric title. *)
Example number_post_created :
  FileMode.create
    (FileMode.World false false 1700000400000 "Nov 14" "2023-11-14T22:20:00.000Z")
    (FileMode.CreateRequest (Some "1700000000000") (Some "text") (Some "sala")
                            None "http" "localhost:3000")
    (FileMode.Stored [sofa_post])
  = (ok (CreatedBody 1700000400000 "1700000000000"),
     FileMode.Stored [sofa_post; number_post]).
Proof. reflexivity. Qed.

Example year_row_updated :
  Backend.update Backend.reference 1700035200000 "2023-11-15T08:00:00Z" "1"
                 (Some "2024") None None None None
                 (Backend.mkDb
                    [Backend.mkRow 1 "Sofa" "text" "sala" "sofa-1700000000000"
                                   None "2023-11-14T22:13:20Z" None]
                    2 [] "2023-11-15T08:00:00Z" None)
  = (ok (SuccessPostBody (Some year_row)), year_db).
Proof. reflexivity. Qed.

(** In backend mode even a slug given at creation can read as a number:
    a title that strips to nothing leaves the hyphen and the timestamp. *)
Example stripped_title_slug_reads_as_number :
  Backend.new_slug (Backend.new_row 1700000000000 "?!" "text" "sala" None)
  = "-1700000000000" /\
  isNaN "-1700000000000" = false.
Proof. split; reflexivity. Qed.

(** ** Update *)

Lemma file_update_missing (w : FileMode.world) (id_param : string)
      (title content label : option string) (f : FileMode.file) :
  truthy title && truthy content && truthy label = false ->
  FileMode.update w id_param title content label f
  = (fail 400 "Title, content, and label required", f).
Proof.
  unfold FileMode.update.
  destruct title as [[|? ?]|]; destruct content as [[|? ?]|];
    destruct label as [[|? ?]|];
    cbn; intro H; try reflexivity; discriminate.
Qed.

Lemma file_update_present (w : FileMode.world) (id_param : string)
      (t c l : string) (before : list FileMode.Post) (p : FileMode.Post)
      (after : list FileMode.Post) :
  truthy (Some t) = true -> truthy (Some c) = true -> truthy (Some l) = true ->
  FileMode.readErr w = false -> FileMode.writeErr w = false ->
  parseInt id_param = Some (FileMode.id p) ->
  (forall q, In q before -> parseInt id_param <> Some (FileMode.id q)) ->
  FileMode.update w id_param (Some t) (Some c) (Some l)
                  (FileMode.Stored (before ++ p :: after)%list)
  = (ok SuccessBody,
     FileMode.Stored (before ++ FileMode.merge w t c l p :: after)%list).
Proof.
  intros Tt Tc Tl Hr Hw Hp Hb. unfold FileMode.update.
  destruct t as [|? ?]; [discriminate|].
  destruct c as [|? ?]; [discriminate|].
  destruct l as [|? ?]; [discriminate|].
  rewrite Hr, Hw, findIndex_middle, update_at_middle; [reflexivity | |].
  - apply num_eq_true, Hp.
  - intros q Hq. destruct (num_eq (FileMode.id q) (parseInt id_param)) eqn:E;
      [|reflexivity].
    apply num_eq_true in E. elim (Hb q Hq E).
Qed.

Lemma selects_id (id_param : string) (n : Z) (r : Backend.Row) :
  Backend.pg_int id_param = Some n ->
  Backend.selects Backend.col_id id_param r = Z.eqb (Backend.id r) n.
Proof.
  intro H. unfold Backend.selects, Backend.matches. rewrite H. reflexivity.
Qed.

(** What the reference service makes of the update handler's call. *)
Lemma backend_update_reference (now : Z) (iso id_param : string) (n : Z)
      (title content label image file : option string) (d : Backend.db) :
  Backend.outage d = None ->
  Backend.pg_int id_param = Some n ->
  (forall name, file = Some name ->
                existsb (String.eqb (string_of_Z now ++ "-" ++ name))
                        (Backend.objects d) = false) ->
  exists d',
    Backend.update Backend.reference now iso id_param
                   title content label image file d
    = (ok (SuccessPostBody
             (hd_error
                (map (Backend.apply_patch
                        (Backend.updateData iso title content label
                           (image_in_effect now image file)))
                     (filter (fun r => Z.eqb (Backend.id r) n) (Backend.rows d))))),
       d') /\
    Backend.rows d'
    = map (fun r => if Z.eqb (Backend.id r) n
                    then Backend.apply_patch
                           (Backend.updateData iso title content label
                              (image_in_effect now image file)) r
                    else r)
          (Backend.rows d).
Proof.
  intros Ho Hn Hfree.
  assert (Hf : filter (Backend.selects Backend.col_id id_param) (Backend.rows d)
               = filter (fun r => Z.eqb (Backend.id r) n) (Backend.rows d))
    by (apply filter_ext; intro r; apply selects_id, Hn).
  assert (Hm : forall p,
             map (fun r => if Backend.selects Backend.col_id id_param r
                           then Backend.apply_patch p r else r) (Backend.rows d)
             = map (fun r => if Z.eqb (Backend.id r) n
                             then Backend.apply_patch p r else r) (Backend.rows d))
    by (intro p; apply map_ext; intro r; rewrite (selects_id _ _ _ Hn); reflexivity).
  unfold Backend.update.
  cbn [Backend.storage_upload Backend.update_eq_id Backend.getPublicUrl
       Backend.reference].
  destruct file as [name|]; cbn [image_in_effect].
  - unfold Backend.ref_upload. rewrite Ho, (Hfree name eq_refl).
    unfold Backend.ref_update, Backend.bad_filter.
    cbn [Backend.outage Backend.rows]. rewrite Hn, Hf, Hm.
    eexists. split; reflexivity.
  - unfold Backend.ref_update, Backend.bad_filter. rewrite Ho, Hn, Hf, Hm.
    eexists. split; reflexivity.
Qed.

(** The fields of a row after the patch of an update request. *)
Lemma backend_patch_fields (iso : string)
      (title content label image : option string) (r : Backend.Row) :
  Backend.title (Backend.apply_patch (Backend.updateData iso title content label image) r)
  = supplied title (Backend.title r) /\
  Backend.content (Backend.apply_patch (Backend.updateData iso title content label image) r)
  = supplied content (Backend.content r) /\
  Backend.label (Backend.apply_patch (Backend.updateData iso title content label image) r)
  = supplied label (Backend.label r) /\
  Backend.image (Backend.apply_patch (Backend.updateData iso title content label image) r)
  = (if truthy image then image else Backend.image r) /\
  (truthy title = false ->
   Backend.slug (Backend.apply_patch (Backend.updateData iso title content label image) r)
   = Backend.slug r) /\
  (forall t, title = Some t -> generateSlug t <> "" ->
   Backend.slug (Backend.apply_patch (Backend.updateData iso title content label image) r)
   = generateSlug t) /\
  Backend.updated_at (Backend.apply_patch (Backend.updateData iso title content label image) r)
  = Some iso /\
  Backend.id (Backend.apply_patch (Backend.updateData iso title content label image) r)
  = Backend.id r /\
  Backend.created_at (Backend.apply_patch (Backend.updateData iso title content label image) r)
  = Backend.created_at r.
Proof.
  unfold Backend.apply_patch, Backend.updateData, supplied, or_null.
  cbn [Backend.title Backend.content Backend.label Backend.image Backend.slug
       Backend.updated_at Backend.id Backend.created_at
       Backend.set_title Backend.set_content Backend.set_label
       Backend.set_slug Backend.set_image Backend.set_updated_at].
  repeat split.
  - destruct title as [[|? ?]|]; reflexivity.
  - destruct content as [[|? ?]|]; reflexivity.
  - destruct label as [[|? ?]|]; reflexivity.
  - destruct image as [[|? ?]|]; reflexivity.
  - destruct title as [[|? ?]|]; try discriminate; reflexivity.
  - intros t -> Hs. destruct t as [|a t].
    + elim Hs. reflexivity.
    + destruct (generateSlug (String a t)) as [|b s] eqn:E; [elim Hs; reflexivity|].
      cbn [truthy]. reflexivity.
Qed.

(** C3, as the code has it.  File mode: an update request must carry a
    title, a content and a label, all non-empty; otherwise it is answered
    400 and nothing changes.  When it does, the file is read and written
    without error and a post has the requested id, the first such post
    takes the three fields, the slug of the new title and an [updated]
    stamp, and keeps its image, id and creation stamps; there is no image
    upload on this route.  Backend mode, on the reference service, for a
    valid id: any of title, content, label and image may be supplied;
    each supplied, non-empty field replaces the stored one and the others
    stay; the slug becomes the slug of the supplied title when that slug
    is not empty and stays when no title is supplied; [updated_at] is
    stamped; an uploaded file, once stored, puts its public URL in place
    of the image reference, ahead of an [image] field in the body. *)
Theorem update_merges_supplied_fields :
  (forall w id_param title content label f,
      truthy title && truthy content && truthy label = false ->
      FileMode.update w id_param title content label f
      = (fail 400 "Title, content, and label required", f))
  /\
  (forall w id_param t c l before p after,
      truthy (Some t) = true -> truthy (Some c) = true -> truthy (Some l) = true ->
      FileMode.readErr w = false -> FileMode.writeErr w = false ->
      parseInt id_param = Some (FileMode.id p) ->
      (forall q, In q before -> parseInt id_param <> Some (FileMode.id q)) ->
      exists p',
        FileMode.update w id_param (Some t) (Some c) (Some l)
                        (FileMode.Stored (before ++ p :: after)%list)
        = (ok SuccessBody, FileMode.Stored (before ++ p' :: after)%list) /\
        FileMode.title p' = t /\ FileMode.content p' = c /\
        FileMode.label p' = l /\ FileMode.slug p' = generateSlug t /\
        FileMode.updated p' = Some (FileMode.isoString w) /\
        FileMode.image p' = FileMode.image p /\
        FileMode.id p' = FileMode.id p /\
        FileMode.date p' = FileMode.date p /\
        FileMode.createdAt p' = FileMode.createdAt p)
  /\
  (forall now iso id_param n title content label image file d,
      Backend.outage d = None ->
      Backend.pg_int id_param = Some n ->
      (forall name, file = Some name ->
                    existsb (String.eqb (string_of_Z now ++ "-" ++ name))
                            (Backend.objects d) = false) ->
      exists patch d',
        Backend.update Backend.reference now iso id_param
                       title content label image file d
        = (ok (SuccessPostBody
                 (hd_error
                    (map patch
                         (filter (fun r => Z.eqb (Backend.id r) n)
                                 (Backend.rows d))))),
           d') /\
        Backend.rows d'
        = map (fun r => if Z.eqb (Backend.id r) n then patch r else r)
              (Backend.rows d) /\
        forall r,
          Backend.title (patch r) = supplied title (Backend.title r) /\
          Backend.content (patch r) = supplied content (Backend.content r) /\
          Backend.label (patch r) = supplied label (Backend.label r) /\
          Backend.image (patch r)
          = (if truthy (image_in_effect now image file)
             then image_in_effect now image file
             else Backend.image r) /\
          (truthy title = false -> Backend.slug (patch r) = Backend.slug r) /\
          (forall t, title = Some t -> generateSlug t <> "" ->
                     Backend.slug (patch r) = generateSlug t) /\
          Backend.updated_at (patch r) = Some iso /\
          Backend.id (patch r) = Backend.id r /\
          Backend.created_at (patch r) = Backend.created_at r).
Proof.
  split; [exact file_update_missing | split].
  - intros w id_param t c l before p after Tt Tc Tl Hr Hw Hp Hb.
    exists (FileMode.merge w t c l p).
    rewrite (file_update_present w id_param t c l before p after
               Tt Tc Tl Hr Hw Hp Hb).
    repeat split.
  - intros now iso id_param n title content label image file d Ho Hn Hfree.
    destruct (backend_update_reference now iso id_param n title content label
                image file d Ho Hn Hfree) as (d' & E & Hrows).
    exists (Backend.apply_patch
              (Backend.updateData iso title content label
                 (image_in_effect now image file))), d'.
    split; [exact E | split; [exact Hrows|]].
    intro r. apply backend_patch_fields.
Qed.

Lemma update_merges_supplied_fields_witness :
  (exists p',
      FileMode.update quiet_world "1700000000000"
                      (Some "Sofa Novo") (Some "outro texto") (Some "sala")
                      (FileMode.Stored [sofa_post; number_post])
      = (ok SuccessBody, FileMode.Stored [p'; number_post]) /\
      FileMode.slug p' = generateSlug "Sofa Novo" /\
      FileMode.image p' = FileMode.image sofa_post)
  /\
  (exists patch d',
      Backend.update Backend.reference 1700000500000 "2023-11-14T22:21:40.000Z"
                     "1" (Some "Sofa Novo") None None None None sofa_db
      = (ok (SuccessPostBody (Some (patch sofa_row))), d') /\
      Backend.rows d' = [patch sofa_row] /\
      Backend.title (patch sofa_row) = "Sofa Novo" /\
      Backend.content (patch sofa_row) = "text" /\
      Backend.slug (patch sofa_row) = "sofa-novo").
Proof.
  destruct update_merges_supplied_fields as (_ & HF & HB).
  split.
  - destruct (HF quiet_world "1700000000000" "Sofa Novo" "outro texto" "sala"
                 [] sofa_post [number_post]
                 eq_refl eq_refl eq_refl eq_refl eq_refl eq_refl
                 (fun q (H : In q []) => match H with end))
      as (p' & E & _ & _ & _ & Hs & _ & Hi & _).
    exists p'. split; [exact E | split; assumption].
  - destruct (HB 1700000500000%Z "2023-11-14T22:21:40.000Z" "1" 1%Z
                 (Some "Sofa Novo") None None None None sofa_db
                 eq_refl eq_refl
                 (fun name (H : None = Some name) =>
                    match H in _ = o
                          return match o with
                                 | Some _ => _
                                 | None => True
                                 end
                    with eq_refl => I end))
      as (patch & d' & E & Hrows & Hfields).
    destruct (Hfields sofa_row) as (Ht & Hc & _ & _ & _ & Hs & _).
    exists patch, d'. split; [exact E | split; [exact Hrows|]].
    split; [exact Ht | split; [exact Hc|]].
    apply (Hs "Sofa Novo" eq_refl). discriminate.
Defined.

(** C3 as stated fails in file mode: an update of an existing post that
    supplies the title alone is answered 400 and the post keeps its
    title. *)
Lemma file_update_title_alone_rejected :
  FileMode.update quiet_world "1700000000000" (Some "Sofa Novo") None None
                  (FileMode.Stored [sofa_post])
  = (fail 400 "Title, content, and label required",
     FileMode.Stored [sofa_post]).
Proof. reflexivity. Qed.

(* ================================================================== *)
(** * Part III. Further properties of the code *)
(* ================================================================== *)

(** ** The slug: shape, length, emptiness *)

Section Lengths.

Variable p : ascii -> bool.

Lemma strip_length (s : string) :
  String.length (strip p s) <= String.length s.
Proof.
  induction s as [|c s IH]; [apply le_n|].
  cbn [strip]. destruct (p c); cbn [String.length]; lia.
Qed.

Lemma squeeze_length (r : ascii) (b : bool) (s : string) :
  String.length (squeeze p r b s) <= String.length s.
Proof.
  revert b. induction s as [|c s IH]; intro b; [apply le_n|].
  pose proof (IH true). pose proof (IH false).
  cbn [squeeze]. destruct (p c); [destruct b|]; cbn [String.length]; lia.
Qed.

Lemma trim_left_length (s : string) :
  String.length (trim_left p s) <= String.length s.
Proof.
  induction s as [|c s IH]; [apply le_n|].
  cbn [trim_left]. destruct (p c); cbn [String.length]; lia.
Qed.

Lemma trim_right_length (s : string) :
  String.length (trim_right p s) <= String.length s.
Proof.
  induction s as [|c s IH]; [apply le_n|].
  cbn [trim_right]. destruct (trim_right p s) as [|d t].
  - destruct (p c); cbn [String.length]; lia.
  - cbn [String.length] in *. lia.
Qed.

Lemma trim_right_last (u : string) (c : ascii) :
  p c = true -> trim_right p (u ++ String c "") = trim_right p u.
Proof.
  intro Hc. induction u as [|a u IH]; cbn [append trim_right].
  - rewrite Hc. reflexivity.
  - rewrite IH. reflexivity.
Qed.

Lemma no_adjacent_pair (b : bool) (u v : string) (c d : ascii) :
  p c = true -> p d = true ->
  no_adjacent p b (u ++ String c (String d v)) = false.
Proof.
  intros Hc Hd. revert b. induction u as [|a u IH]; intro b;
    cbn [append no_adjacent].
  - rewrite Hc, Hd. cbn [negb andb]. apply andb_false_r.
  - destruct (p a); [rewrite IH; apply andb_false_r | apply IH].
Qed.

Lemma all_in_trim_left_iff (s : string) :
  all_in p (trim_left p s) = all_in p s.
Proof.
  induction s as [|c s IH]; [reflexivity|].
  cbn [trim_left]. destruct (p c) eqn:Hc.
  - cbn [all_in]. rewrite Hc. exact IH.
  - reflexivity.
Qed.

Lemma all_in_squeeze_iff (r : ascii) (b : bool) (s : string) :
  p r = true -> all_in p (squeeze p r b s) = all_in p s.
Proof.
  intro Hr. revert b. induction s as [|c s IH]; intro b; [reflexivity|].
  cbn [squeeze all_in]. destruct (p c) eqn:Hc.
  - destruct b; [apply IH|]. cbn [all_in]. rewrite Hr. apply IH.
  - cbn [all_in]. rewrite Hc. reflexivity.
Qed.

End Lengths.

Lemma append_length (a b : string) :
  String.length (a ++ b) = String.length a + String.length b.
Proof. induction a as [|c a IH]; cbn; [|rewrite IH]; reflexivity. Qed.

Lemma toLowerCase_length (s : string) :
  String.length (toLowerCase s) = String.length s.
Proof. induction s as [|c s IH]; cbn; [|rewrite IH]; reflexivity. Qed.

(** X1.  A slug is safe in a URL path: it is made of lower-case letters,
    digits and hyphens only, it has no two hyphens in a row, and it
    neither starts nor ends with a hyphen. *)
Theorem generateSlug_url_safe :
  forall title,
    all_in slug_char (generateSlug title) = true /\
    (forall u v, generateSlug title <> u ++ "--" ++ v) /\
    (forall v, generateSlug title <> "-" ++ v) /\
    (forall u, generateSlug title <> u ++ "-").
Proof.
  intro title. rewrite generateSlug_spec_slug.
  destruct (spec_slug_shaped title) as (Hc & Hn & Hl & Hr).
  split; [exact Hc | split; [|split]].
  - intros u v E. rewrite E in Hn.
    change (u ++ "--" ++ v) with (u ++ String hyphen (String hyphen v)) in Hn.
    rewrite no_adjacent_pair in Hn by reflexivity. discriminate.
  - intros v E. rewrite E in Hl.
    change (trim_left is_hyphen ("-" ++ v)) with (trim_left is_hyphen v) in Hl.
    pose proof (trim_left_length is_hyphen v) as L.
    rewrite Hl in L. cbn [String.length append] in L. lia.
  - intros u E. rewrite E in Hr.
    change (u ++ "-") with (u ++ String hyphen "") in Hr.
    rewrite trim_right_last in Hr by reflexivity.
    pose proof (trim_right_length is_hyphen u) as L.
    rewrite Hr, append_length in L. cbn [String.length] in L. lia.
Qed.

(** X2.  A slug is never longer than the title it comes from. *)
Theorem generateSlug_no_longer :
  forall title, String.length (generateSlug title) <= String.length title.
Proof.
  intro title. rewrite generateSlug_spec_slug. unfold spec_slug.
  rewrite <- (toLowerCase_length title).
  etransitivity; [apply trim_right_length|].
  etransitivity; [apply trim_left_length|].
  etransitivity; [apply squeeze_length|].
  etransitivity; [apply squeeze_length|].
  apply strip_length.
Qed.

Lemma alnum_survives (c : ascii) :
  (if slug_keep (lower_char c)
   then is_ws (lower_char c) || is_hyphen (lower_char c)
   else true) = negb (is_alnum c).
Proof. by_ascii_cases c. Qed.

Lemma all_hyphens_after_spaces (b : bool) (s : string) :
  all_in is_hyphen (squeeze is_ws hyphen b s)
  = all_in (fun c => is_ws c || is_hyphen c) s.
Proof.
  revert b. induction s as [|c s IH]; intro b; [reflexivity|].
  cbn [squeeze all_in]. destruct (is_ws c) eqn:Hw; cbn [orb].
  - destruct b; [apply IH|]. cbn [all_in].
    change (is_hyphen hyphen) with true. apply IH.
  - cbn [all_in]. rewrite IH. reflexivity.
Qed.

Lemma blank_after_strip (t : string) :
  all_in (fun c => is_ws c || is_hyphen c) (strip slug_keep (toLowerCase t))
  = negb (some_in is_alnum t).
Proof.
  induction t as [|c t IH]; [reflexivity|].
  cbn [toLowerCase strip some_in]. rewrite negb_orb, <- IH, <- alnum_survives.
  destruct (slug_keep (lower_char c)); reflexivity.
Qed.

Lemma slug_empty_without_alnum (title : string) :
  generateSlug title = "" <-> some_in is_alnum title = false.
Proof.
  rewrite generateSlug_spec_slug. unfold spec_slug.
  rewrite trim_right_empty, all_in_trim_left_iff,
          all_in_squeeze_iff by reflexivity.
  rewrite all_hyphens_after_spaces, blank_after_strip.
  destruct (some_in is_alnum title); split; intro H;
    try reflexivity; discriminate.
Qed.

(** X3.  A letter or a digit of ASCII in the title makes the slug
    non-empty, and for the titles of this development, whose characters
    are code units U+0000..U+00FF, the converse holds: a title of that
    range with no letter and no digit of ASCII has the empty slug.
    (Beyond that range the converse is not claimed: [toLowerCase] sends
    U+212A to [k].) *)
Theorem generateSlug_empty_iff :
  forall title, generateSlug title = "" <-> some_in is_alnum title = false.
Proof. exact slug_empty_without_alnum. Qed.

(** ** Integers in decimal: printed by [String(n)], read by [parseInt]
    and [isNaN] *)

Lemma digit_not_ws (c : ascii) : is_digit c = true -> is_ws c = false.
Proof. by_ascii_cases c. Qed.

Lemma digit_not_hyphen (c : ascii) : is_digit c = true -> is_hyphen c = false.
Proof. by_ascii_cases c. Qed.

Lemma digit_plain (c : ascii) :
  is_digit c = true ->
  chr_is "-" c = false /\ chr_is "+" c = false /\ chr_is "x" c = false /\
  chr_is "X" c = false /\ chr_is "I" c = false.
Proof. by_ascii_cases c. Qed.

Lemma digits_of_uint (d : Decimal.uint) :
  all_in is_digit (NilEmpty.string_of_uint d) = true.
Proof. induction d; cbn [NilEmpty.string_of_uint all_in]; try rewrite IHd; reflexivity. Qed.

Lemma read_digits_acc (d : Decimal.uint) (acc : positive) :
  read_digits digit_val 10 true (Zpos acc) (NilEmpty.string_of_uint d)
  = Some (Zpos (Pos.of_uint_acc d acc)).
Proof.
  revert acc. induction d; intro acc;
    cbn [NilEmpty.string_of_uint read_digits Pos.of_uint_acc];
    [reflexivity | ..];
    match goal with
    | |- context [digit_val ?c] =>
        let v := eval vm_compute in (digit_val c) in
        change (digit_val c) with v; cbv iota
    end;
    match goal with
    | |- read_digits _ _ _ ?z _ = Some (Zpos (Pos.of_uint_acc _ ?q)) =>
        replace z with (Zpos q) by lia
    end;
    apply IHd.
Qed.

Lemma read_digits_zero (d : Decimal.uint) (seen : bool) :
  seen = true \/ d <> Decimal.Nil ->
  read_digits digit_val 10 seen 0 (NilEmpty.string_of_uint d)
  = Some (Z.of_N (Pos.of_uint d)).
Proof.
  revert seen. induction d; intros seen H;
    cbn [NilEmpty.string_of_uint read_digits Pos.of_uint];
    [destruct H as [->|H]; [reflexivity | elim H; reflexivity] | ..];
    match goal with
    | |- context [digit_val ?c] =>
        let v := eval vm_compute in (digit_val c) in
        change (digit_val c) with v; cbv iota
    end;
    try (apply IHd; left; reflexivity);
    cbn [Z.mul Z.add Z.of_N];
    match goal with
    | |- read_digits _ _ _ (Zpos ?q) _ = _ => apply (read_digits_acc d q)
    end.
Qed.

Lemma trim_left_unmoved (p : ascii -> bool) (c : ascii) (s : string) :
  p c = false -> trim_left p (String c s) = String c s.
Proof. intro H. cbn [trim_left]. rewrite H. reflexivity. Qed.

Lemma trim_right_unmoved (p q : ascii -> bool) (s : string) :
  (forall c, q c = true -> p c = false) ->
  all_in q s = true -> trim_right p s = s.
Proof.
  intro Hpq. induction s as [|c s IH]; intro H; [reflexivity|].
  cbn [all_in] in H. apply andb_true_iff in H. destruct H as [Hc Hs].
  cbn [trim_right]. rewrite (IH Hs). destruct s; [|reflexivity].
  rewrite (Hpq c Hc). reflexivity.
Qed.

Lemma run_len_all (p : ascii -> bool) (s : string) :
  all_in p s = true -> run_len p s = String.length s /\ trim_left p s = "".
Proof.
  induction s as [|c s IH]; intro H; [split; reflexivity|].
  cbn [all_in] in H. apply andb_true_iff in H. destruct H as [Hc Hs].
  cbn [run_len trim_left String.length]. rewrite Hc.
  destruct (IH Hs) as [-> ->]. split; reflexivity.
Qed.

(** [parseInt] on a string of decimal digits reads all of it. *)
Lemma parseInt_digits (ds : string) :
  digits1 is_digit ds = true ->
  parseInt ds = read_digits digit_val 10 false 0 ds /\
  parseInt (String "-" ds)
  = option_map Z.opp (read_digits digit_val 10 false 0 ds).
Proof.
  destruct ds as [|c r]; [discriminate|]. cbn [digits1 all_in].
  intro H. apply andb_true_iff in H. destruct H as [Hc Hr].
  destruct (digit_plain c Hc) as (Hm & Hp & _).
  assert (Hx : forall x r', r = String x r' ->
                 chr_is "0" c && (chr_is "x" x || chr_is "X" x) = false).
  { intros x r' ->. cbn [all_in] in Hr. apply andb_true_iff in Hr.
    destruct (digit_plain x (proj1 Hr)) as (_ & _ & -> & -> & _).
    apply andb_false_r. }
  split.
  - unfold parseInt. rewrite (trim_left_unmoved _ _ _ (digit_not_ws c Hc)).
    rewrite Hm, Hp. destruct r as [|x r'].
    + destruct (read_digits digit_val 10 false 0 (String c "")); reflexivity.
    + rewrite (Hx x r' eq_refl).
      destruct (read_digits digit_val 10 false 0 (String c (String x r')));
        reflexivity.
  - unfold parseInt.
    rewrite (trim_left_unmoved is_ws "-" _ eq_refl).
    change (chr_is "-" "-") with true. cbv iota. destruct r as [|x r'].
    + destruct (read_digits digit_val 10 false 0 (String c "")); reflexivity.
    + rewrite (Hx x r' eq_refl).
      destruct (read_digits digit_val 10 false 0 (String c (String x r')));
        reflexivity.
Qed.

(** A string of decimal digits, signed or not, converts to a number. *)
Lemma isNaN_digits (ds : string) :
  digits1 is_digit ds = true ->
  isNaN ds = false /\ isNaN (String "-" ds) = false.
Proof.
  destruct ds as [|c r]; [discriminate|]. cbn [digits1].
  intro H. pose proof H as Hall.
  cbn [all_in] in H. apply andb_true_iff in H. destruct H as [Hc Hr].
  destruct (digit_plain c Hc) as (Hm & Hp & _ & _ & Hi).
  assert (Hu : unsigned_decimal (String c r) = true).
  { unfold unsigned_decimal.
    assert (E : String.eqb (String c r) "Infinity" = false).
    { cbn [String.eqb]. unfold chr_is in Hi. rewrite Hi. reflexivity. }
    rewrite E. destruct (run_len_all is_digit _ Hall) as [-> ->].
    reflexivity. }
  assert (Hd : drop_sign (String c r) = String c r).
  { cbn [drop_sign]. rewrite Hp, Hm. reflexivity. }
  split; unfold isNaN, numeric_string.
  - rewrite (trim_left_unmoved _ _ _ (digit_not_ws c Hc)).
    rewrite (trim_right_unmoved is_ws is_digit _ digit_not_ws Hall).
    rewrite Hd, Hu. reflexivity.
  - rewrite (trim_left_unmoved is_ws "-" _ eq_refl).
    assert (E : trim_right is_ws (String "-" (String c r))
                = String "-" (String c r)).
    { cbn [trim_right].
      rewrite (trim_right_unmoved is_ws is_digit _ digit_not_ws Hr).
      cbn [trim_right] in *.
      pose proof (trim_right_unmoved is_ws is_digit _ digit_not_ws Hall) as E.
      cbn [trim_right] in E.
      rewrite (trim_right_unmoved is_ws is_digit _ digit_not_ws Hr) in E.
      rewrite E. reflexivity. }
    rewrite E.
    change (drop_sign (String "-" (String c r))) with (String c r).
    rewrite Hu. reflexivity.
Qed.

Lemma uint_string_nonempty (p : positive) :
  digits1 is_digit (NilEmpty.string_of_uint (Pos.to_uint p)) = true.
Proof.
  pose proof (DecimalPos.Unsigned.to_uint_nonnil p) as H.
  pose proof (digits_of_uint (Pos.to_uint p)) as D.
  destruct (Pos.to_uint p); [elim H; reflexivity | ..]; exact D.
Qed.

Lemma read_uint_of_pos (p : positive) :
  read_digits digit_val 10 false 0 (NilEmpty.string_of_uint (Pos.to_uint p))
  = Some (Zpos p).
Proof.
  rewrite read_digits_zero
    by (right; apply DecimalPos.Unsigned.to_uint_nonnil).
  rewrite DecimalPos.Unsigned.of_to. reflexivity.
Qed.

(** The decimal text of an integer reads back as that integer, and reads
    as a number. *)
Lemma parseInt_string_of_Z (n : Z) : parseInt (string_of_Z n) = Some n.
Proof.
  destruct n as [|p|p]; [reflexivity | |]; unfold string_of_Z;
    cbn [Z.to_int NilEmpty.string_of_int].
  - rewrite (proj1 (parseInt_digits _ (uint_string_nonempty p))).
    apply read_uint_of_pos.
  - rewrite (proj2 (parseInt_digits _ (uint_string_nonempty p))).
    rewrite read_uint_of_pos. reflexivity.
Qed.

Lemma isNaN_string_of_Z (n : Z) : isNaN (string_of_Z n) = false.
Proof.
  destruct n as [|p|p]; [reflexivity | |]; unfold string_of_Z;
    cbn [Z.to_int NilEmpty.string_of_int].
  - apply (proj1 (isNaN_digits _ (uint_string_nonempty p))).
  - apply (proj2 (isNaN_digits _ (uint_string_nonempty p))).
Qed.

Lemma string_of_Z_inj (n m : Z) : string_of_Z n = string_of_Z m -> n = m.
Proof.
  intro E. pose proof (parseInt_string_of_Z n) as Hn.
  rewrite E, parseInt_string_of_Z in Hn. congruence.
Qed.

Lemma string_of_Z_digits (n : Z) :
  (0 <= n)%Z -> all_in is_digit (string_of_Z n) = true.
Proof.
  destruct n as [|p|p]; intro H; [reflexivity | | lia].
  unfold string_of_Z. cbn [Z.to_int NilEmpty.string_of_int].
  apply digits_of_uint.
Qed.

Lemma no_hyphen_in_digits (s : string) :
  all_in is_digit s = true -> some_in is_hyphen s = false.
Proof.
  induction s as [|c s IH]; intro H; [reflexivity|].
  cbn [all_in] in H. apply andb_true_iff in H. destruct H as [Hc Hs].
  cbn [some_in]. rewrite (digit_not_hyphen c Hc), (IH Hs). reflexivity.
Qed.

Lemma some_in_append (p : ascii -> bool) (a b : string) :
  some_in p (a ++ b) = some_in p a || some_in p b.
Proof.
  induction a as [|c a IH]; [reflexivity|].
  cbn [append some_in]. rewrite IH, orb_assoc. reflexivity.
Qed.

(** Two texts cut at their first hyphen. *)
Lemma cut_at_first_hyphen (a b x y : string) :
  some_in is_hyphen a = false -> some_in is_hyphen b = false ->
  a ++ "-" ++ x = b ++ "-" ++ y -> a = b /\ x = y.
Proof.
  revert b. induction a as [|c a IH]; intros b Ha Hb E.
  - destruct b as [|d b]; cbn [append] in E.
    + inversion E. split; reflexivity.
    + inversion E; subst d. cbn [some_in] in Hb. discriminate.
  - destruct b as [|d b]; cbn [append] in E.
    + inversion E; subst c. cbn [some_in] in Ha. discriminate.
    + inversion E; subst d. cbn [some_in] in Ha, Hb.
      apply orb_false_iff in Ha, Hb.
      destruct (IH b (proj2 Ha) (proj2 Hb) H1) as [-> ->].
      split; reflexivity.
Qed.

(** Two texts cut at their last hyphen. *)
Lemma cut_at_last_hyphen (a b x y : string) :
  some_in is_hyphen x = false -> some_in is_hyphen y = false ->
  a ++ "-" ++ x = b ++ "-" ++ y -> a = b /\ x = y.
Proof.
  intros Hx Hy. revert b. induction a as [|c a IH]; intros b E.
  - destruct b as [|d b]; cbn [append] in E.
    + inversion E. split; reflexivity.
    + inversion E; subst. rewrite some_in_append in Hx.
      cbn [append some_in] in Hx. rewrite orb_true_r in Hx. discriminate.
  - destruct b as [|d b]; cbn [append] in E.
    + inversion E; subst. rewrite some_in_append in Hy.
      cbn [append some_in] in Hy. rewrite orb_true_r in Hy. discriminate.
    + inversion E; subst d. destruct (IH b H1) as [-> ->].
      split; reflexivity.
Qed.

(** X4.  The name an upload is stored under, [<Date.now()>-<original
    name>], tells the instant and the original name apart: for clock
    readings from 1970 on, two uploads get the same stored name exactly
    when they carry the same original name and are stored at the same
    millisecond. *)
Theorem stored_name_unique :
  forall n m a b,
    (0 <= n)%Z -> (0 <= m)%Z ->
    (FileRoutes.filename n a = FileRoutes.filename m b <-> n = m /\ a = b).
Proof.
  intros n m a b Hn Hm. split.
  - unfold FileRoutes.filename. intro E.
    destruct (cut_at_first_hyphen _ _ _ _
                (no_hyphen_in_digits _ (string_of_Z_digits n Hn))
                (no_hyphen_in_digits _ (string_of_Z_digits m Hm)) E)
      as [En Ea].
    split; [apply string_of_Z_inj, En | exact Ea].
  - intros [-> ->]. reflexivity.
Qed.

Lemma stored_name_unique_witness :
  FileRoutes.filename 1700000000000 "sofa.png"
  <> FileRoutes.filename 1700000000001 "sofa.png".
Proof.
  intro E.
  apply (stored_name_unique 1700000000000 1700000000001 "sofa.png" "sofa.png")
    in E; [|lia|lia].
  destruct E as [E _]. discriminate E.
Defined.

(** X5.  In backend mode the slug given at creation,
    [generateSlug(title) + '-' + Date.now()], tells the instant apart: for
    clock readings from 1970 on, two create requests get the same slug
    only when they are handled at the same millisecond and their titles
    have the same derived slug. *)
Theorem creation_slug_unique :
  forall n m t1 c1 l1 i1 t2 c2 l2 i2,
    (0 <= n)%Z -> (0 <= m)%Z ->
    Backend.new_slug (Backend.new_row n t1 c1 l1 i1)
    = Backend.new_slug (Backend.new_row m t2 c2 l2 i2) ->
    n = m /\ generateSlug t1 = generateSlug t2.
Proof.
  intros n m t1 c1 l1 i1 t2 c2 l2 i2 Hn Hm E.
  cbn [Backend.new_slug Backend.new_row] in E.
  destruct (cut_at_last_hyphen _ _ _ _
              (no_hyphen_in_digits _ (string_of_Z_digits n Hn))
              (no_hyphen_in_digits _ (string_of_Z_digits m Hm)) E)
    as [Et En].
  split; [apply string_of_Z_inj, En | exact Et].
Qed.

Lemma creation_slug_unique_witness :
  1700000000000%Z = 1700000000000%Z /\
  generateSlug "Sofa  Novo" = generateSlug "sofa novo!".
Proof.
  apply (creation_slug_unique 1700000000000 1700000000000
           "Sofa  Novo" "a" "b" None "sofa novo!" "c" "d" (Some "x"));
    [lia | lia | reflexivity].
Defined.

(** ** File mode: how the requests compose *)

(** What a 200 from the create handler means. *)
Lemma file_create_ok (w : FileMode.world) (rq : FileMode.create_request)
      (f : FileMode.file) :
  status (fst (FileMode.create w rq f)) = 200 ->
  exists t c l,
    FileMode.req_title rq = Some t /\ FileMode.req_content rq = Some c /\
    FileMode.req_label rq = Some l /\ FileMode.writeErr w = false /\
    FileMode.create w rq f
    = (ok (CreatedBody (FileMode.Date_now w) (generateSlug t)),
       FileMode.Stored
         (readable_posts w f ++ [FileMode.newPost w rq t c l])%list).
Proof.
  intro H.
  destruct (truthy (FileMode.req_title rq) && truthy (FileMode.req_content rq)
            && truthy (FileMode.req_label rq)) eqn:E.
  - destruct (truthy_all3 _ _ _ E) as (t & c & l & Ht & Hc & Hl & Tt & Tc & Tl).
    rewrite (file_create_present w rq f t c l Ht Hc Hl Tt Tc Tl) in *.
    destruct (FileMode.writeErr w); [discriminate|].
    exists t, c, l. repeat split; assumption.
  - rewrite (file_create_missing w rq f E) in H. discriminate.
Qed.

Lemma file_create_other (w : FileMode.world) (rq : FileMode.create_request)
      (f : FileMode.file) :
  status (fst (FileMode.create w rq f)) <> 200 ->
  snd (FileMode.create w rq f) = f.
Proof.
  unfold FileMode.create.
  destruct (FileMode.req_title rq) as [[|? ?]|]; try reflexivity;
    destruct (FileMode.req_content rq) as [[|? ?]|]; try reflexivity;
    destruct (FileMode.req_label rq) as [[|? ?]|]; try reflexivity.
  destruct (FileMode.writeErr w); [reflexivity|].
  intro H. elim H. reflexivity.
Qed.

Lemma file_update_other (w : FileMode.world) (id_param : string)
      (title content label : option string) (f : FileMode.file) :
  status (fst (FileMode.update w id_param title content label f)) <> 200 ->
  snd (FileMode.update w id_param title content label f) = f.
Proof.
  unfold FileMode.update.
  destruct title as [[|? ?]|]; try reflexivity;
    destruct content as [[|? ?]|]; try reflexivity;
    destruct label as [[|? ?]|]; try reflexivity.
  destruct (FileMode.readErr w); [reflexivity|].
  destruct f as [raw|posts]; [reflexivity|].
  destruct (findIndex _ posts); [|reflexivity].
  destruct (FileMode.writeErr w); [reflexivity|].
  intro H. elim H. reflexivity.
Qed.

Lemma file_delete_other (w : FileMode.world) (id_param : string)
      (f : FileMode.file) :
  status (fst (FileMode.delete w id_param f)) <> 200 ->
  snd (FileMode.delete w id_param f) = f.
Proof.
  unfold FileMode.delete.
  destruct (FileMode.readErr w); [reflexivity|].
  destruct f as [raw|posts]; [reflexivity|].
  destruct (findIndex _ posts); [|reflexivity].
  destruct (FileMode.writeErr w); [reflexivity|].
  intro H. elim H. reflexivity.
Qed.

Lemma id_match_by_decimal (n : Z) (posts : list FileMode.Post) :
  id_match (string_of_Z n) posts
  = find_first (fun p => Z.eqb (FileMode.id p) n) posts.
Proof.
  unfold id_match. rewrite isNaN_string_of_Z, parseInt_string_of_Z.
  reflexivity.
Qed.

Lemma served_by_decimal_id (w : FileMode.world)
      (before : list FileMode.Post) (p : FileMode.Post)
      (after : list FileMode.Post) :
  FileMode.readErr w = false ->
  (forall q, In q before -> FileMode.id q <> FileMode.id p) ->
  FileMode.get_post w (string_of_Z (FileMode.id p))
                    (FileMode.Stored (before ++ p :: after)%list)
  = ok (PostBody (Some p)).
Proof.
  intros Hr Hb.
  rewrite (file_get_post_chain w _ _ Hr), id_match_by_decimal.
  rewrite find_first_head; [reflexivity | apply Z.eqb_refl |].
  intros q Hq. apply Z.eqb_neq, Hb, Hq.
Qed.

(** X6.  File mode: a stored post is served under its id written in
    decimal, which is how the create handler returns it, as long as no
    post stored before it has the same id; the slug stages are not
    consulted. *)
Theorem post_served_by_its_id :
  forall w before p after,
    FileMode.readErr w = false ->
    (forall q, In q before -> FileMode.id q <> FileMode.id p) ->
    FileMode.get_post w (string_of_Z (FileMode.id p))
                      (FileMode.Stored (before ++ p :: after)%list)
    = ok (PostBody (Some p)).
Proof. exact served_by_decimal_id. Qed.

Lemma post_served_by_its_id_witness :
  FileMode.get_post quiet_world "1700000400000"
                    (FileMode.Stored [sofa_post; number_post])
  = ok (PostBody (Some number_post)).
Proof.
  apply (post_served_by_its_id quiet_world [sofa_post] number_post []).
  - reflexivity.
  - intros q [<-|[]]. discriminate.
Defined.

(** X7.  File mode: after a successful create, the id in the response
    fetches the post just created, with the title, content and label of
    the request, provided no post read from the file had that id. *)
Theorem created_post_is_served :
  forall w rq f i s f' w',
    FileMode.create w rq f = (ok (CreatedBody i s), f') ->
    FileMode.readErr w' = false ->
    (forall q, In q (readable_posts w f) -> FileMode.id q <> i) ->
    exists np,
      FileMode.get_post w' (string_of_Z i) f' = ok (PostBody (Some np)) /\
      FileMode.id np = i /\ FileMode.slug np = s /\
      Some (FileMode.title np) = FileMode.req_title rq /\
      Some (FileMode.content np) = FileMode.req_content rq /\
      Some (FileMode.label np) = FileMode.req_label rq.
Proof.
  intros w rq f i s f' w' E Hr Hnew.
  assert (H200 : status (fst (FileMode.create w rq f)) = 200)
    by (rewrite E; reflexivity).
  destruct (file_create_ok w rq f H200)
    as (t & c & l & Ht & Hc & Hl & _ & E').
  rewrite E' in E. inversion E; subst i s f'.
  exists (FileMode.newPost w rq t c l).
  split; [|repeat split; symmetry; assumption].
  apply (served_by_decimal_id w' (readable_posts w f)
           (FileMode.newPost w rq t c l) [] Hr Hnew).
Qed.

Lemma created_post_is_served_witness :
  exists np,
    FileMode.get_post quiet_world (string_of_Z 1700000400000)
                      (FileMode.Stored [sofa_post; number_post])
    = ok (PostBody (Some np)) /\
    FileMode.id np = 1700000400000%Z /\ FileMode.slug np = "1700000000000".
Proof.
  destruct (created_post_is_served
              (FileMode.World false false 1700000400000 "Nov 14"
                              "2023-11-14T22:20:00.000Z")
              (FileMode.CreateRequest (Some "1700000000000") (Some "text")
                                      (Some "sala") None "http" "localhost:3000")
              (FileMode.Stored [sofa_post])
              1700000400000 "1700000000000"
              (FileMode.Stored [sofa_post; number_post])
              quiet_world eq_refl eq_refl)
    as (np & Hg & Hi & Hs & _).
  - intros q [<-|[]]. discriminate.
  - exists np. repeat split; assumption.
Defined.

(** X8.  File mode: the listing is in insertion order.  When the file
    reads and parses, a successful create makes the listing the former
    one followed by the new post. *)
Theorem listing_grows_at_the_end :
  forall w rq posts i s f' w',
    FileMode.readErr w = false ->
    FileMode.create w rq (FileMode.Stored posts)
    = (ok (CreatedBody i s), f') ->
    FileMode.readErr w' = false ->
    exists np,
      FileRoutes.list_posts w' f'
      = (200, FileRoutes.posts_reply (posts ++ [np])%list) /\
      FileMode.id np = i /\ FileMode.slug np = s.
Proof.
  intros w rq posts i s f' w' Hr E Hr'.
  assert (H200 : status (fst (FileMode.create w rq (FileMode.Stored posts))) = 200)
    by (rewrite E; reflexivity).
  destruct (file_create_ok w rq _ H200) as (t & c & l & _ & _ & _ & _ & E').
  rewrite E' in E. inversion E; subst i s f'.
  exists (FileMode.newPost w rq t c l).
  unfold FileRoutes.list_posts, readable_posts. rewrite Hr, Hr'.
  repeat split.
Qed.

Lemma listing_grows_at_the_end_witness :
  exists np,
    FileRoutes.list_posts quiet_world
                          (FileMode.Stored [sofa_post; number_post])
    = (200, FileRoutes.posts_reply ([sofa_post] ++ [np])%list) /\
    FileMode.id np = 1700000400000%Z /\ FileMode.slug np = "1700000000000".
Proof.
  apply (listing_grows_at_the_end
           (FileMode.World false false 1700000400000 "Nov 14"
                           "2023-11-14T22:20:00.000Z")
           (FileMode.CreateRequest (Some "1700000000000") (Some "text")
                                   (Some "sala") None "http" "localhost:3000")
           [sofa_post] 1700000400000 "1700000000000"
           (FileMode.Stored [sofa_post; number_post]) quiet_world);
    reflexivity.
Defined.

(** X9.  File mode: deleting the post just created, by the id the create
    response carries, puts the file back as it was and returns that post,
    provided the file read and parsed at creation, no stored post had
    that id, and the delete reads and writes without error. *)
Theorem create_then_delete_restores :
  forall w rq posts i s f' w',
    FileMode.readErr w = false ->
    FileMode.create w rq (FileMode.Stored posts)
    = (ok (CreatedBody i s), f') ->
    (forall q, In q posts -> FileMode.id q <> i) ->
    FileMode.readErr w' = false -> FileMode.writeErr w' = false ->
    exists np,
      FileMode.delete w' (string_of_Z i) f'
      = (ok (SuccessPostBody (Some np)), FileMode.Stored posts) /\
      FileMode.id np = i /\ FileMode.slug np = s.
Proof.
  intros w rq posts i s f' w' Hr E Hnew Hr' Hw'.
  assert (H200 : status (fst (FileMode.create w rq (FileMode.Stored posts))) = 200)
    by (rewrite E; reflexivity).
  destruct (file_create_ok w rq _ H200) as (t & c & l & _ & _ & _ & _ & E').
  rewrite E' in E. inversion E; subst i s f'.
  exists (FileMode.newPost w rq t c l).
  assert (R : readable_posts w (FileMode.Stored posts) = posts)
    by (unfold readable_posts; rewrite Hr; reflexivity).
  rewrite R.
  rewrite (file_delete_present w' _ posts (FileMode.newPost w rq t c l) []
             Hr' Hw').
  - rewrite app_nil_r. repeat split.
  - apply parseInt_string_of_Z.
  - intros q Hq. rewrite parseInt_string_of_Z. intro Eq.
    inversion Eq as [Eq']. apply (Hnew q Hq). symmetry. exact Eq'.
Qed.

Lemma create_then_delete_restores_witness :
  exists np,
    FileMode.delete quiet_world (string_of_Z 1700000400000)
                    (FileMode.Stored [sofa_post; number_post])
    = (ok (SuccessPostBody (Some np)), FileMode.Stored [sofa_post]) /\
    FileMode.id np = 1700000400000%Z /\ FileMode.slug np = "1700000000000".
Proof.
  apply (create_then_delete_restores
           (FileMode.World false false 1700000400000 "Nov 14"
                           "2023-11-14T22:20:00.000Z")
           (FileMode.CreateRequest (Some "1700000000000") (Some "text")
                                   (Some "sala") None "http" "localhost:3000")
           [sofa_post] 1700000400000 "1700000000000"
           (FileMode.Stored [sofa_post; number_post]) quiet_world);
    try reflexivity.
  intros q [<-|[]]. discriminate.
Defined.

(** ** File mode: the routes as registered *)

Lemma protected_cases {P St : Type} (l : libs) (cfg : config) (clock : Z)
      (auth : option string) (handler : St -> response P * St) (st : St) :
  (authMiddleware (P := P) l cfg clock auth = Proceed /\
   protected l cfg clock auth handler st = handler st)
  \/
  (exists r, authMiddleware (P := P) l cfg clock auth = Rejected r /\
             (status r = 401 \/ status r = 403) /\
             protected l cfg clock auth handler st = (r, st)).
Proof.
  unfold protected.
  destruct (authMiddleware l cfg clock auth) as [r|] eqn:E.
  - right. exists r. repeat split.
    unfold authMiddleware in E.
    destruct auth as [h|]; [|inversion E; left; reflexivity].
    destruct (String.prefix "Bearer " h); [|inversion E; left; reflexivity].
    destruct (nth_error (split " " h) 1) as [token|];
      [|inversion E; right; reflexivity].
    destruct (jwt_verify l token (JWT_SECRET cfg) clock); [discriminate|].
    inversion E. right. reflexivity.
  - left. split; reflexivity.
Qed.

Lemma on_posts_file_other
      (handler : FileMode.file -> response FileMode.Post * FileMode.file)
      (d : FileRoutes.disk) :
  (status (fst (handler (FileRoutes.posts_file d))) <> 200 ->
   snd (handler (FileRoutes.posts_file d)) = FileRoutes.posts_file d) ->
  status (fst (FileRoutes.on_posts_file handler d)) <> 200 ->
  FileRoutes.posts_file (snd (FileRoutes.on_posts_file handler d))
  = FileRoutes.posts_file d.
Proof.
  unfold FileRoutes.on_posts_file.
  destruct (handler (FileRoutes.posts_file d)) as [r f] eqn:E.
  cbn [fst snd FileRoutes.posts_file]. auto.
Qed.

(** X10.  File mode: a refusal comes before any write.  When the create,
    update or delete route answers something other than 200 and other
    than the 500 of a write that failed (["Cannot save post"],
    ["Cannot save posts"]), that is 400, 401, 403, 404 or the 500 of a
    file that could not be read or parsed, [posts.json] is as it was
    before the request, and for update and delete so is the whole disk.
    What a failed write leaves in the file is no part of the statement. *)
Theorem refusals_leave_posts_file :
  (forall l cfg clock auth now image w title content label protocol host d,
      let r := fst (FileRoutes.post_posts l cfg clock auth now image w
                      title content label protocol host d) in
      status r <> 200 -> save_failed r = false ->
      FileRoutes.posts_file
        (snd (FileRoutes.post_posts l cfg clock auth now image w
                title content label protocol host d))
      = FileRoutes.posts_file d)
  /\
  (forall l cfg clock auth w id_param title content label d,
      let r := fst (FileRoutes.put_posts l cfg clock auth w id_param
                      title content label d) in
      status r <> 200 -> save_failed r = false ->
      snd (FileRoutes.put_posts l cfg clock auth w id_param
             title content label d) = d)
  /\
  (forall l cfg clock auth w id_param d,
      let r := fst (FileRoutes.delete_posts l cfg clock auth w id_param d) in
      status r <> 200 -> save_failed r = false ->
      snd (FileRoutes.delete_posts l cfg clock auth w id_param d) = d).
Proof.
  split; [|split].
  - intros l cfg clock auth now image w title content label protocol host d.
    unfold FileRoutes.post_posts.
    match goal with
    | |- context [protected l cfg clock auth ?h d] =>
        destruct (protected_cases l cfg clock auth h d)
          as [[_ ->] | (r & _ & _ & ->)]
    end; [|reflexivity].
    destruct (FileRoutes.upload_single now image d) as [file d1] eqn:Eu.
    assert (Hd1 : FileRoutes.posts_file d1 = FileRoutes.posts_file d).
    { unfold FileRoutes.upload_single in Eu.
      destruct image; inversion Eu; reflexivity. }
    cbv zeta. rewrite <- Hd1. clear Hd1 Eu.
    unfold FileRoutes.on_posts_file, FileMode.create.
    cbn [FileMode.req_title FileMode.req_content FileMode.req_label].
    destruct title as [[|? ?]|]; try reflexivity;
      destruct content as [[|? ?]|]; try reflexivity;
      destruct label as [[|? ?]|]; try reflexivity.
    destruct (FileMode.writeErr w); cbn.
    + intros _ H. discriminate H.
    + intros H _. elim H. reflexivity.
  - intros l cfg clock auth w id_param title content label d.
    unfold FileRoutes.put_posts.
    match goal with
    | |- context [protected l cfg clock auth ?h d] =>
        destruct (protected_cases l cfg clock auth h d)
          as [[_ ->] | (r & _ & _ & ->)]
    end; [|reflexivity].
    cbv zeta. unfold FileRoutes.on_posts_file, FileMode.update.
    destruct d as [f u]. cbn [FileRoutes.posts_file FileRoutes.uploads].
    destruct title as [[|? ?]|]; try reflexivity;
      destruct content as [[|? ?]|]; try reflexivity;
      destruct label as [[|? ?]|]; try reflexivity.
    destruct (FileMode.readErr w); [reflexivity|].
    destruct f as [raw|posts]; [reflexivity|].
    destruct (findIndex _ posts); [|reflexivity].
    destruct (FileMode.writeErr w); cbn.
    + intros _ H. discriminate H.
    + intros H _. elim H. reflexivity.
  - intros l cfg clock auth w id_param d.
    unfold FileRoutes.delete_posts.
    match goal with
    | |- context [protected l cfg clock auth ?h d] =>
        destruct (protected_cases l cfg clock auth h d)
          as [[_ ->] | (r & _ & _ & ->)]
    end; [|reflexivity].
    cbv zeta. unfold FileRoutes.on_posts_file, FileMode.delete.
    destruct d as [f u]. cbn [FileRoutes.posts_file FileRoutes.uploads].
    destruct (FileMode.readErr w); [reflexivity|].
    destruct f as [raw|posts]; [reflexivity|].
    destruct (findIndex _ posts); [|reflexivity].
    destruct (FileMode.writeErr w); cbn.
    + intros _ H. discriminate H.
    + intros H _. elim H. reflexivity.
Qed.

Lemma refusals_leave_posts_file_witness :
  snd (FileRoutes.put_posts toy_libs toy_config 1700000000000
         (Some "Bearer k.admin.1700003600") quiet_world "12"
         (Some "Mesa") (Some "text") (Some "sala")
         (FileRoutes.Disk (FileMode.Stored [sofa_post]) []))
  = FileRoutes.Disk (FileMode.Stored [sofa_post]) [].
Proof.
  apply (proj1 (proj2 refusals_leave_posts_file)).
  - discriminate.
  - reflexivity.
Defined.

(** X11.  File mode: on the create route the upload middleware runs
    after the gate and before the handler.  A request the gate rejects
    stores nothing; a request that passes the gate with a file but lacks
    a title, a content or a label is answered 400, its post is not
    written, and its file has nevertheless been stored in [uploads/]. *)
Theorem refused_create_keeps_its_upload :
  forall l cfg clock auth now image w title content label protocol host d,
    (authMiddleware (P := FileMode.Post) l cfg clock auth <> Proceed ->
     snd (FileRoutes.post_posts l cfg clock auth now image w
            title content label protocol host d) = d)
    /\
    (authMiddleware (P := FileMode.Post) l cfg clock auth = Proceed ->
     truthy title && truthy content && truthy label = false ->
     forall originalname, image = Some originalname ->
       FileRoutes.post_posts l cfg clock auth now image w
                             title content label protocol host d
       = (fail 400 "Title, content, and label required",
          FileRoutes.Disk
            (FileRoutes.posts_file d)
            (FileRoutes.filename now originalname :: FileRoutes.uploads d))).
Proof.
  intros l cfg clock auth now image w title content label protocol host d.
  unfold FileRoutes.post_posts, protected.
  destruct (authMiddleware l cfg clock auth) as [r|].
  - split; [reflexivity | discriminate].
  - split; [intro H; elim H; reflexivity|].
    intros _ Hmiss originalname ->.
    cbn [FileRoutes.upload_single]. unfold FileRoutes.on_posts_file.
    rewrite file_create_missing by exact Hmiss.
    reflexivity.
Qed.

Lemma refused_create_keeps_its_upload_witness :
  FileRoutes.post_posts toy_libs toy_config 1700000000000
                        (Some "Bearer k.admin.1700003600")
                        1700000000123 (Some "sofa.png") quiet_world
                        None (Some "text") (Some "sala") "http" "localhost"
                        (FileRoutes.Disk (FileMode.Stored [sofa_post]) [])
  = (fail 400 "Title, content, and label required",
     FileRoutes.Disk (FileMode.Stored [sofa_post])
                     ["1700000000123-sofa.png"]).
Proof.
  apply (proj2 (refused_create_keeps_its_upload
                  toy_libs toy_config 1700000000000
                  (Some "Bearer k.admin.1700003600")
                  1700000000123 (Some "sofa.png") quiet_world
                  None (Some "text") (Some "sala") "http" "localhost"
                  (FileRoutes.Disk (FileMode.Stored [sofa_post]) [])));
    reflexivity.
Defined.

(** ** File mode: what the stored posts keep *)

Lemma slugs_derived_app (a b : list FileMode.Post) :
  slugs_derived (a ++ b)%list <-> slugs_derived a /\ slugs_derived b.
Proof.
  unfold slugs_derived. split.
  - intro H. split; intros p Hp; apply H, in_or_app; [left | right]; exact Hp.
  - intros [Ha Hb] p Hp. apply in_app_or in Hp. destruct Hp; auto.
Qed.

Lemma slugs_derived_cons (p : FileMode.Post) (l : list FileMode.Post) :
  slugs_derived (p :: l) <->
  FileMode.slug p = generateSlug (FileMode.title p) /\ slugs_derived l.
Proof.
  unfold slugs_derived. split.
  - intro H. split; [apply H; left; reflexivity|].
    intros q Hq. apply H. right. exact Hq.
  - intros [Hp Hl] q [<-|Hq]; auto.
Qed.

Lemma readable_slugs_derived (w : FileMode.world) (f : FileMode.file) :
  file_slugs_derived f -> slugs_derived (readable_posts w f).
Proof.
  unfold readable_posts. intro H.
  destruct (FileMode.readErr w); [intros p []|].
  destruct f as [raw|posts]; [intros p [] | exact H].
Qed.

(** X12.  File mode: the handlers keep every stored slug equal to the
    slug of its title.  If that holds of the file before a create, an
    update or a delete, it holds after, whatever the request and its
    outcome. *)
Theorem stored_slugs_stay_derived :
  forall f,
    file_slugs_derived f ->
    (forall w rq, file_slugs_derived (snd (FileMode.create w rq f))) /\
    (forall w id_param title content label,
        file_slugs_derived
          (snd (FileMode.update w id_param title content label f))) /\
    (forall w id_param,
        file_slugs_derived (snd (FileMode.delete w id_param f))).
Proof.
  intros f Hf. split; [|split].
  - intros w rq.
    destruct (Nat.eq_dec (status (fst (FileMode.create w rq f))) 200) as [E|E].
    + destruct (file_create_ok w rq f E) as (t & c & l & _ & _ & _ & _ & ->).
      cbn [snd file_slugs_derived]. apply slugs_derived_app.
      split; [apply readable_slugs_derived, Hf|].
      apply slugs_derived_cons. split; [reflexivity | intros p []].
    + rewrite (file_create_other w rq f E). exact Hf.
  - intros w id_param title content label.
    destruct (Nat.eq_dec
                (status (fst (FileMode.update w id_param title content label f)))
                200) as [E|E].
    + destruct (file_update_ok w id_param title content label f E)
        as (t & c & l & before & p & after & _ & _ & _ & -> & _ & _ & ->).
      cbn [snd file_slugs_derived] in *.
      apply slugs_derived_app in Hf. destruct Hf as [Hb Ha].
      apply slugs_derived_cons in Ha. destruct Ha as [_ Ha].
      apply slugs_derived_app. split; [exact Hb|].
      apply slugs_derived_cons. split; [reflexivity | exact Ha].
    + rewrite (file_update_other w id_param title content label f E).
      exact Hf.
  - intros w id_param.
    destruct (Nat.eq_dec (status (fst (FileMode.delete w id_param f))) 200)
      as [E|E].
    + destruct (file_delete_ok w id_param f E)
        as (before & p & after & -> & _ & _ & ->).
      cbn [snd file_slugs_derived] in *.
      apply slugs_derived_app in Hf. destruct Hf as [Hb Ha].
      apply slugs_derived_cons in Ha. destruct Ha as [_ Ha].
      apply slugs_derived_app. split; assumption.
    + rewrite (file_delete_other w id_param f E). exact Hf.
Qed.

Lemma stored_slugs_stay_derived_witness :
  file_slugs_derived
    (snd (FileMode.update quiet_world "1700000000000"
            (Some "Sofa Novo") (Some "text") (Some "sala")
            (FileMode.Stored [sofa_post; number_post]))).
Proof.
  apply (stored_slugs_stay_derived (FileMode.Stored [sofa_post; number_post])).
  intros p [<-|[<-|[]]]; reflexivity.
Defined.

Lemma find_first_in {A : Type} (g : A -> bool) (l : list A) (x : A) :
  find_first g l = Some x -> In x l /\ g x = true.
Proof.
  induction l as [|a l IH]; cbn [find_first]; [discriminate|].
  destruct (g a) eqn:Ha.
  - intro H. inversion H; subst. split; [left; reflexivity | exact Ha].
  - intro H. destruct (IH H) as [Hin Hx]. split; [right; exact Hin | exact Hx].
Qed.

Lemma find_first_ext_in {A : Type} (g h : A -> bool) (l : list A) :
  (forall x, In x l -> g x = h x) -> find_first g l = find_first h l.
Proof.
  induction l as [|a l IH]; intro H; [reflexivity|].
  cbn [find_first]. rewrite (H a) by (left; reflexivity).
  rewrite IH; [reflexivity|]. intros x Hx. apply H. right. exact Hx.
Qed.

(** X13.  File mode: the lookup never answers a post that does not match.
    A post in a 200 answer is a post of the file, and the identifier
    reads as its id, or is its stored slug, or is the slug of its
    title. *)
Theorem lookup_answers_a_match :
  forall w x f p,
    FileMode.get_post w x f = ok (PostBody (Some p)) ->
    exists posts,
      f = FileMode.Stored posts /\ In p posts /\
      ((isNaN x = false /\ parseInt x = Some (FileMode.id p)) \/
       FileMode.slug p = x \/
       generateSlug (FileMode.title p) = x).
Proof.
  intros w x f p H.
  destruct (FileMode.readErr w) eqn:Hr;
    [unfold FileMode.get_post in H; rewrite Hr in H; discriminate|].
  destruct f as [raw|posts];
    [unfold FileMode.get_post in H; rewrite Hr in H; discriminate|].
  exists posts. split; [reflexivity|].
  rewrite (file_get_post_chain w x posts Hr) in H.
  destruct (id_match x posts) as [q|] eqn:Hi.
  - inversion H; subst q. unfold id_match in Hi.
    destruct (isNaN x); [discriminate|].
    destruct (find_first_in _ _ _ Hi) as [Hin Hp].
    split; [exact Hin|]. left. split; [reflexivity|].
    apply num_eq_true, Hp.
  - destruct (slug_match x posts) as [q|] eqn:Hs.
    + inversion H; subst q. destruct (find_first_in _ _ _ Hs) as [Hin Hp].
      split; [exact Hin|]. right. left. apply String.eqb_eq, Hp.
    + destruct (derived_match x posts) as [q|] eqn:Hd; [|discriminate].
      inversion H; subst q. destruct (find_first_in _ _ _ Hd) as [Hin Hp].
      split; [exact Hin|]. right. right. apply String.eqb_eq, Hp.
Qed.

Lemma lookup_answers_a_match_witness :
  exists posts,
    FileMode.Stored [sofa_post; number_post] = FileMode.Stored posts /\
    In sofa_post posts /\
    ((isNaN "1700000000000" = false /\
      parseInt "1700000000000" = Some (FileMode.id sofa_post)) \/
     FileMode.slug sofa_post = "1700000000000" \/
     generateSlug (FileMode.title sofa_post) = "1700000000000").
Proof.
  apply (lookup_answers_a_match quiet_world "1700000000000"
           (FileMode.Stored [sofa_post; number_post]) sofa_post).
  reflexivity.
Defined.

(** X14.  File mode: while every stored slug is the slug of its title,
    which the handlers maintain, the third stage of the lookup decides
    nothing: the answer is that of the lookup by id, then by stored slug,
    alone. *)
Theorem derived_stage_is_idle :
  forall w x posts,
    FileMode.readErr w = false ->
    slugs_derived posts ->
    FileMode.get_post w x (FileMode.Stored posts) =
    match id_match x posts with
    | Some p => ok (PostBody (Some p))
    | None =>
        match slug_match x posts with
        | Some p => ok (PostBody (Some p))
        | None => fail 404 "Post not found"
        end
    end.
Proof.
  intros w x posts Hr Hinv.
  rewrite (file_get_post_chain w x posts Hr).
  assert (E : derived_match x posts = slug_match x posts).
  { unfold derived_match, slug_match. apply find_first_ext_in.
    intros p Hp. rewrite (Hinv p Hp). reflexivity. }
  rewrite E. destruct (id_match x posts); [reflexivity|].
  destruct (slug_match x posts); reflexivity.
Qed.

Lemma derived_stage_is_idle_witness :
  FileMode.get_post quiet_world "sofa"
                    (FileMode.Stored [sofa_post; number_post])
  = ok (PostBody (Some sofa_post)).
Proof.
  rewrite (derived_stage_is_idle quiet_world "sofa" [sofa_post; number_post]).
  - reflexivity.
  - reflexivity.
  - intros p [<-|[<-|[]]]; reflexivity.
Defined.

Section UpdateTwice.

Local Open Scope list_scope.

Context {A : Type}.

Lemma update_at_twice (i : nat) (g h : A -> A) (l : list A) :
  update_at i h (update_at i g l) = update_at i (fun x => h (g x)) l.
Proof.
  revert i. induction l as [|a l IH]; intro i; [destruct i; reflexivity|].
  destruct i; cbn [update_at]; [reflexivity | rewrite IH; reflexivity].
Qed.

Lemma update_at_ext (i : nat) (g h : A -> A) (l : list A) :
  (forall x, g x = h x) -> update_at i g l = update_at i h l.
Proof.
  intro E. revert i. induction l as [|a l IH]; intro i; [destruct i; reflexivity|].
  destruct i; cbn [update_at]; [rewrite E | rewrite IH]; reflexivity.
Qed.

Lemma findIndex_update_at (f : A -> bool) (i : nat) (g : A -> A) (l : list A) :
  (forall x, f (g x) = f x) ->
  findIndex f (update_at i g l) = findIndex f l.
Proof.
  intro E. revert i. induction l as [|a l IH]; intro i; [destruct i; reflexivity|].
  destruct i; cbn [update_at findIndex].
  - rewrite E. reflexivity.
  - rewrite IH. reflexivity.
Qed.

End UpdateTwice.

(** X15.  File mode: the last update wins.  When an update of a post has
    succeeded, a later successful update of the same id leaves the file,
    and answers, exactly as if the first had never been made: nothing of
    the first update survives, its [updated] stamp included. *)
Theorem last_update_wins :
  forall w1 w2 id_param t1 c1 l1 t2 c2 l2 f f1,
    FileMode.update w1 id_param t1 c1 l1 f = (ok SuccessBody, f1) ->
    status (fst (FileMode.update w2 id_param t2 c2 l2 f1)) = 200 ->
    FileMode.update w2 id_param t2 c2 l2 f1
    = FileMode.update w2 id_param t2 c2 l2 f.
Proof.
  intros w1 w2 id_param t1 c1 l1 t2 c2 l2 f f1 E1 H2.
  assert (H1 : status (fst (FileMode.update w1 id_param t1 c1 l1 f)) = 200)
    by (rewrite E1; reflexivity).
  revert E1 H1 H2. unfold FileMode.update.
  destruct t1 as [[|a1 t1]|]; try (cbn; discriminate).
  destruct c1 as [[|a2 c1]|]; try (cbn; discriminate).
  destruct l1 as [[|a3 l1]|]; try (cbn; discriminate).
  destruct (FileMode.readErr w1); [cbn; discriminate|].
  destruct f as [raw|posts]; [cbn; discriminate|].
  destruct (findIndex _ posts) as [i|] eqn:Hi; [|cbn; discriminate].
  destruct (FileMode.writeErr w1); [cbn; discriminate|].
  intros E1 _. inversion E1; subst f1. clear E1.
  destruct t2 as [[|b1 t2]|]; try (cbn; discriminate).
  destruct c2 as [[|b2 c2]|]; try (cbn; discriminate).
  destruct l2 as [[|b3 l2]|]; try (cbn; discriminate).
  destruct (FileMode.readErr w2); [cbn; discriminate|].
  rewrite findIndex_update_at by reflexivity.
  rewrite Hi.
  destruct (FileMode.writeErr w2); [cbn; discriminate|].
  intros _. rewrite update_at_twice.
  rewrite (update_at_ext i _
             (FileMode.merge w2 (String b1 t2) (String b2 c2) (String b3 l2)))
    by reflexivity.
  reflexivity.
Qed.

Lemma last_update_wins_witness :
  FileMode.update quiet_world "1700000000000"
                  (Some "Sofa Azul") (Some "novo texto") (Some "sala")
                  (FileMode.Stored
                     [FileMode.merge
                        (FileMode.World false false 1700000100000 "Nov 14"
                                        "2023-11-14T22:15:00.000Z")
                        "Sofa Novo" "outro texto" "quarto" sofa_post;
                      number_post])
  = FileMode.update quiet_world "1700000000000"
                    (Some "Sofa Azul") (Some "novo texto") (Some "sala")
                    (FileMode.Stored [sofa_post; number_post]).
Proof.
  apply (last_update_wins
           (FileMode.World false false 1700000100000 "Nov 14"
                           "2023-11-14T22:15:00.000Z")
           quiet_world "1700000000000"
           (Some "Sofa Novo") (Some "outro texto") (Some "quarto")
           (Some "Sofa Azul") (Some "novo texto") (Some "sala")
           (FileMode.Stored [sofa_post; number_post]));
    reflexivity.
Defined.

(** ** The gate and the header *)

Lemma split_first_field (s : string) :
  exists ws, split " " s = first_field s :: ws.
Proof.
  induction s as [|c s [ws IH]]; [exists []; reflexivity|].
  cbn [split first_field]. destruct (Ascii.eqb c " ").
  - exists (split " " s). reflexivity.
  - rewrite IH. exists ws. reflexivity.
Qed.

(** X16.  Of a header [Bearer <text>] the gate verifies the text up to
    its first space and nothing else: the request proceeds exactly when
    that part verifies, whatever follows the space. *)
Theorem gate_verifies_first_field :
  forall (P : Type) (l : libs) (cfg : config) (clock : Z) (text : string),
    authMiddleware (P := P) l cfg clock (Some ("Bearer " ++ text))
    = if jwt_verify l (first_field text) (JWT_SECRET cfg) clock
      then Proceed
      else Rejected (fail 403 "Invalid token").
Proof.
  intros P l cfg clock text. unfold authMiddleware.
  assert (Hp : String.prefix "Bearer " ("Bearer " ++ text) = true)
    by (apply String.prefix_correct; destruct text; reflexivity).
  rewrite Hp.
  assert (E : split " " ("Bearer " ++ text) = "Bearer" :: split " " text)
    by reflexivity.
  rewrite E. destruct (split_first_field text) as [ws ->].
  reflexivity.
Qed.

(** ** Backend mode: configuration, and upload within update *)

(** X17.  Backend mode: what a missing service configuration does to the
    six handlers that make the client (listing, lookup, create, update,
    delete and upload; login makes none), each taken where it starts,
    after the gate when its route has one, and with body fields that are
    strings or absent.  With [SUPABASE_URL] and [SUPABASE_SERVICE_ROLE]
    both set, each handler is what it does on the service.  With one of
    them unset or empty: the update handler answers 500
    ["Server error"]; the create handler still answers 400 to a request
    lacking a field and the upload handler 400 to a request without a
    file, these checks coming first; in every other case the handler
    ends in the configuration error, uncaught, and sends nothing; and
    in no case is the service called. *)
Theorem missing_configuration :
  forall (T : Type) (env : BackendRoutes.service_env)
         (svc : Backend.Supabase T),
    (truthy (BackendRoutes.SUPABASE_URL env)
     && truthy (BackendRoutes.SUPABASE_SERVICE_ROLE env) = true ->
     (forall select_all st,
         BackendRoutes.list_posts env svc select_all st
         = match select_all st with
           | Backend.Failed message =>
               BackendRoutes.Answered
                 500 (BackendRoutes.listing_error message) st
           | Backend.Data data =>
               BackendRoutes.Answered 200 (BackendRoutes.listing_rows data) st
           end) /\
     (forall x st,
         BackendRoutes.get_post env svc x st
         = BackendRoutes.answered (Backend.get_post svc x st, st)) /\
     (forall now title content label image st,
         BackendRoutes.create env svc now title content label image st
         = BackendRoutes.answered
             (Backend.create svc now title content label image st)) /\
     (forall now iso id_param title content label image file st,
         BackendRoutes.update env svc now iso id_param
                              title content label image file st
         = BackendRoutes.answered
             (Backend.update svc now iso id_param
                             title content label image file st)) /\
     (forall id_param st,
         BackendRoutes.delete env svc id_param st
         = BackendRoutes.answered (Backend.delete svc id_param st)) /\
     (forall now file st,
         BackendRoutes.upload env svc now file st
         = match file with
           | None =>
               BackendRoutes.Answered
                 400 (FileRoutes.error_reply "No file uploaded") st
           | Some originalname =>
               match Backend.storage_upload
                       svc (string_of_Z now ++ "-" ++ originalname) st with
               | (Some message, st') =>
                   BackendRoutes.Answered
                     500 (FileRoutes.error_reply message) st'
               | (None, st') =>
                   BackendRoutes.Answered
                     200
                     (FileRoutes.url_reply
                        (Backend.getPublicUrl
                           svc (string_of_Z now ++ "-" ++ originalname)))
                     st'
               end
           end))
    /\
    (truthy (BackendRoutes.SUPABASE_URL env)
     && truthy (BackendRoutes.SUPABASE_SERVICE_ROLE env) = false ->
     (forall select_all st,
         BackendRoutes.list_posts env svc select_all st
         = BackendRoutes.Escaped BackendRoutes.not_set) /\
     (forall x st,
         BackendRoutes.get_post env svc x st
         = BackendRoutes.Escaped BackendRoutes.not_set) /\
     (forall now title content label image st,
         BackendRoutes.create env svc now title content label image st
         = if truthy title && truthy content && truthy label
           then BackendRoutes.Escaped BackendRoutes.not_set
           else BackendRoutes.Answered 400 (ErrorBody "Missing fields") st) /\
     (forall now iso id_param title content label image file st,
         BackendRoutes.update env svc now iso id_param
                              title content label image file st
         = BackendRoutes.Answered 500 (ErrorBody "Server error") st) /\
     (forall id_param st,
         BackendRoutes.delete env svc id_param st
         = BackendRoutes.Escaped BackendRoutes.not_set) /\
     (forall now file st,
         BackendRoutes.upload env svc now file st
         = match file with
           | Some _ => BackendRoutes.Escaped BackendRoutes.not_set
           | None =>
               BackendRoutes.Answered
                 400 (FileRoutes.error_reply "No file uploaded") st
           end)).
Proof.
  intros T env svc. split; intro H.
  - assert (C : BackendRoutes.supabaseClient env svc = Some svc).
    { unfold BackendRoutes.supabaseClient.
      apply andb_true_iff in H. destruct H as [-> ->]. reflexivity. }
    repeat split; intros;
      unfold BackendRoutes.list_posts, BackendRoutes.get_post,
             BackendRoutes.create, BackendRoutes.update,
             BackendRoutes.delete, BackendRoutes.upload;
      rewrite ?C; try reflexivity.
    all: try solve [destruct file; rewrite ?C; reflexivity].
    unfold Backend.create, BackendRoutes.answered.
    destruct title as [[|? ?]|]; try reflexivity;
      destruct content as [[|? ?]|]; try reflexivity;
      destruct label as [[|? ?]|]; try reflexivity.
    rewrite ?C.
    destruct (Backend.insert svc _ st) as [[m|data] st']; reflexivity.
  - assert (C : BackendRoutes.supabaseClient env svc = None).
    { unfold BackendRoutes.supabaseClient.
      apply andb_false_iff in H. destruct H as [-> | ->];
        [reflexivity|].
      cbn [negb]. rewrite orb_true_r. reflexivity. }
    repeat split; intros;
      unfold BackendRoutes.list_posts, BackendRoutes.get_post,
             BackendRoutes.create, BackendRoutes.update,
             BackendRoutes.delete, BackendRoutes.upload;
      rewrite ?C; try reflexivity.
    all: try solve [destruct file; rewrite ?C; reflexivity].
    destruct title as [[|? ?]|]; try reflexivity;
      destruct content as [[|? ?]|]; try reflexivity;
      destruct label as [[|? ?]|]; try reflexivity;
      rewrite ?C; reflexivity.
Qed.

Lemma missing_configuration_witness :
  BackendRoutes.update
    (BackendRoutes.ServiceEnv (Some "https://x.supabase.co") None)
    Backend.reference 1700000500000 "2023-11-14T22:21:40.000Z" "1"
    (Some "Sofa Novo") None None None None sofa_db
  = BackendRoutes.Answered 500 (ErrorBody "Server error") sofa_db
  /\
  BackendRoutes.list_posts
    (BackendRoutes.ServiceEnv (Some "https://x.supabase.co") (Some ""))
    Backend.reference (fun d => Backend.Data (rev (Backend.rows d))) sofa_db
  = BackendRoutes.Escaped BackendRoutes.not_set
  /\
  BackendRoutes.delete
    (BackendRoutes.ServiceEnv (Some "https://x.supabase.co") (Some "key"))
    Backend.reference "1" sofa_db
  = BackendRoutes.answered (Backend.delete Backend.reference "1" sofa_db).
Proof.
  split; [|split].
  - apply (proj2 (missing_configuration
                    Backend.db
                    (BackendRoutes.ServiceEnv (Some "https://x.supabase.co") None)
                    Backend.reference)).
    reflexivity.
  - apply (proj2 (missing_configuration
                    Backend.db
                    (BackendRoutes.ServiceEnv (Some "https://x.supabase.co")
                                              (Some ""))
                    Backend.reference)).
    reflexivity.
  - apply (proj1 (missing_configuration
                    Backend.db
                    (BackendRoutes.ServiceEnv (Some "https://x.supabase.co")
                                              (Some "key"))
                    Backend.reference)).
    reflexivity.
Defined.

(** X18.  Backend mode, whatever the service: an update request that
    carries a file does what the upload route followed by an update
    request naming the returned URL would do.  When the upload route
    would answer 200 with a URL, the update is the update without a file
    whose [image] is that URL, on the store the upload leaves; when it
    would answer 500, the update answers the same 500 and goes no
    further. *)
Theorem update_with_file_is_upload_then_update :
  forall (T : Type) (env : BackendRoutes.service_env)
         (svc : Backend.Supabase T)
         now iso id_param title content label image originalname st,
    (forall url st',
        BackendRoutes.upload env svc now (Some originalname) st
        = BackendRoutes.Answered 200 (FileRoutes.url_reply url) st' ->
        Backend.update svc now iso id_param title content label image
                       (Some originalname) st
        = Backend.update svc now iso id_param title content label
                         (Some url) None st')
    /\
    (forall message st',
        BackendRoutes.upload env svc now (Some originalname) st
        = BackendRoutes.Answered 500 (FileRoutes.error_reply message) st' ->
        Backend.update svc now iso id_param title content label image
                       (Some originalname) st
        = (fail 500 message, st')).
Proof.
  intros T env svc now iso id_param title content label image originalname st.
  unfold BackendRoutes.upload, Backend.update.
  destruct (BackendRoutes.supabaseClient env svc) as [c|] eqn:C.
  - assert (c = svc).
    { unfold BackendRoutes.supabaseClient in C.
      destruct (negb _ || negb _); inversion C. reflexivity. }
    subst c.
    destruct (Backend.storage_upload svc _ st) as [[m|] st1]; split;
      intros ? ? E; inversion E; subst; reflexivity.
  - split; intros ? ? E; discriminate.
Qed.

Lemma update_with_file_is_upload_then_update_witness :
  Backend.update Backend.reference 1700000500000 "2023-11-14T22:21:40.000Z"
                 "1" None None None None (Some "mesa.png") sofa_db
  = Backend.update Backend.reference 1700000500000 "2023-11-14T22:21:40.000Z"
                   "1" None None None
                   (Some "/storage/v1/object/public/uploads/1700000500000-mesa.png")
                   None
                   (Backend.mkDb [sofa_row] 2
                                 ["1700000500000-mesa.png";
                                  "1700000000000-sofa.png"]
                                 "2023-11-14T22:21:40Z" None).
Proof.
  apply (proj1 (update_with_file_is_upload_then_update
                  Backend.db
                  (BackendRoutes.ServiceEnv (Some "https://x.supabase.co")
                                            (Some "key"))
                  Backend.reference 1700000500000 "2023-11-14T22:21:40.000Z"
                  "1" None None None None "mesa.png" sofa_db)).
  reflexivity.
Defined.

(** X19.  Backend mode, on the reference service: an update request for
    an id that no row has is answered 200 with [success: true] and no
    post, and the table keeps its rows untouched; the handler has no
    not-found answer. *)
Theorem backend_update_of_absent_id :
  forall now iso id_param n title content label image d,
    Backend.outage d = None ->
    Backend.pg_int id_param = Some n ->
    (forall r, In r (Backend.rows d) -> Backend.id r <> n) ->
    fst (Backend.update Backend.reference now iso id_param
                        title content label image None d)
    = Response 200 (SuccessPostBody None) /\
    Backend.rows (snd (Backend.update Backend.reference now iso id_param
                                      title content label image None d))
    = Backend.rows d.
Proof.
  intros now iso id_param n title content label image d Ho Hn Hno.
  destruct (backend_update_reference now iso id_param n title content label
              image None d Ho Hn) as (d' & E & Hrows); [discriminate|].
  rewrite E. cbn [fst snd]. rewrite Hrows.
  assert (Hf : filter (fun r => Z.eqb (Backend.id r) n) (Backend.rows d) = []).
  { apply filter_none. intros r Hr. apply Z.eqb_neq, Hno, Hr. }
  rewrite Hf. split; [reflexivity|].
  rewrite <- (map_id (Backend.rows d)) at 2. apply map_ext_in.
  intros r Hr. destruct (Z.eqb (Backend.id r) n) eqn:Er; [|reflexivity].
  apply Z.eqb_eq in Er. elim (Hno r Hr Er).
Qed.

Lemma backend_update_of_absent_id_witness :
  fst (Backend.update Backend.reference 1700000500000
                      "2023-11-14T22:21:40.000Z" "42"
                      (Some "Mesa") None None None None sofa_db)
  = Response 200 (SuccessPostBody None) /\
  Backend.rows (snd (Backend.update Backend.reference 1700000500000
                                    "2023-11-14T22:21:40.000Z" "42"
                                    (Some "Mesa") None None None None sofa_db))
  = [sofa_row].
Proof.
  apply (backend_update_of_absent_id 1700000500000 "2023-11-14T22:21:40.000Z"
           "42" 42 (Some "Mesa") None None None sofa_db eq_refl eq_refl).
  intros r [<-|[]]. discriminate.
Defined.

Lemma string_of_Z_digits1 (n : Z) :
  (0 <= n)%Z -> digits1 is_digit (string_of_Z n) = true.
Proof.
  destruct n as [|p|p]; intro H; [reflexivity | | lia].
  apply uint_string_nonempty.
Qed.

(** X20.  Backend mode, whatever the service: a post created from a
    title whose derived slug is empty (a title of punctuation alone, say)
    gets the slug [-<Date.now()>], which reads as a number, so the lookup
    of that slug questions the id column and never the slug column. *)
Theorem bare_timestamp_slug_is_looked_up_as_id :
  forall (T : Type) (svc : Backend.Supabase T) now title content label image st,
    generateSlug title = "" ->
    (0 <= now)%Z ->
    Backend.new_slug (Backend.new_row now title content label image)
    = "-" ++ string_of_Z now /\
    Backend.get_post svc
      (Backend.new_slug (Backend.new_row now title content label image)) st
    = match Backend.select_single svc Backend.col_id
              ("-" ++ string_of_Z now) st with
      | Backend.Data (Some row) => ok (PostBody (Some row))
      | _ => fail 404 "Post not found"
      end.
Proof.
  intros T svc now title content label image st Ht Hn.
  assert (E : Backend.new_slug (Backend.new_row now title content label image)
              = "-" ++ string_of_Z now).
  { cbn [Backend.new_slug Backend.new_row]. rewrite Ht. reflexivity. }
  rewrite E. split; [reflexivity|].
  unfold Backend.get_post.
  change ("-" ++ string_of_Z now) with (String "-" (string_of_Z now)).
  rewrite (proj2 (isNaN_digits _ (string_of_Z_digits1 now Hn))).
  cbn [negb].
  destruct (Backend.select_single svc Backend.col_id _ st) as [m|[row|]];
    reflexivity.
Qed.

Lemma bare_timestamp_slug_is_looked_up_as_id_witness :
  Backend.new_slug (Backend.new_row 1700000000000 "?!" "text" "sala" None)
  = "-" ++ string_of_Z 1700000000000 /\
  Backend.get_post Backend.reference
    (Backend.new_slug (Backend.new_row 1700000000000 "?!" "text" "sala" None))
    (Backend.mkDb
       [Backend.mkRow 1 "?!" "text" "sala" "-1700000000000" None
                      "2023-11-14T22:13:20Z" None]
       2 [] "2023-11-14T22:21:40Z" None)
  = fail 404 "Post not found".
Proof.
  destruct (bare_timestamp_slug_is_looked_up_as_id
              Backend.db Backend.reference 1700000000000 "?!" "text" "sala" None
              (Backend.mkDb
                 [Backend.mkRow 1 "?!" "text" "sala" "-1700000000000" None
                                "2023-11-14T22:13:20Z" None]
                 2 [] "2023-11-14T22:21:40Z" None))
    as [E G]; [reflexivity | lia |].
  split; [exact E | rewrite G; reflexivity].
Defined.

(** ** Ids in the path of the update and delete routes *)

Lemma digit_val_none (c : ascii) : is_digit c = false -> digit_val c = None.
Proof. unfold digit_val. intros ->. reflexivity. Qed.

Lemma ends_number_read (rest : string) (acc : Z) :
  ends_number rest = true ->
  read_digits digit_val 10 true acc rest = Some acc.
Proof.
  destruct rest as [|c r]; [reflexivity|]. cbn [ends_number read_digits].
  intro H. apply andb_true_iff in H. destruct H as [H _].
  apply andb_true_iff in H. destruct H as [H _].
  apply negb_true_iff in H. rewrite (digit_val_none c H). reflexivity.
Qed.

Lemma read_digits_acc_then (d : Decimal.uint) (acc : positive) (rest : string) :
  ends_number rest = true ->
  read_digits digit_val 10 true (Zpos acc) (NilEmpty.string_of_uint d ++ rest)
  = Some (Zpos (Pos.of_uint_acc d acc)).
Proof.
  intro Hr. revert acc. induction d; intro acc;
    cbn [NilEmpty.string_of_uint append read_digits Pos.of_uint_acc];
    [apply ends_number_read, Hr | ..];
    match goal with
    | |- context [digit_val ?c] =>
        let v := eval vm_compute in (digit_val c) in
        change (digit_val c) with v; cbv iota
    end;
    match goal with
    | |- read_digits _ _ _ ?z _ = Some (Zpos (Pos.of_uint_acc _ ?q)) =>
        replace z with (Zpos q) by lia
    end;
    apply IHd.
Qed.

Lemma read_digits_zero_then (d : Decimal.uint) (seen : bool) (rest : string) :
  ends_number rest = true ->
  seen = true \/ d <> Decimal.Nil ->
  read_digits digit_val 10 seen 0 (NilEmpty.string_of_uint d ++ rest)
  = Some (Z.of_N (Pos.of_uint d)).
Proof.
  intro Hr. revert seen. induction d; intros seen H;
    cbn [NilEmpty.string_of_uint append read_digits Pos.of_uint];
    [destruct H as [->|H];
     [apply (ends_number_read rest 0 Hr) | elim H; reflexivity] | ..];
    match goal with
    | |- context [digit_val ?c] =>
        let v := eval vm_compute in (digit_val c) in
        change (digit_val c) with v; cbv iota
    end;
    try (apply IHd; left; reflexivity);
    cbn [Z.mul Z.add Z.of_N];
    match goal with
    | |- read_digits _ _ _ (Zpos ?q) _ = _ =>
        apply (read_digits_acc_then d q rest Hr)
    end.
Qed.

(** [parseInt] on a text that starts with a decimal digit not followed by
    the [x] of a hexadecimal prefix, signed or not. *)
Lemma parseInt_decimal_head (c : ascii) (r : string) :
  is_digit c = true ->
  (forall x r', r = String x r' -> chr_is "x" x = false /\ chr_is "X" x = false) ->
  parseInt (String c r) = read_digits digit_val 10 false 0 (String c r) /\
  parseInt (String "-" (String c r))
  = option_map Z.opp (read_digits digit_val 10 false 0 (String c r)).
Proof.
  intros Hc Hx.
  destruct (digit_plain c Hc) as (Hm & Hp & _).
  assert (H0 : forall x r', r = String x r' ->
                 chr_is "0" c && (chr_is "x" x || chr_is "X" x) = false).
  { intros x r' E. destruct (Hx x r' E) as [-> ->]. apply andb_false_r. }
  split.
  - unfold parseInt. rewrite (trim_left_unmoved _ _ _ (digit_not_ws c Hc)).
    rewrite Hm, Hp. destruct r as [|x r'].
    + destruct (read_digits digit_val 10 false 0 (String c "")); reflexivity.
    + rewrite (H0 x r' eq_refl).
      destruct (read_digits digit_val 10 false 0 (String c (String x r')));
        reflexivity.
  - unfold parseInt.
    rewrite (trim_left_unmoved is_ws "-" _ eq_refl).
    change (chr_is "-" "-") with true. cbv iota. destruct r as [|x r'].
    + destruct (read_digits digit_val 10 false 0 (String c "")); reflexivity.
    + rewrite (H0 x r' eq_refl).
      destruct (read_digits digit_val 10 false 0 (String c (String x r')));
        reflexivity.
Qed.

Lemma digits_then_rest_head (ds rest : string) :
  digits1 is_digit ds = true -> ends_number rest = true ->
  exists c r,
    ds ++ rest = String c r /\ is_digit c = true /\
    forall x r', r = String x r' ->
                 chr_is "x" x = false /\ chr_is "X" x = false.
Proof.
  destruct ds as [|c r]; [discriminate|]. cbn [digits1 all_in].
  intros H Hrest. apply andb_true_iff in H. destruct H as [Hc Hr].
  exists c, (r ++ rest). split; [reflexivity | split; [exact Hc|]].
  intros x r' E. destruct r as [|y r0]; cbn [append] in E.
  - subst rest. cbn [ends_number] in Hrest.
    apply andb_true_iff in Hrest. destruct Hrest as [H HX].
    apply andb_true_iff in H. destruct H as [_ Hx'].
    apply negb_true_iff in HX, Hx'. split; assumption.
  - inversion E; subst y. cbn [all_in] in Hr. apply andb_true_iff in Hr.
    destruct (digit_plain x (proj1 Hr)) as (_ & _ & Hx' & HX & _).
    split; assumption.
Qed.

(** [parseInt] reads an integer in decimal and stops where the digits
    stop. *)
Lemma parseInt_stops (n : Z) (rest : string) :
  ends_number rest = true -> parseInt (string_of_Z n ++ rest) = Some n.
Proof.
  intro Hr.
  assert (Hpos : forall p,
             parseInt (NilEmpty.string_of_uint (Pos.to_uint p) ++ rest)
             = Some (Zpos p) /\
             parseInt (String "-" (NilEmpty.string_of_uint (Pos.to_uint p) ++ rest))
             = Some (Zneg p)).
  { intro p.
    destruct (digits_then_rest_head _ rest (uint_string_nonempty p) Hr)
      as (c & r & E & Hc & Hx).
    assert (R : read_digits digit_val 10 false 0
                  (NilEmpty.string_of_uint (Pos.to_uint p) ++ rest)
                = Some (Zpos p)).
    { rewrite read_digits_zero_then;
        [| exact Hr | right; apply DecimalPos.Unsigned.to_uint_nonnil].
      rewrite DecimalPos.Unsigned.of_to. reflexivity. }
    rewrite E in *.
    destruct (parseInt_decimal_head c r Hc Hx) as [-> ->].
    rewrite R. split; reflexivity. }
  destruct n as [|p|p]; unfold string_of_Z;
    cbn [Z.to_int NilEmpty.string_of_int].
  - change (NilEmpty.string_of_uint Decimal.zero ++ rest) with (String "0" rest).
    assert (Hx : forall x r', rest = String x r' ->
                   chr_is "x" x = false /\ chr_is "X" x = false).
    { intros x r' ->. cbn [ends_number] in Hr.
      apply andb_true_iff in Hr. destruct Hr as [H HX].
      apply andb_true_iff in H. destruct H as [_ Hx'].
      apply negb_true_iff in HX, Hx'. split; assumption. }
    rewrite (proj1 (parseInt_decimal_head "0" rest eq_refl Hx)).
    cbn [read_digits]. change (digit_val "0") with (Some 0%Z). cbv iota.
    apply (ends_number_read rest _ Hr).
  - apply (proj1 (Hpos p)).
  - apply (proj2 (Hpos p)).
Qed.

Lemma file_update_by_parsed_id (w : FileMode.world) (a b : string)
      (title content label : option string) (f : FileMode.file) :
  parseInt a = parseInt b ->
  FileMode.update w a title content label f
  = FileMode.update w b title content label f.
Proof. intro E. unfold FileMode.update. rewrite E. reflexivity. Qed.

Lemma file_delete_by_parsed_id (w : FileMode.world) (a b : string)
      (f : FileMode.file) :
  parseInt a = parseInt b ->
  FileMode.delete w a f = FileMode.delete w b f.
Proof. intro E. unfold FileMode.delete. rewrite E. reflexivity. Qed.

(** X21.  File mode: the update and delete routes read the id in the
    path with [parseInt], which stops where the digits stop.  An id
    followed by any text that starts with neither a digit nor [x] or [X]
    is taken for that id: [DELETE /api/posts/12abc] is
    [DELETE /api/posts/12]. *)
Theorem id_in_path_ignores_trailing_text :
  forall w n rest f,
    ends_number rest = true ->
    FileMode.delete w (string_of_Z n ++ rest) f
    = FileMode.delete w (string_of_Z n) f /\
    forall title content label,
      FileMode.update w (string_of_Z n ++ rest) title content label f
      = FileMode.update w (string_of_Z n) title content label f.
Proof.
  intros w n rest f Hr.
  assert (E : parseInt (string_of_Z n ++ rest) = parseInt (string_of_Z n))
    by (rewrite parseInt_stops, parseInt_string_of_Z by exact Hr; reflexivity).
  split; [apply file_delete_by_parsed_id, E|].
  intros title content label. apply file_update_by_parsed_id, E.
Qed.

Lemma id_in_path_ignores_trailing_text_witness :
  FileMode.delete quiet_world "1700000000000abc"
                  (FileMode.Stored [sofa_post; number_post])
  = FileMode.delete quiet_world "1700000000000"
                    (FileMode.Stored [sofa_post; number_post]).
Proof.
  apply (proj1 (id_in_path_ignores_trailing_text
                  quiet_world 1700000000000 "abc"
                  (FileMode.Stored [sofa_post; number_post]) eq_refl)).
Defined.

(** ** File mode: upload, alone and within create *)

(** X22.  File mode: for a request that passes the gate with a file, the
    upload route stores the file under [<Date.now()>-<original name>] and
    answers the URL [/uploads/<that name>]; the create route stores the
    file under the same name and, when it answers 200, gives the new post
    that URL behind [<protocol>://<host>] as its image. *)
Theorem upload_url_is_the_post_image :
  forall l cfg clock auth now originalname d,
    authMiddleware (P := FileMode.Post) l cfg clock auth = Proceed ->
    FileRoutes.post_upload l cfg clock auth now (Some originalname) d
    = (inr (200, FileRoutes.url_reply
                   ("/uploads/" ++ FileRoutes.filename now originalname)),
       FileRoutes.Disk (FileRoutes.posts_file d)
                       (FileRoutes.filename now originalname
                          :: FileRoutes.uploads d))
    /\
    forall w title content label protocol host,
      status (fst (FileRoutes.post_posts l cfg clock auth now
                     (Some originalname) w title content label
                     protocol host d)) = 200 ->
      exists before np,
        snd (FileRoutes.post_posts l cfg clock auth now (Some originalname)
               w title content label protocol host d)
        = FileRoutes.Disk
            (FileMode.Stored (before ++ [np])%list)
            (FileRoutes.filename now originalname :: FileRoutes.uploads d) /\
        FileMode.image np
        = Some (protocol ++ "://" ++ host ++ "/uploads/"
                         ++ FileRoutes.filename now originalname).
Proof.
  intros l cfg clock auth now originalname d Hg. split.
  - unfold FileRoutes.post_upload. rewrite Hg. reflexivity.
  - intros w title content label protocol host.
    unfold FileRoutes.post_posts, protected. rewrite Hg.
    cbn [FileRoutes.upload_single]. unfold FileRoutes.on_posts_file.
    cbn [FileRoutes.posts_file FileRoutes.uploads].
    match goal with
    | |- context [FileMode.create w ?rq ?f] =>
        pose proof (file_create_ok w rq f) as Hok;
        destruct (FileMode.create w rq f) as [r f'] eqn:E
    end.
    cbn [fst snd]. intro H200.
    destruct (Hok H200) as (t & c & lb & _ & _ & _ & _ & E').
    inversion E'; subst f'.
    eexists. eexists. split; reflexivity.
Qed.

Lemma upload_url_is_the_post_image_witness :
  FileRoutes.post_upload toy_libs toy_config 1700000000000
                         (Some "Bearer k.admin.1700003600")
                         1700000000123 (Some "sofa.png")
                         (FileRoutes.Disk (FileMode.Stored []) [])
  = (inr (200, FileRoutes.url_reply "/uploads/1700000000123-sofa.png"),
     FileRoutes.Disk (FileMode.Stored []) ["1700000000123-sofa.png"]).
Proof.
  apply (proj1 (upload_url_is_the_post_image
                  toy_libs toy_config 1700000000000
                  (Some "Bearer k.admin.1700003600")
                  1700000000123 "sofa.png"
                  (FileRoutes.Disk (FileMode.Stored []) []) eq_refl)).
Defined.

(** ** Login: the refusals *)

(** X23.  Login answers 400 exactly when the user name or the password
    is absent or empty, whatever the configuration; and its 401 is one
    and the same response whether the user name or the password was
    wrong, so the answer does not tell which. *)
Theorem login_refusals :
  forall (P : Type) (l : libs) (cfg : config) (clock : Z)
         (username password : option string),
    (status (login (P := P) l cfg clock username password) = 400 <->
     truthy username && truthy password = false)
    /\
    (status (login (P := P) l cfg clock username password) = 401 ->
     login (P := P) l cfg clock username password
     = fail 401 "Invalid credentials").
Proof.
  intros P l cfg clock username password. unfold login.
  destruct username as [[|a u]|]; destruct password as [[|b pw]|];
    cbn [truthy negb orb andb];
    try (split; [split; reflexivity | discriminate]).
  destruct (ADMIN_USERNAME cfg) as [adm|];
    [destruct (String.eqb (String a u) adm)|]; cbn [negb];
    try (split; [split; discriminate | reflexivity]).
  destruct (bcrypt_compare l (String b pw) (ADMIN_PASSWORD cfg)) as [[|]|];
    [destruct (jwt_sign l (String a u) (JWT_SECRET cfg) one_hour clock)| |];
    split; try (split; discriminate); try discriminate; reflexivity.
Qed.

Lemma login_refusals_witness :
  login (P := FileMode.Post) toy_libs toy_config 1700000000000
        (Some "root") (Some "s3cret")
  = login (P := FileMode.Post) toy_libs toy_config 1700000000000
          (Some "admin") (Some "guess").
Proof.
  rewrite (proj2 (login_refusals FileMode.Post toy_libs toy_config
                    1700000000000 (Some "root") (Some "s3cret")) eq_refl).
  rewrite (proj2 (login_refusals FileMode.Post toy_libs toy_config
                    1700000000000 (Some "admin") (Some "guess")) eq_refl).
  reflexivity.
Defined.
